(** * noWorkflow: the execution provenance collector

    A shallow embedding of [now/collection/prov_execution/collector.py]
    (class [Collector]) and the properties of its hooks.

    The collector is a stateful object: every method becomes a function
    in the monad [M] below, which threads the collector state and the
    Python exceptions a method can raise.  Mutable Python objects that
    are shared between several owners (Dependency objects, activations,
    evaluations) live in finite maps or heaps of the state and are
    passed around by reference, as in the source. *)

From Stdlib Require Import ZArith String Lia.
From stdpp Require Import gmap strings list fin_maps pretty.

Local Open Scope Z_scope.

(** ** Runtime objects of the host interpreter *)

(** A type object.  Following [type(...)] from any type reaches the
    builtin [type], whose type is itself. *)
Inductive pytype : Type :=
| TypeRoot
| Class (addr : nat) (name : string) (meta : pytype).

(** A runtime object as far as the collector observes it: its identity,
    its type, its [repr], whether it is an instance of [IMMUTABLE],
    whether [isiterable] holds, and its items when it is a sequence.
    Functions are objects with a [__name__]. *)
#[warnings="-register-all"]
Inductive pyobj : Type :=
| OType (t : pytype)
| OInst (addr : nat) (cls : pytype) (repr : string)
        (immutable iterable : bool) (items : option (list pyobj))
| OFunc (addr : nat) (cls : pytype) (name repr : string).

Fixpoint pytype_chain (t : pytype) : list (nat * string) :=
  match t with
  | TypeRoot => []
  | Class a n m => (a, n) :: pytype_chain m
  end.

Fixpoint chain_pytype (l : list (nat * string)) : pytype :=
  match l with
  | [] => TypeRoot
  | (a, n) :: l' => Class a n (chain_pytype l')
  end.

#[global] Instance pytype_eq_dec : EqDecision pytype.
Proof. solve_decision. Defined.

#[global] Instance pytype_countable : Countable pytype.
Proof.
  refine (inj_countable' pytype_chain chain_pytype _).
  intros t; induction t as [|a n m IH]; simpl; [done | by rewrite IH].
Defined.

(** [type(value)] *)
Definition py_type (value : pyobj) : pytype :=
  match value with
  | OType TypeRoot => TypeRoot
  | OType (Class _ _ meta) => meta
  | OInst _ cls _ _ _ _ => cls
  | OFunc _ cls _ _ => cls
  end.

Definition repr_type (t : pytype) : string :=
  match t with
  | TypeRoot => "<class 'type'>"
  | Class _ n _ => "<class '" +:+ n +:+ "'>"
  end.

(** [repr(value)] *)
Definition py_repr (value : pyobj) : string :=
  match value with
  | OType t => repr_type t
  | OInst _ _ r _ _ _ => r
  | OFunc _ _ _ r => r
  end.

(** [a is b] *)
Definition py_is (a b : pyobj) : bool :=
  match a, b with
  | OType t1, OType t2 => bool_decide (t1 = t2)
  | OInst a1 _ _ _ _ _, OInst a2 _ _ _ _ _ => Nat.eqb a1 a2
  | OFunc a1 _ _ _, OFunc a2 _ _ _ => Nat.eqb a1 a2
  | _, _ => false
  end.

(** [isinstance(value, IMMUTABLE)] *)
Definition is_immutable (value : pyobj) : bool :=
  match value with
  | OType _ => false
  | OInst _ _ _ imm _ _ => imm
  | OFunc _ _ _ _ => false
  end.

(** [isiterable(value)] *)
Definition isiterable (value : pyobj) : bool :=
  match value with
  | OType _ => false
  | OInst _ _ _ _ it _ => it
  | OFunc _ _ _ _ => false
  end.

(** The sequence view of an object: what [len], indexing and slicing
    see.  [None] for objects that are not sequences. *)
Definition py_items (value : pyobj) : option (list pyobj) :=
  match value with
  | OType _ => None
  | OInst _ _ _ _ _ items => items
  | OFunc _ _ _ _ => None
  end.

(** [func.__name__]; [None] when the object has no such attribute. *)
Definition py_name (func : pyobj) : option string :=
  match func with
  | OType TypeRoot => Some "type"
  | OType (Class _ n _) => Some n
  | OInst _ _ _ _ _ _ => None
  | OFunc _ _ n _ => Some n
  end.

Definition NoneType : pytype := Class 0 "NoneType" TypeRoot.
Definition py_None : pyobj := OInst 0 NoneType "None" true false None.

(** ** Records of the provenance graph *)

Definition moment := nat.

Record Value := mkValue {
  v_id : Z; v_repr : string; v_type_id : Z }.

Record Evaluation := mkEvaluation {
  e_id : Z; e_code_component_id : Z; e_activation_id : Z;
  e_moment : option moment; e_value_id : option Z }.

Record CodeComponent := mkCodeComponent {
  cc_id : Z; cc_name : string; cc_type : string; cc_mode : string;
  cc_first_line : Z; cc_first_col : Z; cc_last_line : Z; cc_last_col : Z;
  cc_container_id : Z }.

(** A committed dependency edge (a record of [dependencies_store]). *)
Record DependencyRecord := mkDependencyRecord {
  dr_id : Z;
  dr_dependent_activation_id : Z; dr_dependent_id : Z;
  dr_dependency_activation_id : Z; dr_dependency_id : Z;
  dr_mode : string }.

Record Compartment := mkCompartment {
  cp_id : Z; cp_name : string; cp_moment : option moment;
  cp_whole_id : option Z; cp_part_id : option Z }.

(** ** Python exceptions *)

Inductive pyexc : Type :=
| IndexError
| TypeError
| AttributeError
| KeyError
| UserException (payload : pyobj)
(** not a Python exception: a reference that no object of the state
    answers to; no well-formed collector state produces it *)
| BadReference.

Record ExceptionRecord := mkExceptionRecord {
  x_id : Z; x_exception : pyexc; x_activation_id : Z }.

(** ** Transient structures ([structures.py]) *)

(** Modelled from the spec: the class [Dependency] of [structures.py] is
    not in the sources; its fields are the five constructor arguments
    used by the collector plus the attributes [arg], [kind] and
    [sub_dependencies] that the collector reads and writes.
    Dependency objects are mutable and shared: they live in [dep_heap]
    and are referred to by their index. *)
Record Dependency := mkDependency {
  dep_activation_id : Z; dep_evaluation_id : Z;
  dep_value : pyobj; dep_value_id : option Z; dep_mode : string;
  dep_arg : string; dep_kind : string; dep_sub_dependencies : list nat }.

Definition new_Dependency (activation_id evaluation_id : Z) (value : pyobj)
    (value_id : option Z) (mode : string) : Dependency :=
  mkDependency activation_id evaluation_id value value_id mode "" "" [].

Definition set_dep_mode (mode : string) (d : Dependency) : Dependency :=
  mkDependency (dep_activation_id d) (dep_evaluation_id d) (dep_value d)
    (dep_value_id d) mode (dep_arg d) (dep_kind d) (dep_sub_dependencies d).

Definition set_dep_arg_kind (arg kind : string) (d : Dependency) : Dependency :=
  mkDependency (dep_activation_id d) (dep_evaluation_id d) (dep_value d)
    (dep_value_id d) (dep_mode d) arg kind (dep_sub_dependencies d).

Definition set_dep_sub_dependencies (subs : list nat) (d : Dependency) : Dependency :=
  mkDependency (dep_activation_id d) (dep_evaluation_id d) (dep_value d)
    (dep_value_id d) (dep_mode d) (dep_arg d) (dep_kind d) subs.

Inductive depa_class := PlainScope | CompartmentScope | CollectionScope.

(** Modelled from the spec: the classes [DependencyAware],
    [CompartmentDependencyAware] and [CollectionDependencyAware] of
    [structures.py] are not in the sources.  The spec gives three
    variants: plain (an ordered list of pending dependencies),
    compartment (plain plus a [key] slot) and collection (plain plus an
    ordered list of [(key, value_id, moment)] triples).  [depa_key] is
    [None] until a hook stores a key; [depa_items] is [None] on scopes
    that have no [items] attribute. *)
Record DependencyAware := mkDepa {
  depa_class_of : depa_class;
  depa_dependencies : list nat;
  depa_key : option pyobj;
  depa_items : option (list (pyobj * option Z * option moment)) }.

Definition new_DependencyAware : DependencyAware :=
  mkDepa PlainScope [] None None.
Definition new_CompartmentDependencyAware : DependencyAware :=
  mkDepa CompartmentScope [] None None.
Definition new_CollectionDependencyAware : DependencyAware :=
  mkDepa CollectionScope [] None (Some []).

(** [depa.add(dependency)] *)
Definition depa_add (r : nat) (d : DependencyAware) : DependencyAware :=
  mkDepa (depa_class_of d) (depa_dependencies d ++ [r]) (depa_key d) (depa_items d).

Definition depa_set_dependencies (l : list nat) (d : DependencyAware) : DependencyAware :=
  mkDepa (depa_class_of d) l (depa_key d) (depa_items d).

Definition depa_set_key (k : pyobj) (d : DependencyAware) : DependencyAware :=
  mkDepa (depa_class_of d) (depa_dependencies d) (Some k) (depa_items d).

Definition depa_set_items (l : list (pyobj * option Z * option moment))
    (d : DependencyAware) : DependencyAware :=
  mkDepa (depa_class_of d) (depa_dependencies d) (depa_key d) (Some l).

(** [Assign(moment, value, dependency)] *)
Record Assign := mkAssign {
  as_moment : moment; as_value : pyobj; as_dependency : DependencyAware }.

(** Modelled from the spec: the lightweight activation object is not in
    the sources.  Per the spec it carries the persistent fields, a
    [context] from names to evaluations, a stack of dependency-aware
    scopes, the pending assignments and the function being called; its
    id is the id of its evaluation (the foreign key of the persistence
    model [Activation]).  Evaluations and the closure are held by
    reference (their ids). *)
Record Activation := mkActivation {
  a_id : Z; a_name : string; a_start : option moment; a_code_block_id : option Z;
  a_evaluation : Z;
  a_closure : option Z;
  a_context : gmap string Z;
  a_dependencies : list DependencyAware;
  a_assignments : list Assign;
  a_func : option pyobj;
  a_depedency_type : string }.

Definition set_a_dependencies (f : list DependencyAware -> list DependencyAware)
    (a : Activation) : Activation :=
  mkActivation (a_id a) (a_name a) (a_start a) (a_code_block_id a) (a_evaluation a)
    (a_closure a) (a_context a) (f (a_dependencies a)) (a_assignments a)
    (a_func a) (a_depedency_type a).

Definition set_a_context (f : gmap string Z -> gmap string Z)
    (a : Activation) : Activation :=
  mkActivation (a_id a) (a_name a) (a_start a) (a_code_block_id a) (a_evaluation a)
    (a_closure a) (f (a_context a)) (a_dependencies a) (a_assignments a)
    (a_func a) (a_depedency_type a).

Definition set_a_assignments (f : list Assign -> list Assign)
    (a : Activation) : Activation :=
  mkActivation (a_id a) (a_name a) (a_start a) (a_code_block_id a) (a_evaluation a)
    (a_closure a) (a_context a) (a_dependencies a) (f (a_assignments a))
    (a_func a) (a_depedency_type a).

Definition set_a_func (func : pyobj) (mode : string) (a : Activation) : Activation :=
  mkActivation (a_id a) (a_name a) (a_start a) (a_code_block_id a) (a_evaluation a)
    (a_closure a) (a_context a) (a_dependencies a) (a_assignments a)
    (Some func) mode.

(** ** The collector state *)

(** The stores that the collector only appends to are lists in
    insertion order, the id of a record being its position plus one.
    Evaluations are read and closed through their id and activations
    are objects handed to every hook: both are finite maps from ids,
    which also hold the two dry-added objects of the root activation. *)
Record Collector := mkCollector {
  code_components : list CodeComponent;
  evaluations : gmap Z Evaluation;
  evaluations_id : Z;
  activations : gmap Z Activation;
  dependencies : list DependencyRecord;
  values : list Value;
  compartments : list Compartment;
  exceptions : list ExceptionRecord;
  first_activation : Z;
  last_activation : Z;
  shared_types : gmap pytype Z;
  globals : gmap string pyobj;
  global_evaluations : gmap string Z;
  dep_heap : list Dependency;
  clock : moment }.

Definition set_code_components f (c : Collector) : Collector :=
  mkCollector (f (code_components c)) (evaluations c) (evaluations_id c)
    (activations c) (dependencies c) (values c) (compartments c) (exceptions c)
    (first_activation c) (last_activation c) (shared_types c) (globals c)
    (global_evaluations c) (dep_heap c) (clock c).

Definition set_evaluations f g (c : Collector) : Collector :=
  mkCollector (code_components c) (f (evaluations c)) (g (evaluations_id c))
    (activations c) (dependencies c) (values c) (compartments c) (exceptions c)
    (first_activation c) (last_activation c) (shared_types c) (globals c)
    (global_evaluations c) (dep_heap c) (clock c).

Definition set_activations f (c : Collector) : Collector :=
  mkCollector (code_components c) (evaluations c) (evaluations_id c)
    (f (activations c)) (dependencies c) (values c) (compartments c) (exceptions c)
    (first_activation c) (last_activation c) (shared_types c) (globals c)
    (global_evaluations c) (dep_heap c) (clock c).

Definition set_dependencies f (c : Collector) : Collector :=
  mkCollector (code_components c) (evaluations c) (evaluations_id c)
    (activations c) (f (dependencies c)) (values c) (compartments c) (exceptions c)
    (first_activation c) (last_activation c) (shared_types c) (globals c)
    (global_evaluations c) (dep_heap c) (clock c).

Definition set_values f (c : Collector) : Collector :=
  mkCollector (code_components c) (evaluations c) (evaluations_id c)
    (activations c) (dependencies c) (f (values c)) (compartments c) (exceptions c)
    (first_activation c) (last_activation c) (shared_types c) (globals c)
    (global_evaluations c) (dep_heap c) (clock c).

Definition set_compartments f (c : Collector) : Collector :=
  mkCollector (code_components c) (evaluations c) (evaluations_id c)
    (activations c) (dependencies c) (values c) (f (compartments c)) (exceptions c)
    (first_activation c) (last_activation c) (shared_types c) (globals c)
    (global_evaluations c) (dep_heap c) (clock c).

Definition set_exceptions f (c : Collector) : Collector :=
  mkCollector (code_components c) (evaluations c) (evaluations_id c)
    (activations c) (dependencies c) (values c) (compartments c) (f (exceptions c))
    (first_activation c) (last_activation c) (shared_types c) (globals c)
    (global_evaluations c) (dep_heap c) (clock c).

Definition set_last_activation (a : Z) (c : Collector) : Collector :=
  mkCollector (code_components c) (evaluations c) (evaluations_id c)
    (activations c) (dependencies c) (values c) (compartments c) (exceptions c)
    (first_activation c) a (shared_types c) (globals c)
    (global_evaluations c) (dep_heap c) (clock c).

Definition set_shared_types f (c : Collector) : Collector :=
  mkCollector (code_components c) (evaluations c) (evaluations_id c)
    (activations c) (dependencies c) (values c) (compartments c) (exceptions c)
    (first_activation c) (last_activation c) (f (shared_types c)) (globals c)
    (global_evaluations c) (dep_heap c) (clock c).

Definition set_global_evaluations f (c : Collector) : Collector :=
  mkCollector (code_components c) (evaluations c) (evaluations_id c)
    (activations c) (dependencies c) (values c) (compartments c) (exceptions c)
    (first_activation c) (last_activation c) (shared_types c) (globals c)
    (f (global_evaluations c)) (dep_heap c) (clock c).

Definition set_dep_heap f (c : Collector) : Collector :=
  mkCollector (code_components c) (evaluations c) (evaluations_id c)
    (activations c) (dependencies c) (values c) (compartments c) (exceptions c)
    (first_activation c) (last_activation c) (shared_types c) (globals c)
    (global_evaluations c) (f (dep_heap c)) (clock c).

Definition set_clock f (c : Collector) : Collector :=
  mkCollector (code_components c) (evaluations c) (evaluations_id c)
    (activations c) (dependencies c) (values c) (compartments c) (exceptions c)
    (first_activation c) (last_activation c) (shared_types c) (globals c)
    (global_evaluations c) (dep_heap c) (f (clock c)).

(** ** The collector monad: state and Python exceptions *)

Inductive result (A : Type) : Type :=
| Ok (a : A) (c : Collector)
| Raise (e : pyexc) (c : Collector).
Arguments Ok {A} a c.
Arguments Raise {A} e c.

Definition M (A : Type) : Type := Collector -> result A.

Definition ret {A} (a : A) : M A := fun c => Ok a c.
Definition raise {A} (e : pyexc) : M A := fun c => Raise e c.
Definition bind {A B} (m : M A) (k : A -> M B) : M B :=
  fun c => match m c with
           | Ok a c' => k a c'
           | Raise e c' => Raise e c'
           end.
Definition gets {A} (f : Collector -> A) : M A := fun c => Ok (f c) c.
Definition modify (f : Collector -> Collector) : M unit := fun c => Ok tt (f c).
(** a total state function run inside the monad *)
Definition lift {A} (f : Collector -> A * Collector) : M A :=
  fun c => let '(a, c') := f c in Ok a c'.
Definition from_option {A} (e : pyexc) (o : option A) : M A :=
  match o with Some a => ret a | None => raise e end.

Notation "'let!' x ':=' m 'in' k" := (bind m (fun x => k))
  (at level 10, x pattern, m at level 100, k at level 200).
Notation "m ';;;' k" := (bind m (fun _ => k))
  (at level 100, k at level 200, right associativity).

Definition result_state {A} (r : result A) : Collector :=
  match r with Ok _ c => c | Raise _ c => c end.

(** ** The value interner *)

(** [self.values.add(repr, type_id)]: append a Value, return its id. *)
Definition values_add (repr : string) (type_id : Z) (c : Collector) : Z * Collector :=
  let i := Z.of_nat (length (values c)) + 1 in
  (i, set_values (fun vs => vs ++ [mkValue i repr type_id]) c).

(** Lines 93-97 of [add_value]: the value is the builtin [type]. *)
Definition add_value_root (c : Collector) : Z * Collector :=
  let i := Z.of_nat (length (values c)) + 1 in
  let c1 := set_values (fun vs => vs ++ [mkValue i (repr_type TypeRoot) i]) c in
  (i, set_shared_types (fun m => <[TypeRoot := i]> m) c1).

(** Lines 99-103 of [add_value]; [add_type] is the recursive call
    [self.add_value(value_type)]. *)
Definition add_value_with (add_type : Collector -> Z * Collector)
    (value_type : pytype) (value : pyobj) (c : Collector) : Z * Collector :=
  let c1 :=
    match shared_types c !! value_type with
    | None =>
        let '(tid, c') := add_type c in
        set_shared_types (fun m => <[value_type := tid]> m) c'
    | Some _ => c
    end in
  let type_id := default 0 (shared_types c1 !! value_type) in
  values_add (py_repr value) type_id c1.

(** [add_value] applied to a type object; the recursion follows the
    chain of types, which ends at [type]. *)
Fixpoint add_value_type (t : pytype) : Collector -> Z * Collector :=
  match t with
  | TypeRoot => add_value_root
  | Class _ _ meta => add_value_with (add_value_type meta) meta (OType t)
  end.

Definition add_value (value : pyobj) : Collector -> Z * Collector :=
  match value with
  | OType t => add_value_type t
  | _ => add_value_with (add_value_type (py_type value)) (py_type value) value
  end.

(** The Value with id [i], ids being issued from 1 in insertion order. *)
Definition values_get (vs : list Value) (i : Z) : option Value :=
  if 1 <=? i then vs !! Z.to_nat (i - 1) else None.

(** Follow [type_id] from the Value with id [i] until a self-typed
    Value is met, in at most [fuel] steps. *)
Fixpoint type_root (fuel : nat) (vs : list Value) (i : Z) : option Value :=
  match values_get vs i with
  | None => None
  | Some v =>
      if v_type_id v =? v_id v then Some v
      else match fuel with
           | O => None
           | S fuel' => type_root fuel' vs (v_type_id v)
           end
  end.

(** The Value at position [pos] carries the id of that position and is
    either a self-typed Value of [type] or typed by an earlier Value. *)
Definition value_wf (pos : nat) (v : Value) : Prop :=
  v_id v = Z.of_nat pos + 1 /\
  ((v_type_id v = v_id v /\ v_repr v = repr_type TypeRoot) \/
   1 <= v_type_id v < v_id v).

Definition values_wf (vs : list Value) : Prop :=
  forall pos v, vs !! pos = Some v -> value_wf pos v.

Definition shared_types_wf (c : Collector) : Prop :=
  forall t i, shared_types c !! t = Some i ->
    1 <= i <= Z.of_nat (length (values c)).

Definition interner_wf (c : Collector) : Prop :=
  values_wf (values c) /\ shared_types_wf c.

(** What one call of the interner does to the Value store: it only
    appends, the last appended Value is the one of the object and its
    id is returned. *)
Definition appends_value (repr : string) (f : Collector -> Z * Collector) : Prop :=
  forall c, exists vs tid,
    values (f c).2 = values c ++ vs ++ [mkValue (f c).1 repr tid] /\
    (f c).1 = Z.of_nat (length (values c ++ vs)) + 1.


(** ** Activations *)

(** Modelled from the spec: the constructor of the lightweight
    activation is not in the sources.  Per the spec an activation starts
    with an empty context and a scope stack holding one initial plain
    scope; its id is the id of its evaluation. *)
Definition new_Activation (evaluation : Evaluation) (name : string)
    (start : option moment) (code_block_id : option Z) (closure : option Z)
    : Activation :=
  mkActivation (e_id evaluation) name start code_block_id (e_id evaluation)
    closure ∅ [new_DependencyAware] [] None "".

(** Modelled from the spec: [dry_add] builds the object without
    enqueuing it.  The id such an object carries is not given by the
    sources; the model uses -1, which no store issues. *)
Definition dry_evaluation : Evaluation := mkEvaluation (-1) (-1) (-1) None None.
Definition dry_activation : Activation :=
  new_Activation dry_evaluation "<now>" None None None.

(** [Collector.__init__], for the builtins of the host. *)
Definition new_collector (builtins : gmap string pyobj) : Collector :=
  mkCollector [] {[ -1 := dry_evaluation ]} 0 {[ -1 := dry_activation ]}
    [] [] [] [] (-1) (-1) ∅ builtins ∅ [] 0%nat.

(** ** Strings and Python lists *)

(** [s.startswith(prefix)] *)
Definition startswith (prefix s : string) : bool := String.prefix prefix s.

(** [s.endswith(suffix)] *)
Definition endswith (suffix s : string) : bool :=
  String.prefix (String.rev suffix) (String.rev s).

(** Truth value of an id: [None] and [0] are falsy. *)
Definition truthy_id (o : option Z) : bool :=
  match o with
  | Some z => negb (z =? 0)
  | None => false
  end.

(** [l.pop()] and [l[-1]]: the last element and the elements before. *)
Fixpoint pop_last {A} (l : list A) : option (list A * A) :=
  match l with
  | [] => None
  | x :: l' =>
      match pop_last l' with
      | None => Some ([], x)
      | Some (rest, y) => Some (x :: rest, y)
      end
  end.

(** [l[index]] with Python's negative indices; [None] is IndexError. *)
Definition list_getitem {A} (l : list A) (index : Z) : option A :=
  let n := Z.of_nat (length l) in
  let i := if index <? 0 then index + n else index in
  if (0 <=? i) && (i <? n) then l !! Z.to_nat i else None.

(** [l[lo:hi]] with Python's clamping of both bounds. *)
Definition list_slice {A} (l : list A) (lo hi : Z) : list A :=
  let n := Z.of_nat (length l) in
  let clamp i := if i <? 0 then Z.max 0 (i + n) else Z.min i n in
  take (Z.to_nat (clamp hi - clamp lo)) (drop (Z.to_nat (clamp lo)) l).

(** [range(lo, hi)] *)
Definition py_range (lo hi : Z) : list Z :=
  (fun k => lo + Z.of_nat k) <$> seq 0 (Z.to_nat (hi - lo)).

(** ** Primitive operations on the collector state *)

(** [self.time()].  The clock is a counter; the partial save that the
    source may trigger here belongs to the persistence layer and leaves
    the in-memory records as they are. *)
Definition time : M moment := fun c => Ok (clock c) (set_clock S c).

(** [self.evaluations.add_object(code_component_id, activation_id,
    moment, value_id)] *)
Definition evaluations_add_object (code_component_id activation_id : Z)
    (moment : option moment) (value_id : option Z) : M Evaluation :=
  fun c =>
    let i := evaluations_id c + 1 in
    let e := mkEvaluation i code_component_id activation_id moment value_id in
    Ok e (set_evaluations (fun m => <[i := e]> m) (fun _ => i) c).

Definition evaluations_add (code_component_id activation_id : Z)
    (moment : option moment) (value_id : option Z) : M Z :=
  let! e := evaluations_add_object code_component_id activation_id moment value_id in
  ret (e_id e).

Definition get_evaluation (i : Z) : M Evaluation :=
  fun c => match evaluations c !! i with
           | Some e => Ok e c
           | None => Raise BadReference c
           end.

(** [self.dependencies.add(...)] *)
Definition dependencies_add (dependent_activation_id dependent_id
    dependency_activation_id dependency_id : Z) (mode : string) : M unit :=
  modify (fun c =>
    set_dependencies (fun l => l ++
      [mkDependencyRecord (Z.of_nat (length l) + 1)
         dependent_activation_id dependent_id
         dependency_activation_id dependency_id mode]) c).

(** [self.compartments.add_object(name, moment, whole_id, part_id)] *)
Definition compartments_add_object (name : string) (moment : option moment)
    (whole_id part_id : option Z) : M unit :=
  modify (fun c =>
    set_compartments (fun l => l ++
      [mkCompartment (Z.of_nat (length l) + 1) name moment whole_id part_id]) c).

(** [self.exceptions.add(exc, activation_id)] *)
Definition exceptions_add (exc : pyexc) (activation_id : Z) : M unit :=
  modify (fun c =>
    set_exceptions (fun l => l ++
      [mkExceptionRecord (Z.of_nat (length l) + 1) exc activation_id]) c).

(** [self.code_components.add(name, type, mode, ...)] *)
Definition code_components_add (name type_ mode : string)
    (first_line first_col last_line last_col container_id : Z) : M Z :=
  fun c =>
    let i := Z.of_nat (length (code_components c)) + 1 in
    Ok i (set_code_components (fun l => l ++
      [mkCodeComponent i name type_ mode first_line first_col last_line
         last_col container_id]) c).

(** Dependency objects: creation, reading, mutation. *)
Definition alloc_dep (d : Dependency) : M nat :=
  fun c => Ok (length (dep_heap c)) (set_dep_heap (fun h => h ++ [d]) c).

Definition get_dep (r : nat) : M Dependency :=
  fun c => match dep_heap c !! r with
           | Some d => Ok d c
           | None => Raise BadReference c
           end.

Definition update_dep (r : nat) (f : Dependency -> Dependency) : M unit :=
  let! d := get_dep r in
  modify (set_dep_heap (fun h => <[r := f d]> h)).

(** Activation objects. *)
Definition get_activation (act : Z) : M Activation :=
  fun c => match activations c !! act with
           | Some a => Ok a c
           | None => Raise BadReference c
           end.

Definition update_activation (act : Z) (f : Activation -> Activation) : M unit :=
  let! a := get_activation act in
  modify (set_activations (fun m => <[act := f a]> m)).

(** [activation.dependencies.append(scope)] *)
Definition push_scope (act : Z) (scope : DependencyAware) : M unit :=
  update_activation act (set_a_dependencies (fun l => l ++ [scope])).

(** [activation.dependencies.pop()] *)
Definition pop_scope (act : Z) : M DependencyAware :=
  let! a := get_activation act in
  match pop_last (a_dependencies a) with
  | None => raise IndexError
  | Some (rest, top) =>
      update_activation act (set_a_dependencies (fun _ => rest)) ;;;
      ret top
  end.

(** [activation.dependencies[-1]] *)
Definition top_scope (act : Z) : M DependencyAware :=
  let! a := get_activation act in
  match pop_last (a_dependencies a) with
  | None => raise IndexError
  | Some (_, top) => ret top
  end.

(** Mutation of the scope object [activation.dependencies[-1]]. *)
Definition update_top_scope (act : Z) (f : DependencyAware -> DependencyAware)
    : M unit :=
  let! a := get_activation act in
  match pop_last (a_dependencies a) with
  | None => raise IndexError
  | Some (rest, top) =>
      update_activation act (set_a_dependencies (fun _ => rest ++ [f top]))
  end.

(** [activation.dependencies[-1].add(dependency)] for an existing
    Dependency object. *)
Definition add_to_top (act : Z) (r : nat) : M unit :=
  update_top_scope act (depa_add r).

(** [activation.dependencies[-1].add(Dependency(...))]: the scope is
    looked up before the arguments of the constructor are evaluated. *)
Definition add_new_to_top (act : Z) (mk : M Dependency) : M unit :=
  top_scope act ;;;
  let! d := mk in
  let! r := alloc_dep d in
  add_to_top act r.

(** [activation.dependencies[-1].items.append(item)] *)
Definition append_item_to_top (act : Z) (item : pyobj * option Z * option moment)
    : M unit :=
  let! top := top_scope act in
  match depa_items top with
  | None => raise AttributeError
  | Some items => update_top_scope act (depa_set_items (items ++ [item]))
  end.

Fixpoint for_each {A} (l : list A) (body : A -> M unit) : M unit :=
  match l with
  | [] => ret tt
  | x :: l' => body x ;;; for_each l' body
  end.

(** ** Activation life cycle *)

(** [start_activation].  Modelled from the spec: the new activation
    links its closure to the parent by default. *)
Definition start_activation (name : string) (code_component_id definition_id : Z)
    (act : Z) : M Z :=
  let! parent := get_activation act in
  let! evaluation := evaluations_add_object code_component_id (a_id parent) None None in
  let! start := time in
  let activation :=
    new_Activation evaluation name (Some start) (Some definition_id)
      (Some (a_id parent)) in
  modify (set_activations (fun m => <[a_id activation := activation]> m)) ;;;
  modify (set_last_activation (a_id activation)) ;;;
  ret (a_id activation).

(** [close_activation].  [self.activations.store.get(id,
    self.first_activation)]: the activation with that id, the root
    activation when there is none. *)
Definition close_activation (act : Z) (value_id : option Z) : M unit :=
  let! activation := get_activation act in
  let! evaluation := get_evaluation (a_evaluation activation) in
  let! now := time in
  modify (set_evaluations
    (fun m => <[e_id evaluation :=
       mkEvaluation (e_id evaluation) (e_code_component_id evaluation)
         (e_activation_id evaluation) (Some now) value_id]> m) (fun i => i)) ;;;
  modify (fun c =>
    set_last_activation
      (match activations c !! e_activation_id evaluation with
       | Some _ => e_activation_id evaluation
       | None => first_activation c
       end) c).

(** [collect_exception]: [sys.exc_info()] is the exception in flight. *)
Definition collect_exception (exc : pyexc) (now_activation : Z) : M unit :=
  let! activation := get_activation now_activation in
  exceptions_add exc (a_id activation).

(** The loop of [lookup] over the closure chain.  [fuel] bounds the
    number of activations visited; a chain longer than the number of
    activations is cyclic and the source does not return on it. *)
Fixpoint lookup_context (fuel : nat) (activation : option Z) (name : string)
    : M (option Z) :=
  match activation with
  | None => ret None
  | Some act =>
      match fuel with
      | O => raise BadReference
      | S fuel' =>
          let! a := get_activation act in
          match a_context a !! name with
          | Some evaluation => ret (Some evaluation)
          | None => lookup_context fuel' (a_closure a) name
          end
      end
  end.

(** [lookup(activation, name)]; the result is the id of the evaluation
    found, or [None]. *)
Definition lookup_ (act : Z) (name : string) : M (option Z) :=
  let! fuel := gets (fun c => S (size (activations c))) in
  let! found := lookup_context fuel (Some act) name in
  match found with
  | Some evaluation => ret (Some evaluation)
  | None =>
      let! global := gets (fun c => global_evaluations c !! name) in
      match global with
      | Some evaluation => ret (Some evaluation)
      | None =>
          let! builtin := gets (fun c => globals c !! name) in
          match builtin with
          | Some obj =>
              let! code := code_components_add name "global" "w"
                             (-1) (-1) (-1) (-1) (-1) in
              let! now := time in
              let! value_id := lift (add_value obj) in
              let! evaluation :=
                evaluations_add_object code (-1) (Some now) (Some value_id) in
              modify (set_global_evaluations
                        (fun m => <[name := e_id evaluation]> m)) ;;;
              ret (Some (e_id evaluation))
          | None => ret None
          end
      end
  end.

(** ** The bind rule and the dependency edges *)

(** The loop of [find_value_id] over the dependencies of the scope. *)
Fixpoint find_bound (value : pyobj) (deps : list nat) : M (option Z) :=
  match deps with
  | [] => ret None
  | r :: rest =>
      let! dep := get_dep r in
      if py_is (dep_value dep) value then
        (if startswith "dependency" (dep_mode dep) then
           update_dep r (set_dep_mode "assign")
         else if negb (endswith "-bind" (dep_mode dep)) then
           update_dep r (set_dep_mode (dep_mode dep +:+ "-bind"))
         else ret tt) ;;;
        ret (dep_value_id dep)
      else find_bound value rest
  end.

(** [find_value_id(value, depa, create)].  [depa] is [None] when the
    caller passes no scope. *)
Definition find_value_id (value : pyobj) (depa : option DependencyAware)
    (create : bool) : M (option Z) :=
  let! value_id :=
    match depa with
    | Some d =>
        if negb (is_immutable value)
           || (length (depa_dependencies d) =? 1)%nat
        then find_bound value (depa_dependencies d)
        else ret None
    | None => ret None
    end in
  if create && negb (truthy_id value_id) then
    let! i := lift (add_value value) in ret (Some i)
  else ret value_id.

(** [create_dependencies(evaluation, depa)] *)
Definition create_dependencies (evaluation : Evaluation)
    (depa : option DependencyAware) : M unit :=
  match depa with
  | Some d =>
      for_each (depa_dependencies d) (fun r =>
        let! dep := get_dep r in
        dependencies_add (e_activation_id evaluation) (e_id evaluation)
          (dep_activation_id dep) (dep_evaluation_id dep) (dep_mode dep))
  | None => ret tt
  end.

(** [create_argument_dependencies(evaluation, depa)] *)
Definition create_argument_dependencies (evaluation : Evaluation)
    (depa : DependencyAware) : M unit :=
  for_each (depa_dependencies depa) (fun r =>
    let! dep := get_dep r in
    if startswith "argument" (dep_mode dep) then
      dependencies_add (e_activation_id evaluation) (e_id evaluation)
        (dep_activation_id dep) (dep_evaluation_id dep) "dependency"
    else ret tt).

(** [evaluate(activation, code_id, value, moment, depa)] *)
Definition evaluate (act : Z) (code_id : Z) (value : pyobj)
    (moment : option moment) (depa : option DependencyAware) : M Evaluation :=
  let! moment := match moment with
                 | None => time
                 | Some m => ret m
                 end in
  let! value_id := find_value_id value depa true in
  let! activation := get_activation act in
  let! evaluation :=
    evaluations_add_object code_id (a_id activation) (Some moment) value_id in
  create_dependencies evaluation depa ;;;
  ret evaluation.

(** ** Expression hooks *)

(** The callable a "before" hook returns: the bound method that the
    transformed code calls with the computed value. *)
Inductive after_hook : Type :=
| after_operation | after_container | after_dict | after_dict_key
| after_dict_value | after_list | after_item | after_assign_value
| after_argument | after_return.

(** [literal(activation, code_id, value, mode)] *)
Definition literal (act : Z) (code_id : Z) (value : pyobj) (mode : string)
    : M pyobj :=
  let! value_id := lift (add_value value) in
  let! activation := get_activation act in
  let! now := time in
  let! evaluation_id :=
    evaluations_add code_id (a_id activation) (Some now) (Some value_id) in
  add_new_to_top act
    (ret (new_Dependency (a_id activation) evaluation_id value (Some value_id) mode)) ;;;
  ret value.

(** [name(activation, code_tuple, value, mode)].  [code_tuple0] is the
    first element of [code_tuple]: [None] when it is falsy, otherwise
    the code component id and the name (the third component of the
    triple is not used). *)
Definition name (act : Z) (code_tuple0 : option (Z * string)) (value : pyobj)
    (mode : string) : M pyobj :=
  match code_tuple0 with
  | Some (code_id, name) =>
      let! old_eval := lookup_ act name in
      let! value_id :=
        match old_eval with
        | Some e => let! ev := get_evaluation e in ret (e_value_id ev)
        | None => let! i := lift (add_value value) in ret (Some i)
        end in
      let! activation := get_activation act in
      let! now := time in
      let! evaluation_id :=
        evaluations_add code_id (a_id activation) (Some now) value_id in
      add_new_to_top act
        (ret (new_Dependency (a_id activation) evaluation_id value value_id mode)) ;;;
      match old_eval with
      | Some e =>
          let! ev := get_evaluation e in
          dependencies_add (a_id activation) evaluation_id
            (e_activation_id ev) (e_id ev) "assignment"
      | None => ret tt
      end ;;;
      ret value
  | None => ret value
  end.

(** [operation(activation)] *)
Definition operation (act : Z) : M after_hook :=
  push_scope act new_DependencyAware ;;; ret after_operation.

(** [_operation(activation, code_id, value, mode)] *)
Definition _operation (act : Z) (code_id : Z) (value : pyobj) (mode : string)
    : M pyobj :=
  let! depa := pop_scope act in
  let! evaluation := evaluate act code_id value None (Some depa) in
  let! activation := get_activation act in
  let! dependency :=
    alloc_dep (new_Dependency (a_id activation) (e_id evaluation) value
                 (e_value_id evaluation) mode) in
  add_to_top act dependency ;;;
  ret value.

(** [container(activation)] *)
Definition container (act : Z) : M after_hook :=
  push_scope act new_CompartmentDependencyAware ;;; ret after_container.

(** [_container(activation, code_id, value)] *)
Definition _container (act : Z) (code_id : Z) (value : pyobj) : M pyobj :=
  update_top_scope act (depa_set_key value) ;;;
  ret value.

(** The loop over [depa.items] shared by [_dict] and [_list]. *)
Definition add_compartments (depa : DependencyAware) (evaluation : Evaluation)
    : M unit :=
  match depa_items depa with
  | None => raise AttributeError
  | Some items =>
      for_each items (fun '(key, value_id, moment) =>
        compartments_add_object ("[" +:+ py_repr key +:+ "]") moment
          (e_value_id evaluation) value_id)
  end.

(** [dict(activation)] *)
Definition dict_ (act : Z) : M after_hook :=
  push_scope act new_CollectionDependencyAware ;;; ret after_dict.

(** [_dict(activation, code_id, value, mode)] *)
Definition _dict (act : Z) (code_id : Z) (value : pyobj) (mode : string)
    : M pyobj :=
  let! depa := pop_scope act in
  let! evaluation := evaluate act code_id value None (Some depa) in
  add_compartments depa evaluation ;;;
  let! activation := get_activation act in
  let! dependency :=
    alloc_dep (new_Dependency (a_id activation) (e_id evaluation) value
                 (e_value_id evaluation) mode) in
  add_to_top act dependency ;;;
  ret value.

(** [dict_key(activation)] *)
Definition dict_key (act : Z) : M after_hook :=
  push_scope act new_CompartmentDependencyAware ;;; ret after_dict_key.

(** [_dict_key(activation, code_id, value)] *)
Definition _dict_key (act : Z) (code_id : Z) (value : pyobj) : M pyobj :=
  update_top_scope act (depa_set_key value) ;;;
  ret value.

(** [scope.key]: the key stored in a scope.  Modelled from the spec: a
    compartment scope has the slot from its creation, holding [None]
    until a key is stored; other scopes have it once a hook stored a
    key. *)
Definition read_key (scope : DependencyAware) : M pyobj :=
  match depa_key scope, depa_class_of scope with
  | Some k, _ => ret k
  | None, CompartmentScope => ret py_None
  | None, _ => raise AttributeError
  end.

(** [dict_value(activation)] *)
Definition dict_value (act : Z) : M after_hook :=
  push_scope act new_DependencyAware ;;; ret after_dict_value.

(** [_dict_value(activation, code_id, value)] *)
Definition _dict_value (act : Z) (code_id : Z) (value : pyobj) : M pyobj :=
  let! value_dependency_aware := pop_scope act in
  let! popped := pop_scope act in
  let compartment_dependency_aware :=
    depa_set_dependencies
      (depa_dependencies popped ++ depa_dependencies value_dependency_aware)
      popped in
  let! value_id := find_value_id value (Some value_dependency_aware) true in
  let! activation := get_activation act in
  let! now := time in
  let! evaluation :=
    evaluations_add_object code_id (a_id activation) (Some now) value_id in
  create_dependencies evaluation (Some compartment_dependency_aware) ;;;
  add_new_to_top act
    (ret (new_Dependency (a_id activation) (e_id evaluation) value value_id "item")) ;;;
  top_scope act ;;;
  let! key := read_key compartment_dependency_aware in
  append_item_to_top act (key, value_id, e_moment evaluation) ;;;
  ret value.

(** [list(activation)] *)
Definition list_ (act : Z) : M after_hook :=
  push_scope act new_CollectionDependencyAware ;;; ret after_list.

(** [_list(activation, code_id, value, mode)] *)
Definition _list (act : Z) (code_id : Z) (value : pyobj) (mode : string)
    : M pyobj :=
  let! depa := pop_scope act in
  let! evaluation := evaluate act code_id value None (Some depa) in
  add_compartments depa evaluation ;;;
  let! activation := get_activation act in
  let! dependency :=
    alloc_dep (new_Dependency (a_id activation) (e_id evaluation) value
                 (e_value_id evaluation) mode) in
  update_dep dependency
    (fun d => set_dep_sub_dependencies
                (dep_sub_dependencies d ++ depa_dependencies depa) d) ;;;
  add_to_top act dependency ;;;
  ret value.

(** [tuple(activation)] *)
Definition tuple_ (act : Z) : M after_hook :=
  push_scope act new_CollectionDependencyAware ;;; ret after_list.

(** [set(activation)] *)
Definition set_ (act : Z) : M after_hook :=
  push_scope act new_CollectionDependencyAware ;;; ret after_list.

(** [item(activation)] *)
Definition item (act : Z) : M after_hook :=
  push_scope act new_DependencyAware ;;; ret after_item.

(** [_item(activation, code_id, value, key)]; [if key is None: key =
    value] *)
Definition _item (act : Z) (code_id : Z) (value : pyobj) (key : pyobj)
    : M pyobj :=
  let key := if py_is key py_None then value else key in
  let! value_dependency_aware := pop_scope act in
  let! dependency :=
    match depa_dependencies value_dependency_aware with
    | [r] => ret r
    | _ =>
        let! value_id := find_value_id value (Some value_dependency_aware) true in
        let! activation := get_activation act in
        let! now := time in
        let! evaluation :=
          evaluations_add_object code_id (a_id activation) (Some now) value_id in
        create_dependencies evaluation (Some value_dependency_aware) ;;;
        alloc_dep (new_Dependency (a_id activation) (e_id evaluation) value
                     value_id "item")
    end in
  let! dep := get_dep dependency in
  let value_id := dep_value_id dep in
  let! moment := time in
  add_to_top act dependency ;;;
  append_item_to_top act (key, value_id, Some moment) ;;;
  ret value.

(** ** Assignments *)

(** [assign_value(activation)] *)
Definition assign_value (act : Z) : M after_hook :=
  push_scope act new_DependencyAware ;;; ret after_assign_value.

(** [_assign_value(activation, value, augvalue)] *)
Definition _assign_value (act : Z) (value : pyobj) : M pyobj :=
  let! dependency := pop_scope act in
  let! now := time in
  update_activation act
    (set_a_assignments (fun l => l ++ [mkAssign now value dependency])) ;;;
  ret value.

(** [pop_assign(activation)] *)
Definition pop_assign (act : Z) : M Assign :=
  let! a := get_activation act in
  match pop_last (a_assignments a) with
  | None => raise IndexError
  | Some (rest, top) =>
      update_activation act (set_a_assignments (fun _ => rest)) ;;;
      ret top
  end.

(** ** Arguments and returns *)

(** [argument(activation)] *)
Definition argument (act : Z) : M after_hook :=
  push_scope act new_DependencyAware ;;; ret after_argument.

(** [_argument(activation, code_id, value, mode, arg, kind)] *)
Definition _argument (act : Z) (code_id : Z) (value : pyobj)
    (mode arg kind : string) : M pyobj :=
  let mode := if bool_decide (mode = "") then "argument" else mode in
  let kind := if bool_decide (kind = "") then "argument" else kind in
  let! dependency_aware := pop_scope act in
  let! dependency :=
    match depa_dependencies dependency_aware with
    | [r] => ret r
    | _ =>
        let! now := time in
        let! evaluation :=
          evaluate act code_id value (Some now) (Some dependency_aware) in
        let! activation := get_activation act in
        alloc_dep (new_Dependency (a_id activation) (e_id evaluation) value
                     (e_value_id evaluation) mode)
    end in
  update_dep dependency (set_dep_arg_kind arg kind) ;;;
  let! last := gets last_activation in
  add_to_top last dependency ;;;
  ret value.

(** [return_(activation)] *)
Definition return_ (act : Z) : M after_hook :=
  push_scope act new_DependencyAware ;;; ret after_return.

(** [_return(activation, value)] *)
Definition _return (act : Z) (value : pyobj) : M pyobj :=
  let! dependency_aware := pop_scope act in
  let! activation := get_activation act in
  let! evaluation := get_evaluation (a_evaluation activation) in
  create_dependencies evaluation (Some dependency_aware) ;;;
  ret value.

(** The bound method an after hook is, applied to its arguments.  The
    record holds the arguments the transformed code passes; a hook reads
    the ones of its signature. *)
Record after_args := mkAfterArgs {
  arg_code_id : Z; arg_value : pyobj; arg_mode : string;
  arg_key : pyobj; arg_arg : string; arg_kind : string }.

Definition call_after (h : after_hook) (act : Z) (a : after_args) : M pyobj :=
  match h with
  | after_operation => _operation act (arg_code_id a) (arg_value a) (arg_mode a)
  | after_container => _container act (arg_code_id a) (arg_value a)
  | after_dict => _dict act (arg_code_id a) (arg_value a) (arg_mode a)
  | after_dict_key => _dict_key act (arg_code_id a) (arg_value a)
  | after_dict_value => _dict_value act (arg_code_id a) (arg_value a)
  | after_list => _list act (arg_code_id a) (arg_value a) (arg_mode a)
  | after_item => _item act (arg_code_id a) (arg_value a) (arg_key a)
  | after_assign_value => _assign_value act (arg_value a)
  | after_argument =>
      _argument act (arg_code_id a) (arg_value a) (arg_mode a) (arg_arg a)
        (arg_kind a)
  | after_return => _return act (arg_value a)
  end.

(** ** Calls *)

Inductive call_hook : Type := after_func | after_call.

(** [func(activation)] *)
Definition func (act : Z) : M call_hook :=
  push_scope act new_DependencyAware ;;; ret after_func.

(** [call(activation, code_id, func, mode)] *)
Definition call (act : Z) (code_id : Z) (func : pyobj) (mode : string)
    : M call_hook :=
  let! name := from_option AttributeError (py_name func) in
  let! new_act := start_activation name code_id (-1) act in
  push_scope new_act new_DependencyAware ;;;
  update_activation new_act (set_a_func func mode) ;;;
  ret after_call.

(** [_func(activation, code_id, func_id, func, mode)] *)
Definition _func (act : Z) (code_id func_id : Z) (func : pyobj) (mode : string)
    : M call_hook :=
  let! dependency_aware := pop_scope act in
  let! dependency :=
    match depa_dependencies dependency_aware with
    | [r] => ret r
    | _ =>
        let! now := time in
        let! evaluation :=
          evaluate act func_id func (Some now) (Some dependency_aware) in
        let! activation := get_activation act in
        alloc_dep (new_Dependency (a_id activation) (e_id evaluation) func
                     (e_value_id evaluation) "func")
    end in
  let! result := call act code_id func mode in
  let! last := gets last_activation in
  add_to_top last dependency ;;;
  ret result.

(** [try: body / except: handler; raise / finally: final].  [final]
    receives the value of the body when there is one.  An exception
    raised by the handler or by [final] replaces the one in flight. *)
Definition try_except_finally {A} (body : M A) (handler : pyexc -> M unit)
    (final : option A -> M unit) : M A :=
  fun c =>
    match body c with
    | Ok a c1 =>
        match final (Some a) c1 with
        | Ok _ c2 => Ok a c2
        | Raise e c2 => Raise e c2
        end
    | Raise e c1 =>
        match handler e c1 with
        | Ok _ c2 =>
            match final None c2 with
            | Ok _ c3 => Raise e c3
            | Raise e' c3 => Raise e' c3
            end
        | Raise e' c2 =>
            match final None c2 with
            | Ok _ c3 => Raise e' c3
            | Raise e'' c3 => Raise e'' c3
            end
        end
    end.

(** The loop of [_call] over the scopes of the activation. *)
Fixpoint find_in_scopes (result : pyobj) (scopes : list DependencyAware)
    : M (option Z) :=
  match scopes with
  | [] => ret None
  | depa :: rest =>
      let! value_id := find_value_id result (Some depa) false in
      if truthy_id value_id then ret value_id
      else find_in_scopes result rest
  end.

(** The [finally] block of [_call]. *)
Definition call_finally (act : Z) (evaluation : Evaluation) (result : pyobj)
    : M unit :=
  let! activation := get_activation act in
  let! found := find_in_scopes result (a_dependencies activation) in
  let! value_id :=
    if truthy_id found then ret found
    else let! i := lift (add_value result) in ret (Some i) in
  close_activation act value_id ;;;
  let! activation := get_activation act in
  let! depa := from_option IndexError (head (a_dependencies activation)) in
  create_dependencies evaluation (Some depa) ;;;
  if bool_decide (a_code_block_id activation = Some (-1)) then
    create_argument_dependencies evaluation depa
  else ret tt.

(** Positional and keyword arguments of a call. *)
Definition call_args : Type := list pyobj * list (string * pyobj).

Section Call.

(** The host interpreter running [func] on its arguments: the body of
    the callee may fire hooks, so it acts on the collector state, and
    it may raise. *)
Variable invoke : pyobj -> call_args -> M pyobj.

(** [_call], applied to the arguments of the call *)
Definition _call (args : call_args) : M pyobj :=
  let! act := gets last_activation in
  let! activation := get_activation act in
  let! evaluation := get_evaluation (a_evaluation activation) in
  let! result :=
    try_except_finally
      (match a_func activation with
       | Some func => invoke func args
       | None => raise TypeError
       end)
      (fun exc => collect_exception exc act)
      (fun result => call_finally act evaluation (default py_None result)) in
  let! last := gets last_activation in
  add_new_to_top last
    (let! value_id := lift (add_value result) in
     let! activation := get_activation act in
     ret (new_Dependency (e_activation_id evaluation) (e_id evaluation)
            result (Some value_id) (a_depedency_type activation))) ;;;
  ret result.

End Call.

(** ** Function definitions *)

Inductive def_hook : Type := after_function_def.

(** [function_def(activation)] *)
Definition function_def (act : Z) : M def_hook :=
  push_scope act new_DependencyAware ;;; ret after_function_def.

(** The decorator [dec] that [_function_def] returns: a closure over
    the closure activation, the block id, the arguments and the scope
    of the defaults.  Its body runs later, when the decorator is applied
    to the function being defined. *)
Record decorator := mkDecorator {
  dec_closure_activation : Z; dec_block_id : Z; dec_arguments : pyobj;
  dec_defaults : DependencyAware }.

(** [_function_def(closure_activation, block_id, arguments)] *)
Definition _function_def (closure_activation block_id : Z) (arguments : pyobj)
    : M decorator :=
  let! defaults := pop_scope closure_activation in
  ret (mkDecorator closure_activation block_id arguments defaults).

(** ** The assignment engine *)

(** A target of an assignment, the [code_component_tuple] of [assign]:
    [((code, name, value), "single")], [((subcomps, value), "multiple")],
    [((star, value), "starred")], or a target of another kind. *)
#[warnings="-register-all"]
Inductive target : Type :=
| Single (code : Z) (name : string) (value : pyobj)
| Multiple (subcomps : list target) (value : pyobj)
| Starred (star : target) (value : pyobj)
| OtherTarget (value : pyobj).

(** [subcomp[0][-1]] *)
Definition target_value (t : target) : pyobj :=
  match t with
  | Single _ _ v | Multiple _ v | Starred _ v | OtherTarget v => v
  end.

(** The value being assigned as [assign] uses it: through [len],
    indexing and slicing only.  [None] for a value that has none of
    these. *)
Definition seqview : Type := option (list pyobj).

Definition py_len (v : seqview) : M Z :=
  match v with
  | Some l => ret (Z.of_nat (length l))
  | None => raise TypeError
  end.

Definition py_getitem (v : seqview) (index : Z) : M pyobj :=
  match v with
  | Some l => from_option IndexError (list_getitem l index)
  | None => raise TypeError
  end.

Definition py_slice (v : seqview) (lo hi : Z) : M seqview :=
  match v with
  | Some l => ret (Some (list_slice l lo hi))
  | None => raise TypeError
  end.

(** The third component of the tuple given to [assign]: one scope, or
    a list of scopes, one per element. *)
Inductive assign_depa : Type :=
| one_depa (d : DependencyAware)
| depa_list (l : list DependencyAware).

Fixpoint map_M {A B} (f : A -> M B) (l : list A) : M (list B) :=
  match l with
  | [] => ret []
  | x :: l' =>
      let! y := f x in
      let! ys := map_M f l' in
      ret (y :: ys)
  end.

(** Modelled from the spec: [DependencyAware.join] is not in the
    sources; the aggregate of a list of scopes holds their dependencies
    in order. *)
Definition depa_join (depas : list DependencyAware) : DependencyAware :=
  mkDepa PlainScope (concat (depa_dependencies <$> depas)) None None.

(** Modelled from the spec: [DependencyAware.clone] is not in the
    sources; the clone holds a copy of every dependency, with the
    given mode. *)
Definition depa_clone (mode : string) (depa : DependencyAware)
    : M DependencyAware :=
  let! refs := map_M (fun r => let! d := get_dep r in
                               alloc_dep (set_dep_mode mode d))
                     (depa_dependencies depa) in
  ret (mkDepa PlainScope refs None None).

(** Which of the three definitions of [custom_dependency] is in force. *)
Inductive dependency_source : Type :=
| from_list (ldepa : list DependencyAware)
| from_propagation (dep : nat)
| from_clone.

Section Assign.

(** [get_compartment(meta, value_id, addr)] and
    [last_evaluation_by_value_id(meta, part_id)] of the module
    [helper], which is not in the sources: they read the stores of the
    metascript.  The second returns the activation id and the id of
    the evaluation, or nothing. *)
Variable get_compartment : Collector -> option Z -> string -> option Z.
Variable last_evaluation_by_value_id : Collector -> option Z -> option (Z * Z).

(** [custom_dependency(index)] *)
Definition custom_dependency (source : dependency_source)
    (clone_depa : DependencyAware) (assign_value : seqview) (index : Z)
    : M DependencyAware :=
  match source with
  | from_list ldepa => ret (default clone_depa (list_getitem ldepa index))
  | from_propagation r =>
      let! dep := get_dep r in
      let! found :=
        if index <? Z.of_nat (length (dep_sub_dependencies dep)) then
          let! r' := from_option IndexError
                       (list_getitem (dep_sub_dependencies dep) index) in
          let! new_dep := get_dep r' in
          ret (dep_value_id new_dep,
               Some (dep_activation_id new_dep, dep_evaluation_id new_dep))
        else
          let! c := gets (fun c => c) in
          let part_id :=
            get_compartment c (dep_value_id dep) ("[" +:+ pretty index +:+ "]") in
          ret (part_id, last_evaluation_by_value_id c part_id) in
      match found with
      | (part_id, Some (aid, eid)) =>
          if truthy_id part_id && negb (eid =? 0) then
            let! val := py_getitem assign_value index in
            let! new_dep :=
              alloc_dep (new_Dependency aid eid val part_id "assign") in
            ret (depa_add new_dep new_DependencyAware)
          else ret clone_depa
      | (_, None) => ret clone_depa
      end
  | from_clone => ret clone_depa
  end.

(** [delta += self.assign(...)]: adding [None] raises TypeError. *)
Definition add_width (delta : Z) (width : option Z) : M Z :=
  match width with
  | Some w => ret (delta + w)
  | None => raise TypeError
  end.

(** [assign(activation, (moment, assign_value, depa),
    code_component_tuple)].  The result is what the source returns:
    [Some 1] for a single target, [None] where it returns nothing.
    The loop from the left stops at the starred sub-target; the loop
    from the right visits the sub-targets after it, last one first. *)
Fixpoint assign (act : Z) (moment : moment) (assign_value : seqview)
    (depa : assign_depa) (t : target) {struct t} : M (option Z) :=
  let ldepa := match depa with depa_list l => l | one_depa _ => [] end in
  let depa := match depa with depa_list l => depa_join l | one_depa d => d end in
  match t with
  | Single code name value =>
      let! evaluation := evaluate act code value (Some moment) (Some depa) in
      (if bool_decide (name = "") then ret tt
       else update_activation act
              (set_a_context (fun m => <[name := e_id evaluation]> m))) ;;;
      ret (Some 1)
  | Multiple subcomps value =>
      let! source :=
        match depa_dependencies depa with
        | [r] =>
            let! dep := get_dep r in
            ret (if startswith "assign" (dep_mode dep) && isiterable value
                 then from_propagation r else from_clone)
        | _ => ret from_clone
        end in
      let! clone_depa := depa_clone "dependency" depa in
      let source := match ldepa with
                    | [] => source
                    | _ => from_list ldepa
                    end in
      (fix left (subs : list target) (index delta : Z) {struct subs} : M unit :=
         match subs with
         | [] => ret tt
         | Starred star _ :: rest =>
             let! rdelta :=
               (fix right (tl : list target) {struct tl} : M Z :=
                  match tl with
                  | [] => ret (-1)
                  | subcomp :: tl' =>
                      let! rdelta := right tl' in
                      let! n := py_len assign_value in
                      let new_index := n + rdelta in
                      let! adepa :=
                        custom_dependency source clone_depa assign_value new_index in
                      let! width :=
                        assign act moment (py_items (target_value subcomp))
                          (one_depa adepa) subcomp in
                      match width with
                      | Some w => ret (rdelta - w)
                      | None => raise TypeError
                      end
                  end) rest in
             let! new_value := py_slice assign_value delta (rdelta + 1) in
             let! n := py_len assign_value in
             let! depas :=
               map_M (custom_dependency source clone_depa assign_value)
                     (py_range delta (n + rdelta + 1)) in
             assign act moment new_value (depa_list depas) star ;;;
             ret tt
         | subcomp :: rest =>
             let! adepa :=
               custom_dependency source clone_depa assign_value index in
             let! width :=
               assign act moment (py_items (target_value subcomp))
                 (one_depa adepa) subcomp in
             let! delta := add_width delta width in
             left rest (index + 1) delta
         end) subcomps 0 0 ;;;
      ret None
  | Starred _ _ => ret None
  | OtherTarget _ => ret None
  end.

End Assign.

(** * Predicates used in the statements *)

(** One Value per object identity: a second call of the interner on the
    identical object returns the same id and stores nothing. *)
Definition interns_by_identity : Prop :=
  forall (value : pyobj) (c : Collector),
    let r1 := add_value value c in
    let r2 := add_value value r1.2 in
    r2.1 = r1.1 /\ values r2.2 = values r1.2.

(** A call keeps the store well formed and returns the id of a stored
    Value. *)
Definition keeps_interner_wf (f : Collector -> Z * Collector) : Prop :=
  forall c, interner_wf c ->
    interner_wf (f c).2 /\ 1 <= (f c).1 <= Z.of_nat (length (values (f c).2)).

(** The rewriting of a mode by the bind rule: a mode that starts with
    [dependency] becomes [assign]; any other mode that does not end in
    [-bind] gains the suffix [-bind]. *)
Definition rewrite_mode (mode : string) : string :=
  if startswith "dependency" mode then "assign"
  else if endswith "-bind" mode then mode
  else mode +:+ "-bind".

(** The Dependency object [r] of the state has its mode rewritten. *)
Definition bind_dependency (r : nat) (d : Dependency) (c : Collector) : Collector :=
  set_dep_heap (fun h => <[r := set_dep_mode (rewrite_mode (dep_mode d)) d]> h) c.

(** No Dependency among [refs] references the object [value]. *)
Definition none_references (value : pyobj) (refs : list nat) (c : Collector) : bool :=
  forallb (fun r => match dep_heap c !! r with
                    | Some d => negb (py_is (dep_value d) value)
                    | None => false
                    end) refs.

(** The value is interned afresh. *)
Definition interned (value : pyobj) (c : Collector) : result (option Z) :=
  Ok (Some (add_value value c).1) (add_value value c).2.

(** Every successful run of [m] relates the state before and the state
    after by [R]. *)
Definition keeps {A} (R : Collector -> Collector -> Prop) (m : M A) : Prop :=
  forall c a c', m c = Ok a c' -> R c c'.

(** The component [f] of the state is left as it was. *)
Definition unchanged {X} (f : Collector -> X) : Collector -> Collector -> Prop :=
  fun c c' => f c' = f c.

(** Number of scopes on the stack of an activation. *)
Definition scope_depth (act : Z) (c : Collector) : option nat :=
  (fun a => length (a_dependencies a)) <$> activations c !! act.

(** Every activation has as many scopes as before. *)
Definition same_depths : Collector -> Collector -> Prop :=
  fun c c' => forall act, scope_depth act c' = scope_depth act c.

(** Dependency objects are only created. *)
Definition heap_extends : Collector -> Collector -> Prop :=
  fun c c' => dep_heap c `prefix_of` dep_heap c'.

(** The before hooks of an expression: the ones whose after hook takes
    the value of the expression and returns it.  The three other before
    hooks of the collector, [func], [call] and [function_def], return
    [_func], [_call] and [_function_def], which take other arguments. *)
Inductive before_hook : Type :=
| before_operation | before_container | before_dict | before_dict_key
| before_dict_value | before_list | before_tuple | before_set | before_item
| before_assign_value | before_argument | before_return.

Definition call_before (b : before_hook) (act : Z) : M after_hook :=
  match b with
  | before_operation => operation act
  | before_container => container act
  | before_dict => dict_ act
  | before_dict_key => dict_key act
  | before_dict_value => dict_value act
  | before_list => list_ act
  | before_tuple => tuple_ act
  | before_set => set_ act
  | before_item => item act
  | before_assign_value => assign_value act
  | before_argument => argument act
  | before_return => return_ act
  end.

(** Scope stack conservation for one hook: when the after hook returns,
    the stack of the activation has the size it had before the before
    hook. *)
Definition scope_stack_conserved (b : before_hook) : Prop :=
  forall act args c h c1 v c2,
    call_before b act c = Ok h c1 ->
    call_after h act args c1 = Ok v c2 ->
    scope_depth act c2 = scope_depth act c.

(** The ids of the activations are ids the evaluation store has
    issued: an activation has the id of its evaluation, and the root
    activation the id -1.  The collector keys its activations by object;
    with this the ids identify them as well. *)
Definition ids_issued (c : Collector) : Prop :=
  forall k : Z, is_Some (activations c !! k) -> k <= evaluations_id c.

(** Number of scopes an after hook takes from the stack. *)
Definition pops (h : after_hook) : nat :=
  match h with
  | after_container | after_dict_key => 0
  | after_dict_value => 2
  | _ => 1
  end.

(** Every successful run of [m] returns [v]. *)
Definition returns {A} (v : A) (m : M A) : Prop :=
  forall c a c', m c = Ok a c' -> a = v.

(** The dependency edge from an evaluation to a Dependency, stored
    under [id]. *)
Definition edge_of (evaluation : Evaluation) (mode : Dependency -> string)
    (dep : Dependency) (id : Z) : DependencyRecord :=
  mkDependencyRecord id (e_activation_id evaluation) (e_id evaluation)
    (dep_activation_id dep) (dep_evaluation_id dep) (mode dep).

(** The dependency store after the edges are added one by one, each
    under the next id. *)
Fixpoint add_edges (store : list DependencyRecord)
    (edges : list (Z -> DependencyRecord)) : list DependencyRecord :=
  match edges with
  | [] => store
  | e :: edges' =>
      add_edges (store ++ [e (Z.of_nat (length store) + 1)]) edges'
  end.

(** The Dependency objects behind the references of a scope. *)
Definition deps_of (c : Collector) (refs : list nat) (ds : list Dependency) : Prop :=
  Forall2 (fun r d => dep_heap c !! r = Some d) refs ds.

(** [dep.mode.startswith("argument")] *)
Definition is_argument (d : Dependency) : bool :=
  startswith "argument" (dep_mode d).

(** The loop that commits one edge per Dependency of a scope, for the
    Dependencies selected by [keep]: the common form of the loops of
    [create_dependencies] and [create_argument_dependencies]. *)
Definition edges_loop (evaluation : Evaluation) (keep : Dependency -> bool)
    (mode : Dependency -> string) (refs : list nat) : M unit :=
  for_each refs (fun r =>
    let! dep := get_dep r in
    if keep dep then
      dependencies_add (e_activation_id evaluation) (e_id evaluation)
        (dep_activation_id dep) (dep_evaluation_id dep) (mode dep)
    else ret tt).

(** The evaluation of an activation once the activation is closed. *)
Definition closed_evaluation (evaluation : Evaluation) (now : moment)
    (value_id : option Z) : Evaluation :=
  mkEvaluation (e_id evaluation) (e_code_component_id evaluation)
    (e_activation_id evaluation) (Some now) value_id.

(** The activation that becomes current when an activation whose
    evaluation belongs to [parent] is closed. *)
Definition restored_activation (parent : Z) (c : Collector) : Z :=
  match activations c !! parent with
  | Some _ => parent
  | None => first_activation c
  end.

(** The edges that the cleanup of [_call] commits for the Dependencies
    [ds] of the first scope of the activation. *)
Definition call_edges (evaluation : Evaluation) (activation : Activation)
    (ds : list Dependency) : list (Z -> DependencyRecord) :=
  (edge_of evaluation dep_mode <$> ds) ++
  (if bool_decide (a_code_block_id activation = Some (-1))
   then edge_of evaluation (fun _ => "dependency") <$> List.filter is_argument ds
   else []).

(** On the state [c] the run of [m] returns [a], and the state it
    leaves satisfies [P]. *)
Definition holds_at {A} (m : M A) (c : Collector) (a : A)
    (P : Collector -> Prop) : Prop :=
  m c = Ok a (result_state (m c)) /\ P (result_state (m c)).

(** The state [c'] is [c] but for the fields of Dependency objects:
    no object was created. *)
Definition only_heap : Collector -> Collector -> Prop :=
  fun c c' => exists h, c' = set_dep_heap (fun _ => h) c /\
                        length h = length (dep_heap c).

(** The state after [collect_exception] recorded the exception [e]
    against the activation [activation]. *)
Definition exception_recorded (e : pyexc) (activation : Activation)
    (c : Collector) : Collector :=
  set_exceptions
    (fun l => l ++ [mkExceptionRecord (Z.of_nat (length l) + 1) e
                      (a_id activation)]) c.

(** The computation never returns a value. *)
Definition never_returns {A} (m : M A) : Prop :=
  forall c, exists e c', m c = Raise e c'.

(** A target that is neither a single name nor a starred target. *)
Definition is_nested (t : target) : bool :=
  match t with
  | Multiple _ _ | OtherTarget _ => true
  | _ => false
  end.

Definition is_starred (t : target) : bool :=
  match t with
  | Starred _ _ => true
  | _ => false
  end.

(** The state after [lookup] has materialised the global evaluation of
    the builtin [name], whose value is [obj]. *)
Definition builtin_looked_up (name : string) (obj : pyobj) (c : Collector)
    : Collector :=
  let code := Z.of_nat (length (code_components c)) + 1 in
  let c1 := set_code_components
              (fun l => l ++ [mkCodeComponent code name "global" "w"
                                (-1) (-1) (-1) (-1) (-1)]) c in
  let c2 := set_clock S c1 in
  let c3 := (add_value obj c2).2 in
  let e := mkEvaluation (evaluations_id c + 1) code (-1) (Some (clock c))
             (Some (add_value obj c2).1) in
  set_global_evaluations (fun m => <[name := e_id e]> m)
    (set_evaluations (fun m => <[e_id e := e]> m) (fun _ => e_id e) c3).

(** The compartment store after one compartment per item is added, each
    under the next id, all parts of [whole]. *)
Fixpoint add_parts (store : list Compartment) (whole : option Z)
    (items : list (pyobj * option Z * option moment)) : list Compartment :=
  match items with
  | [] => store
  | (key, value_id, moment) :: items' =>
      add_parts
        (store ++ [mkCompartment (Z.of_nat (length store) + 1)
                     ("[" +:+ py_repr key +:+ "]") moment whole value_id])
        whole items'
  end.

(** * Concrete objects and states used in the examples *)

Module Examples.

Definition int_type : pytype := Class 1 "int" TypeRoot.
Definition list_type : pytype := Class 2 "list" TypeRoot.
Definition builtin_type : pytype := Class 3 "builtin_function_or_method" TypeRoot.

Definition py_int (addr : nat) (repr : string) : pyobj :=
  OInst addr int_type repr true false None.
Definition py_list (addr : nat) (repr : string) (items : list pyobj) : pyobj :=
  OInst addr list_type repr false true (Some items).

Definition one : pyobj := py_int 11 "1".
Definition two : pyobj := py_int 12 "2".
Definition three : pyobj := py_int 13 "3".
Definition xs : pyobj := py_list 20 "[1, 2, 3]" [one; two; three].

(** A scope with two dependencies: on the literal [1] and on the
    list [xs]. *)
Definition dep_one : Dependency := new_Dependency 1 2 one (Some 3) "dependency".
Definition dep_xs : Dependency := new_Dependency 1 3 xs (Some 4) "item".
Definition two_deps : Collector :=
  set_dep_heap (fun _ => [dep_one; dep_xs]) (new_collector ∅).
Definition scope_two_deps : DependencyAware :=
  mkDepa PlainScope [0%nat; 1%nat] None None.

(** The collector after [start_script]: the activation of the script
    has id 1. *)
Definition script_started : Collector :=
  result_state (start_activation "script" 1 1 (-1) (new_collector ∅)).

Definition plain_args (code_id : Z) (value : pyobj) : after_args :=
  mkAfterArgs code_id value "dependency" py_None "" "".

(** A call of the builtin [len] on [xs] from the script: the activation
    of the call has id 2 and no known definition; its first scope holds
    the dependency on the function and the dependency on the argument. *)
Definition len_function : pyobj :=
  OFunc 30 builtin_type "len" "<built-in function len>".
Definition dep_len : Dependency :=
  new_Dependency 1 3 len_function (Some 6) "func".
Definition dep_argument : Dependency :=
  set_dep_arg_kind "" "argument" (new_Dependency 1 4 xs (Some 7) "argument").
(** The two Dependency objects of the call in the heap of a fresh
    collector. *)
Definition call_deps : Collector :=
  set_dep_heap (fun _ => [dep_len; dep_argument]) (new_collector ∅).
Definition in_call : Collector :=
  result_state
    ((call 1 31 len_function "dependency" ;;;
      update_activation 2
        (set_a_dependencies
           (fun _ => [mkDepa PlainScope [0%nat; 1%nat] None None])) ;;;
      modify (set_dep_heap (fun _ => [dep_len; dep_argument])))
       script_started).

(** The host running the call: [len] returns 3; any other function
    raises. *)
Definition host (func : pyobj) (args : call_args) : M pyobj :=
  if py_is func len_function then ret three
  else raise (UserException (OInst 40 (Class 4 "ValueError" TypeRoot)
                               "ValueError()" false false None)).

Definition failing_function : pyobj :=
  OFunc 31 builtin_type "fail" "<built-in function fail>".
Definition in_failing_call : Collector :=
  result_state
    ((call 1 31 failing_function "dependency" ;;;
      update_activation 2
        (set_a_dependencies
           (fun _ => [mkDepa PlainScope [0%nat; 1%nat] None None])) ;;;
      modify (set_dep_heap (fun _ => [dep_len; dep_argument])))
       script_started).

(** Stores of the metascript without any compartment: the helpers of
    [assign] find nothing. *)
Definition no_compartment (c : Collector) (value_id : option Z) (addr : string)
    : option Z := None.
Definition no_evaluation (c : Collector) (part_id : option Z) : option (Z * Z) :=
  None.

(** The targets of [(a, b), c = ...] and of [a, *b = ...]. *)
Definition pair_ab : target :=
  Multiple [Single 20 "a" one; Single 21 "b" two]
    (py_list 21 "[1, 2]" [one; two]).
Definition nested_target : target :=
  Multiple [pair_ab; Single 22 "c" three]
    (py_list 22 "[[1, 2], 3]" [py_list 21 "[1, 2]" [one; two]; three]).
Definition starred_target : target :=
  Multiple [Single 20 "a" one;
            Starred (Single 21 "b" (py_list 23 "[2, 3]" [two; three])) xs] xs.

(** The script activation with the two Dependency objects [dep_one]
    and [dep_xs] in the heap. *)
Definition script_two_deps : Collector :=
  set_dep_heap (fun _ => [dep_one; dep_xs]) script_started.

End Examples.

(** * Properties *)

(** ** The value interner *)

Lemma values_add_spec repr type_id c :
  values_add repr type_id c =
  (Z.of_nat (length (values c)) + 1,
   set_values (fun vs => vs ++ [mkValue (Z.of_nat (length (values c)) + 1) repr type_id]) c).
Proof. reflexivity. Qed.

Lemma add_value_root_appends : appends_value (repr_type TypeRoot) add_value_root.
Proof.
  intros c. exists [], (Z.of_nat (length (values c)) + 1). simpl.
  rewrite app_nil_r. done.
Qed.

Lemma add_value_with_appends add_type value_type value repr' :
  appends_value repr' add_type ->
  appends_value (py_repr value) (add_value_with add_type value_type value).
Proof.
  intros Ht c. unfold add_value_with.
  destruct (shared_types c !! value_type) as [tid|] eqn:E.
  - rewrite E. simpl. exists [], tid. simpl. rewrite app_nil_r. done.
  - destruct (Ht c) as (vs & tid & Hv & Hi).
    destruct (add_type c) as [i c'] eqn:Ec. simpl in *.
    rewrite lookup_insert_eq. simpl.
    exists (vs ++ [mkValue i repr' tid]), i. rewrite Hv.
    rewrite <- !app_assoc. simpl. done.
Qed.

Lemma add_value_type_appends t : appends_value (repr_type t) (add_value_type t).
Proof.
  induction t as [|a n meta IH].
  - apply add_value_root_appends.
  - simpl. apply (add_value_with_appends _ _ (OType (Class a n meta)) _ IH).
Qed.

Lemma add_value_appends value : appends_value (py_repr value) (add_value value).
Proof.
  destruct value as [t|a cls r imm it items|a cls n r].
  - apply add_value_type_appends.
  - apply (add_value_with_appends _ _ (OInst a cls r imm it items) _
             (add_value_type_appends cls)).
  - apply (add_value_with_appends _ _ (OFunc a cls n r) _
             (add_value_type_appends cls)).
Qed.

(** After a call the type of the object has a shared id. *)
Lemma add_value_with_shares add_type value_type value c :
  is_Some (shared_types (add_value_with add_type value_type value c).2 !! value_type).
Proof.
  unfold add_value_with.
  destruct (shared_types c !! value_type) as [tid|] eqn:E.
  - simpl. rewrite E. eauto.
  - destruct (add_type c) as [i c']. simpl. rewrite lookup_insert_eq. eauto.
Qed.

(** A call on an object whose type is already shared appends exactly
    one Value. *)
Lemma add_value_with_shared add_type value_type value c tid :
  shared_types c !! value_type = Some tid ->
  add_value_with add_type value_type value c = values_add (py_repr value) tid c.
Proof. intros E. unfold add_value_with. rewrite E. simpl. by rewrite E. Qed.

(** C2, counterexample: interning [None] twice in a fresh collector
    returns two different ids and stores a second Value. *)
Lemma add_value_twice_counterexample : ~ interns_by_identity.
Proof.
  intros H. destruct (H py_None (new_collector ∅)) as [Hid _].
  vm_compute in Hid. discriminate Hid.
Qed.

(** C2, amended: every call of [add_value] appends a new Value for the
    object.  A second call on the identical object returns the next id
    and appends exactly one Value, with the [repr] of the object; only
    the id of the object's type is cached, in [shared_types]. *)
Theorem add_value_twice (value : pyobj) (c : Collector) :
  let r1 := add_value value c in
  let r2 := add_value value r1.2 in
  r2.1 = r1.1 + 1 /\
  exists tid, values r2.2 = values r1.2 ++ [mkValue r2.1 (py_repr value) tid].
Proof.
  intros r1 r2.
  destruct (add_value_appends value c) as (vs & tid & Hv & Hi).
  fold r1 in Hv, Hi.
  assert (Hlen : Z.of_nat (length (values r1.2)) = r1.1).
  { rewrite Hv, Hi. rewrite !length_app. simpl. lia. }
  assert (Hone : exists tid', r2 = values_add (py_repr value) tid' r1.2 \/
                   (r2 = add_value_root r1.2 /\ py_repr value = repr_type TypeRoot)).
  { subst r2. destruct value as [[|a n meta]|a cls r imm it items|a cls n r].
    - exists 0. right. done.
    - destruct (add_value_with_shares (add_value_type meta) meta
                  (OType (Class a n meta)) c) as [t Ht].
      exists t. left. simpl. by apply add_value_with_shared.
    - destruct (add_value_with_shares (add_value_type cls) cls
                  (OInst a cls r imm it items) c) as [t Ht].
      exists t. left. by apply add_value_with_shared.
    - destruct (add_value_with_shares (add_value_type cls) cls
                  (OFunc a cls n r) c) as [t Ht].
      exists t. left. by apply add_value_with_shared. }
  destruct Hone as (tid' & [-> | [-> Hr]]).
  - simpl. rewrite Hlen. eauto.
  - simpl. rewrite Hlen, Hr. eauto.
Qed.

(** *** The type chain of a Value *)

Lemma values_get_Some vs i v :
  values_get vs i = Some v -> 1 <= i /\ vs !! Z.to_nat (i - 1) = Some v.
Proof.
  unfold values_get. destruct (Z.leb_spec 1 i); [done | discriminate].
Qed.

Lemma values_get_pos vs (pos : nat) :
  values_get vs (Z.of_nat pos + 1) = vs !! pos.
Proof.
  unfold values_get. destruct (Z.leb_spec 1 (Z.of_nat pos + 1)); [|lia].
  f_equal. lia.
Qed.

Lemma values_wf_app vs v :
  values_wf vs -> value_wf (length vs) v -> values_wf (vs ++ [v]).
Proof.
  intros Hvs Hv pos w Hw.
  apply lookup_app_Some in Hw as [Hw | [Hge Hw]].
  - by apply Hvs.
  - apply list_lookup_singleton_Some in Hw as [Hpos <-].
    replace pos with (length vs) by lia. done.
Qed.

(** Under [values_wf], [fuel] steps are enough for every id up to
    [fuel]: each step of the chain moves to a smaller id. *)
Lemma type_root_terminates vs :
  values_wf vs ->
  forall (fuel : nat) (i : Z),
    1 <= i <= Z.of_nat (length vs) -> i <= Z.of_nat fuel ->
    exists root, type_root fuel vs i = Some root /\
      v_type_id root = v_id root /\ v_repr root = repr_type TypeRoot.
Proof.
  intros Hwf fuel. induction fuel as [|fuel IH]; intros i Hi Hfuel; [lia|].
  assert (Hpos : (Z.to_nat (i - 1) < length vs)%nat) by lia.
  apply lookup_lt_is_Some in Hpos as [v Hv].
  assert (Hget : values_get vs i = Some v).
  { replace i with (Z.of_nat (Z.to_nat (i - 1)) + 1) by lia.
    by rewrite values_get_pos. }
  destruct (Hwf _ _ Hv) as [Hid [[Hself Hrepr] | Hlt]].
  - exists v. simpl. rewrite Hget.
    destruct (Z.eqb_spec (v_type_id v) (v_id v)); [done | congruence].
  - simpl. rewrite Hget.
    destruct (Z.eqb_spec (v_type_id v) (v_id v)) as [Heq | _]; [lia|].
    apply IH; lia.
Qed.

(** *** The interner keeps the store well formed *)

Lemma shared_types_wf_insert c t i vs :
  shared_types_wf c -> 1 <= i <= Z.of_nat (length (values c ++ vs)) ->
  forall t' i', <[t := i]> (shared_types c) !! t' = Some i' ->
    1 <= i' <= Z.of_nat (length (values c ++ vs)).
Proof.
  intros Hs Hi t' i' Hl. rewrite length_app in *.
  destruct (decide (t = t')) as [-> | Hne].
  - rewrite lookup_insert_eq in Hl. injection Hl as <-. done.
  - rewrite lookup_insert_ne in Hl by done. apply Hs in Hl. lia.
Qed.

Lemma add_value_root_keeps_wf : keeps_interner_wf add_value_root.
Proof.
  intros c [Hv Hs]. unfold add_value_root. simpl. split; [split|].
  - simpl. apply values_wf_app; [done|]. split; simpl; [done | left; done].
  - intros t i. simpl. apply shared_types_wf_insert; [done|].
    rewrite length_app. simpl. lia.
  - rewrite length_app. simpl. lia.
Qed.

Lemma values_add_keeps_wf repr tid c :
  interner_wf c -> 1 <= tid <= Z.of_nat (length (values c)) ->
  interner_wf (values_add repr tid c).2 /\
  1 <= (values_add repr tid c).1
    <= Z.of_nat (length (values (values_add repr tid c).2)).
Proof.
  intros [Hv Hs] Ht. simpl. split; [split|].
  - simpl. apply values_wf_app; [done|]. split; simpl; [done | right; lia].
  - intros t i Hl. simpl in *. apply Hs in Hl. rewrite length_app. lia.
  - rewrite length_app. simpl. lia.
Qed.

Lemma add_value_with_keeps_wf add_type value_type value :
  keeps_interner_wf add_type ->
  keeps_interner_wf (add_value_with add_type value_type value).
Proof.
  intros Ht c Hc. unfold add_value_with.
  destruct (shared_types c !! value_type) as [tid|] eqn:E.
  - rewrite E. simpl default. apply values_add_keeps_wf; [done|].
    destruct Hc as [_ Hs]. by apply Hs in E.
  - destruct (Ht c Hc) as [[Hv Hs] Hi].
    destruct (add_type c) as [i c'] eqn:Ec. simpl in Hv, Hs, Hi.
    simpl shared_types. rewrite lookup_insert_eq. simpl default.
    apply values_add_keeps_wf; [|done].
    split; [done|]. intros t j Hl. simpl in *.
    destruct (decide (value_type = t)) as [-> | Hne].
    + rewrite lookup_insert_eq in Hl. injection Hl as <-. done.
    + rewrite lookup_insert_ne in Hl by done. by apply Hs in Hl.
Qed.

Lemma add_value_type_keeps_wf t : keeps_interner_wf (add_value_type t).
Proof.
  induction t as [|a n meta IH].
  - apply add_value_root_keeps_wf.
  - simpl. by apply add_value_with_keeps_wf.
Qed.

Lemma add_value_keeps_wf value : keeps_interner_wf (add_value value).
Proof.
  destruct value as [t|a cls r imm it items|a cls n r].
  - apply add_value_type_keeps_wf.
  - apply add_value_with_keeps_wf, add_value_type_keeps_wf.
  - apply add_value_with_keeps_wf, add_value_type_keeps_wf.
Qed.

(** C8: in a well-formed store, after [add_value] every stored Value
    reaches a self-typed Value of [type] by following [type_id], in at
    most as many steps as the store has Values. *)
Theorem add_value_type_chain (value : pyobj) (c : Collector) :
  interner_wf c ->
  forall (pos : nat) (v : Value),
    values (add_value value c).2 !! pos = Some v ->
    exists root,
      type_root (length (values (add_value value c).2))
        (values (add_value value c).2) (v_id v) = Some root /\
      v_type_id root = v_id root /\ v_repr root = repr_type TypeRoot.
Proof.
  intros Hc pos v Hv.
  destruct (add_value_keeps_wf value c Hc) as [[Hwf _] _].
  pose proof (lookup_lt_Some _ _ _ Hv) as Hlt.
  destruct (Hwf _ _ Hv) as [Hid _].
  apply type_root_terminates; [done | lia | lia].
Qed.

Lemma new_collector_interner_wf builtins : interner_wf (new_collector builtins).
Proof.
  split.
  - intros pos v H. simpl in H. by rewrite lookup_nil in H.
  - intros t i H. simpl in H. by rewrite lookup_empty in H.
Defined.

Lemma add_value_type_chain_witness :
  interner_wf (new_collector ∅) /\
  values (add_value py_None (new_collector ∅)).2 !! 2%nat
    = Some (mkValue 3 "None" 2) /\
  exists root,
    type_root (length (values (add_value py_None (new_collector ∅)).2))
      (values (add_value py_None (new_collector ∅)).2) 3 = Some root /\
    v_type_id root = v_id root /\ v_repr root = repr_type TypeRoot.
Proof.
  split; [apply new_collector_interner_wf|]. split; [reflexivity|].
  apply (add_value_type_chain py_None (new_collector ∅)
           (new_collector_interner_wf ∅) 2%nat (mkValue 3 "None" 2)).
  reflexivity.
Defined.

(** ** The name hook *)

(** C10: with a code tuple whose first element is falsy, [name] returns
    the value and leaves the whole collector state as it was. *)
Theorem name_without_code_component (act : Z) (value : pyobj) (mode : string)
    (c : Collector) :
  name act None value mode c = Ok value c.
Proof. reflexivity. Qed.

(** ** Collection literals *)

(** C9: the before hooks of tuples and sets are the before hook of
    lists.  On an activation of the collector each of the three pushes
    one new [CollectionDependencyAware] scope on top of the stack of
    that activation, changes nothing else and returns [_list]; on every
    state the three give the same result, so that a before hook
    followed by the application of the returned after hook records the
    same for the three. *)
Theorem tuple_set_as_list (act : Z) (c : Collector) :
  (forall a : Activation,
     activations c !! act = Some a ->
     list_ act c
       = Ok after_list
           (set_activations
              (fun m =>
                 <[act := set_a_dependencies
                            (fun l => l ++ [new_CollectionDependencyAware]) a]> m)
              c)) /\
  tuple_ act c = list_ act c /\
  set_ act c = list_ act c /\
  (forall (act' : Z) (args : after_args),
     call_after after_list act' args
       = _list act' (arg_code_id args) (arg_value args) (arg_mode args)) /\
  forall (act' : Z) (args : after_args),
    (let! h := tuple_ act in call_after h act' args) c
      = (let! h := list_ act in call_after h act' args) c /\
    (let! h := set_ act in call_after h act' args) c
      = (let! h := list_ act in call_after h act' args) c.
Proof.
  repeat split; try reflexivity.
  intros a Ha.
  unfold list_, push_scope, update_activation, get_activation, bind, modify, ret.
  by rewrite Ha.
Qed.

Lemma tuple_set_as_list_witness :
  exists a,
    activations Examples.script_started !! 1 = Some a /\
    a_dependencies a = [new_DependencyAware] /\
    tuple_ 1 Examples.script_started
      = Ok after_list
          (set_activations
             (fun m =>
                <[1 := set_a_dependencies
                         (fun _ => [new_DependencyAware;
                                    new_CollectionDependencyAware]) a]> m)
             Examples.script_started) /\
    set_ 1 Examples.script_started = tuple_ 1 Examples.script_started.
Proof.
  assert (Ha : exists a,
            activations Examples.script_started !! 1 = Some a /\
            a_dependencies a = [new_DependencyAware]).
  { eexists. split; [vm_compute; reflexivity | reflexivity]. }
  destruct Ha as (a & Ha & Hd). exists a.
  split; [exact Ha|]. split; [exact Hd|].
  destruct (tuple_set_as_list 1 Examples.script_started)
    as (Hpush & Ht & Hs & _).
  split.
  - rewrite Ht, (Hpush a Ha). unfold set_a_dependencies. by rewrite Hd.
  - by rewrite Ht, Hs.
Defined.

(** ** The bind rule *)

Lemma set_dep_mode_id d : set_dep_mode (dep_mode d) d = d.
Proof. by destruct d. Qed.

Lemma set_dep_heap_insert_id r d c :
  dep_heap c !! r = Some d -> set_dep_heap (fun h => <[r := d]> h) c = c.
Proof.
  intros H. destruct c; simpl in *. unfold set_dep_heap; simpl.
  by rewrite (list_insert_id _ _ _ H).
Qed.

Lemma update_dep_Some r f d c :
  dep_heap c !! r = Some d ->
  update_dep r f c = Ok tt (set_dep_heap (fun h => <[r := f d]> h) c).
Proof. intros H. unfold update_dep, bind, get_dep. by rewrite H. Qed.

(** The loop stops at the first Dependency that references the value,
    rewrites its mode and returns its value id. *)
Lemma find_bound_first value pre r post d c :
  none_references value pre c = true ->
  dep_heap c !! r = Some d ->
  py_is (dep_value d) value = true ->
  find_bound value (pre ++ r :: post) c =
    Ok (dep_value_id d) (bind_dependency r d c).
Proof.
  intros Hpre Hr Hd. induction pre as [|r' pre IH]; simpl.
  - unfold bind, get_dep. rewrite Hr, Hd.
    unfold bind_dependency, rewrite_mode.
    destruct (startswith "dependency" (dep_mode d)).
    + by rewrite (update_dep_Some _ _ _ _ Hr).
    + destruct (endswith "-bind" (dep_mode d)); simpl.
      * unfold ret. rewrite set_dep_mode_id.
        by rewrite (set_dep_heap_insert_id _ _ _ Hr).
      * by rewrite (update_dep_Some _ _ _ _ Hr).
  - simpl in Hpre. apply andb_true_iff in Hpre as [Hr' Hpre].
    unfold bind at 1, get_dep.
    destruct (dep_heap c !! r') as [d'|]; [|done].
    apply negb_true_iff in Hr'. rewrite Hr'. by apply IH.
Qed.

(** Without a Dependency that references the value the loop finds
    nothing and changes nothing. *)
Lemma find_bound_none value refs c :
  none_references value refs c = true -> find_bound value refs c = Ok None c.
Proof.
  intros Hn. induction refs as [|r refs IH]; simpl; [done|].
  simpl in Hn. apply andb_true_iff in Hn as [Hr Hn].
  unfold bind at 1, get_dep.
  destruct (dep_heap c !! r) as [d|]; [|done].
  apply negb_true_iff in Hr. rewrite Hr. by apply IH.
Qed.

(** C4: the bind rule.  (1) When the scope may be searched (the value
    is not immutable, or the scope holds exactly one dependency) and
    some Dependency of the scope references the very object [value],
    the value id of the first such Dependency is the result and the
    mode of that Dependency is rewritten: [dependency...] becomes
    [assign], any other mode not ending in [-bind] gains [-bind]; no
    Value is stored.  (2) For an immutable value and a scope that does
    not hold exactly one dependency the scope is not searched: with
    creation enabled a fresh Value is interned.  (3) When no Dependency
    references the object, with creation enabled a fresh Value is
    interned. *)
Theorem find_value_id_bind_rule (value : pyobj) (depa : DependencyAware)
    (c : Collector) :
  (forall (create : bool) (pre post : list nat) (r : nat) (d : Dependency),
     depa_dependencies depa = pre ++ r :: post ->
     none_references value pre c = true ->
     dep_heap c !! r = Some d ->
     py_is (dep_value d) value = true ->
     is_immutable value = false \/ length (depa_dependencies depa) = 1%nat ->
     truthy_id (dep_value_id d) = true ->
     find_value_id value (Some depa) create c =
       Ok (dep_value_id d) (bind_dependency r d c)) /\
  (is_immutable value = true ->
   length (depa_dependencies depa) <> 1%nat ->
   find_value_id value (Some depa) true c = interned value c) /\
  (none_references value (depa_dependencies depa) c = true ->
   find_value_id value (Some depa) true c = interned value c).
Proof.
  split; [|split].
  - intros create pre post r d Hdeps Hpre Hr Hd Hel Htruthy.
    unfold find_value_id, bind.
    assert (Hsearch : negb (is_immutable value)
              || (length (depa_dependencies depa) =? 1)%nat = true).
    { destruct Hel as [-> | ->]; [done | by rewrite orb_true_r]. }
    rewrite Hsearch, Hdeps.
    rewrite (find_bound_first _ _ _ _ _ _ Hpre Hr Hd).
    rewrite Htruthy. simpl. by rewrite andb_false_r.
  - intros Himm Hlen. unfold find_value_id, bind. rewrite Himm. simpl.
    destruct (Nat.eqb_spec (length (depa_dependencies depa)) 1); [done|].
    unfold ret at 1. simpl. unfold interned, lift, ret.
    by destruct (add_value value c).
  - intros Hn. unfold find_value_id, bind.
    destruct (negb (is_immutable value)
              || (length (depa_dependencies depa) =? 1)%nat).
    + rewrite (find_bound_none _ _ _ Hn). simpl.
      unfold interned, lift, ret. by destruct (add_value value c).
    + unfold ret at 1. simpl. unfold interned, lift, ret.
      by destruct (add_value value c).
Qed.

Lemma find_value_id_bind_rule_witness :
  find_value_id Examples.xs (Some Examples.scope_two_deps) false Examples.two_deps
    = Ok (Some 4) (bind_dependency 1 Examples.dep_xs Examples.two_deps) /\
  dep_mode <$> dep_heap (bind_dependency 1 Examples.dep_xs Examples.two_deps) !! 1%nat
    = Some "item-bind" /\
  find_value_id Examples.one (Some Examples.scope_two_deps) true Examples.two_deps
    = interned Examples.one Examples.two_deps /\
  find_value_id Examples.three (Some Examples.scope_two_deps) true Examples.two_deps
    = interned Examples.three Examples.two_deps.
Proof.
  split; [|split; [|split]].
  - apply (proj1 (find_value_id_bind_rule Examples.xs Examples.scope_two_deps
                    Examples.two_deps) false [0%nat] [] 1%nat Examples.dep_xs);
      try reflexivity.
    left; reflexivity.
  - reflexivity.
  - apply (proj1 (proj2 (find_value_id_bind_rule Examples.one
                           Examples.scope_two_deps Examples.two_deps)));
      [reflexivity | vm_compute; discriminate].
  - apply (proj2 (proj2 (find_value_id_bind_rule Examples.three
                           Examples.scope_two_deps Examples.two_deps))).
    reflexivity.
Defined.

(** ** Reasoning in the collector monad *)

Lemma bind_Ok {A B} (m : M A) (k : A -> M B) c b c' :
  bind m k c = Ok b c' <-> exists a c1, m c = Ok a c1 /\ k a c1 = Ok b c'.
Proof.
  unfold bind. split.
  - destruct (m c) as [a c1|e c1]; [eauto | discriminate].
  - intros (a & c1 & -> & H). done.
Qed.

(** A run that returns [v] is [Ok v] with the state it leaves. *)
Lemma Ok_result_state {A} (r : result A) (v : A) :
  match r with Ok a _ => a = v | Raise _ _ => False end ->
  r = Ok v (result_state r).
Proof. destruct r; [by intros -> | done]. Qed.

#[global] Instance unchanged_preorder {X} (f : Collector -> X) : PreOrder (unchanged f).
Proof.
  split; [by intros c | intros c1 c2 c3 H1 H2; unfold unchanged in *; congruence].
Qed.

#[global] Instance same_depths_preorder : PreOrder same_depths.
Proof.
  split; [by intros c act | intros c1 c2 c3 H1 H2 act; by rewrite H2, H1].
Qed.

#[global] Instance heap_extends_preorder : PreOrder heap_extends.
Proof.
  split.
  - intros c. unfold heap_extends. reflexivity.
  - intros c1 c2 c3 H1 H2. unfold heap_extends in *. by etrans.
Qed.

Section Keeps.
Context (R : Collector -> Collector -> Prop) `{!PreOrder R}.

Lemma keeps_ret {A} (a : A) : keeps R (ret a).
Proof. intros c a' c' H. inversion H; subst. reflexivity. Qed.

Lemma keeps_raise {A} e : keeps R (@raise A e).
Proof. intros c a c' H. discriminate. Qed.

Lemma keeps_gets {A} (f : Collector -> A) : keeps R (gets f).
Proof. intros c a c' H. inversion H; subst. reflexivity. Qed.

Lemma keeps_from_option {A} e (o : option A) : keeps R (from_option e o).
Proof. destruct o; [apply keeps_ret | apply keeps_raise]. Qed.

Lemma keeps_bind {A B} (m : M A) (k : A -> M B) :
  keeps R m -> (forall a, keeps R (k a)) -> keeps R (bind m k).
Proof.
  intros Hm Hk c b c' H. apply bind_Ok in H as (a & c1 & H1 & H2).
  etrans; [by eapply Hm | by eapply Hk].
Qed.

Lemma keeps_modify (f : Collector -> Collector) :
  (forall c, R c (f c)) -> keeps R (modify f).
Proof. intros Hf c a c' H. inversion H; subst. apply Hf. Qed.

Lemma keeps_lift {A} (f : Collector -> A * Collector) :
  (forall c, R c (f c).2) -> keeps R (lift f).
Proof.
  intros Hf c a c' H. unfold lift in H. specialize (Hf c).
  destruct (f c) as [a' c'']. inversion H; subst. apply Hf.
Qed.

Lemma keeps_for_each {A} (l : list A) (body : A -> M unit) :
  (forall x, keeps R (body x)) -> keeps R (for_each l body).
Proof.
  intros Hb. induction l as [|x l IH]; simpl.
  - apply keeps_ret.
  - apply keeps_bind; [apply Hb | intros _; apply IH].
Qed.

Lemma keeps_map_M {A B} (f : A -> M B) (l : list A) :
  (forall x, keeps R (f x)) -> keeps R (map_M f l).
Proof.
  intros Hf. induction l as [|x l IH]; simpl.
  - apply keeps_ret.
  - apply keeps_bind; [apply Hf | intros y].
    apply keeps_bind; [apply IH | intros ys; apply keeps_ret].
Qed.

Lemma keeps_get_evaluation i : keeps R (get_evaluation i).
Proof.
  intros c a c' H. unfold get_evaluation in H.
  destruct (evaluations c !! i); [|discriminate]. inversion H; subst. reflexivity.
Qed.

Lemma keeps_get_dep r : keeps R (get_dep r).
Proof.
  intros c a c' H. unfold get_dep in H.
  destruct (dep_heap c !! r); [|discriminate]. inversion H; subst. reflexivity.
Qed.

Lemma keeps_get_activation act : keeps R (get_activation act).
Proof.
  intros c a c' H. unfold get_activation in H.
  destruct (activations c !! act); [|discriminate]. inversion H; subst. reflexivity.
Qed.

Lemma keeps_time : (forall c, R c (set_clock S c)) -> keeps R time.
Proof. intros Hf c a c' H. inversion H; subst. apply Hf. Qed.

Lemma keeps_evaluations_add_object code act m v :
  (forall f g c, R c (set_evaluations f g c)) ->
  keeps R (evaluations_add_object code act m v).
Proof. intros Hf c a c' H. inversion H; subst. apply Hf. Qed.

Lemma keeps_code_components_add n t m a1 a2 a3 a4 a5 :
  (forall f c, R c (set_code_components f c)) ->
  keeps R (code_components_add n t m a1 a2 a3 a4 a5).
Proof. intros Hf c a c' H. inversion H; subst. apply Hf. Qed.

Lemma keeps_alloc_dep d :
  (forall c, R c (set_dep_heap (fun h => h ++ [d]) c)) -> keeps R (alloc_dep d).
Proof. intros Hf c a c' H. inversion H; subst. apply Hf. Qed.

Lemma keeps_add_value value :
  (forall f c, R c (set_values f c)) ->
  (forall f c, R c (set_shared_types f c)) ->
  forall c, R c (add_value value c).2.
Proof.
  intros Hv Hs.
  assert (Hroot : forall c, R c (add_value_root c).2).
  { intros c. unfold add_value_root. simpl. etrans; [apply Hv | apply Hs]. }
  assert (Hwith : forall add_type vt v,
             (forall c, R c (add_type c).2) ->
             forall c, R c (add_value_with add_type vt v c).2).
  { intros add_type vt v Ht c. unfold add_value_with.
    destruct (shared_types c !! vt).
    - simpl. apply Hv.
    - specialize (Ht c). destruct (add_type c) as [i c1]. simpl in *.
      etrans; [apply Ht|]. etrans; [apply Hs | apply Hv]. }
  assert (Htype : forall t c, R c (add_value_type t c).2).
  { induction t as [|a n meta IH]; [apply Hroot|].
    intros c. change (add_value_type (Class a n meta))
      with (add_value_with (add_value_type meta) meta (OType (Class a n meta))).
    by apply Hwith. }
  intros c. destruct value; [apply Htype | by apply Hwith..].
Qed.

End Keeps.

Lemma keeps_weaken {A} (R R' : Collector -> Collector -> Prop) (m : M A) :
  (forall c c', R c c' -> R' c c') -> keeps R m -> keeps R' m.
Proof. intros HR Hm c a c' H. by eapply HR, Hm. Qed.

(** Proves that a setter leaves the relation of the goal intact. *)
Ltac solve_frame :=
  intros;
  first [ reflexivity
        | (intros ?; reflexivity)
        | (unfold heap_extends; simpl; reflexivity)
        | (unfold heap_extends; simpl; by apply prefix_app_r) ].

(** Decomposes a goal [keeps R m] along the structure of [m]; [leaf] is
    tried first, for the operations that need a lemma of their own. *)
Ltac keeps_step leaf :=
  first
  [ leaf
  | lazymatch goal with
    | |- keeps ?R (bind _ _) => apply (keeps_bind R); [|intros ?]
    | |- keeps ?R (ret _) => apply (keeps_ret R)
    | |- keeps ?R (raise _) => apply (keeps_raise R)
    | |- keeps ?R (gets _) => apply (keeps_gets R)
    | |- keeps ?R (from_option _ _) => apply (keeps_from_option R)
    | |- keeps ?R (for_each _ _) => apply (keeps_for_each R); intros ?
    | |- keeps ?R (map_M _ _) => apply (keeps_map_M R); intros ?
    | |- keeps ?R (get_evaluation _) => apply (keeps_get_evaluation R)
    | |- keeps ?R (get_dep _) => apply (keeps_get_dep R)
    | |- keeps ?R (get_activation _) => apply (keeps_get_activation R)
    | |- keeps ?R time => apply (keeps_time R); solve_frame
    | |- keeps ?R (evaluations_add_object _ _ _ _) =>
        apply (keeps_evaluations_add_object R); solve_frame
    | |- keeps ?R (code_components_add _ _ _ _ _ _ _ _) =>
        apply (keeps_code_components_add R); solve_frame
    | |- keeps ?R (alloc_dep _) => apply (keeps_alloc_dep R); solve_frame
    | |- keeps ?R (lift (add_value _)) =>
        apply (keeps_lift R), (keeps_add_value R); solve_frame
    | |- keeps ?R (modify _) => apply (keeps_modify R); solve_frame
    | |- keeps _ (match ?x with _ => _ end) => destruct x
    | |- keeps _ (let '(_, _) := ?x in _) => destruct x
    | |- keeps _ (update_activation _ _) => unfold update_activation
    | |- keeps _ _ =>
        progress unfold evaluations_add, dependencies_add,
          compartments_add_object, exceptions_add, update_dep,
          find_value_id, create_dependencies, create_argument_dependencies,
          evaluate, add_compartments, read_key, add_new_to_top, add_to_top,
          append_item_to_top, top_scope, collect_exception
    end ].

Ltac keeps_with leaf := repeat keeps_step leaf.
Ltac keeps_auto := keeps_with fail.

Lemma keeps_find_bound R `{!PreOrder R} value deps :
  (forall f c, R c (set_dep_heap f c)) -> keeps R (find_bound value deps).
Proof.
  intros Hf. induction deps as [|r deps IH]; simpl.
  - apply (keeps_ret R).
  - keeps_with ltac:(first [apply IH | apply (keeps_modify R); intros; apply Hf]).
Qed.

Lemma pop_last_snoc {A} (l : list A) (x : A) : pop_last (l ++ [x]) = Some (l, x).
Proof. induction l as [|a l IH]; simpl; [done | by rewrite IH]. Qed.

Lemma pop_last_None {A} (l : list A) : pop_last l = None -> l = [].
Proof.
  destruct l as [|x l]; simpl; [done|].
  destruct (pop_last l) as [[? ?]|]; discriminate.
Qed.

Lemma pop_last_Some {A} (l rest : list A) (top : A) :
  pop_last l = Some (rest, top) -> l = rest ++ [top].
Proof.
  revert rest. induction l as [|x l IH]; intros rest; simpl; [discriminate|].
  destruct (pop_last l) as [[rest' y]|] eqn:E; intros H; simplify_eq.
  - by rewrite (IH rest' eq_refl).
  - by rewrite (pop_last_None _ E).
Qed.

(** ** The scope stack *)

Lemma update_activation_Ok act g c u c' :
  update_activation act g c = Ok u c' ->
  exists a, activations c !! act = Some a /\
            c' = set_activations (fun m => <[act := g a]> m) c.
Proof.
  unfold update_activation, bind, get_activation. intros H.
  destruct (activations c !! act) as [a|]; [|discriminate].
  exists a. split; [done|]. by inversion H.
Qed.

Lemma scope_depth_update act g a c act' :
  activations c !! act = Some a ->
  scope_depth act' (set_activations (fun m => <[act := g a]> m) c) =
    if decide (act = act') then Some (length (a_dependencies (g a)))
    else scope_depth act' c.
Proof.
  intros Ha. unfold scope_depth. simpl. destruct (decide (act = act')) as [<-|Hne].
  - by rewrite lookup_insert_eq.
  - by rewrite lookup_insert_ne.
Qed.

Lemma keeps_update_activation_depths act g :
  (forall a, length (a_dependencies (g a)) = length (a_dependencies a)) ->
  keeps same_depths (update_activation act g).
Proof.
  intros Hg c u c' H. apply update_activation_Ok in H as (a & Ha & ->).
  intros act'. rewrite (scope_depth_update _ _ _ _ _ Ha).
  destruct (decide (act = act')) as [<-|]; [|done].
  unfold scope_depth. by rewrite Ha, Hg.
Qed.

Lemma keeps_update_top_scope_depths act f :
  keeps same_depths (update_top_scope act f).
Proof.
  intros c u c' H. unfold update_top_scope in H.
  apply bind_Ok in H as (a & c1 & Ha & H).
  pose proof (keeps_get_activation (unchanged (fun c => c)) act _ _ _ Ha) as Hc.
  unfold unchanged in Hc. subst c1.
  unfold get_activation in Ha.
  destruct (activations c !! act) as [a'|] eqn:Hact; [|discriminate].
  inversion Ha; subst a'.
  destruct (pop_last (a_dependencies a)) as [[rest top]|] eqn:Hp; [|discriminate].
  apply update_activation_Ok in H as (a' & Ha' & ->).
  rewrite Hact in Ha'. inversion Ha'; subst a'.
  intros act'. rewrite (scope_depth_update _ _ _ _ _ Hact).
  destruct (decide (act = act')) as [<-|]; [|done].
  unfold scope_depth. rewrite Hact. simpl.
  rewrite (pop_last_Some _ _ _ Hp), !length_app. done.
Qed.

Lemma push_scope_depth act scope c u c' :
  push_scope act scope c = Ok u c' ->
  exists n, scope_depth act c = Some n /\ scope_depth act c' = Some (S n).
Proof.
  unfold push_scope. intros H.
  apply update_activation_Ok in H as (a & Ha & ->).
  exists (length (a_dependencies a)). split.
  - unfold scope_depth. by rewrite Ha.
  - rewrite (scope_depth_update _ _ _ _ _ Ha). rewrite decide_True by done.
    simpl. rewrite length_app. simpl. f_equal. lia.
Qed.

Lemma pop_scope_depth act c scope c' :
  pop_scope act c = Ok scope c' ->
  exists n, scope_depth act c = Some (S n) /\ scope_depth act c' = Some n.
Proof.
  unfold pop_scope. intros H.
  apply bind_Ok in H as (a & c1 & Ha & H).
  unfold get_activation in Ha.
  destruct (activations c !! act) as [a'|] eqn:Hact; [|discriminate].
  inversion Ha; subst a' c1.
  destruct (pop_last (a_dependencies a)) as [[rest top]|] eqn:Hp; [|discriminate].
  apply bind_Ok in H as (u & c2 & H & Hret).
  apply update_activation_Ok in H as (a' & Ha' & ->).
  inversion Hret; subst. exists (length rest). split.
  - unfold scope_depth. rewrite Hact. simpl.
    rewrite (pop_last_Some _ _ _ Hp), length_app. simpl. f_equal. lia.
  - rewrite (scope_depth_update _ _ _ _ _ Ha'). by rewrite decide_True.
Qed.

Lemma update_top_scope_depth act f c u c' :
  update_top_scope act f c = Ok u c' -> is_Some (scope_depth act c).
Proof.
  unfold update_top_scope, bind, get_activation, scope_depth. intros H.
  destruct (activations c !! act); [by eexists | discriminate].
Qed.

(** The operations on the activations that keep the depth of every
    stack. *)
Ltac depth_leaf :=
  first [ apply keeps_update_top_scope_depths
        | apply keeps_update_activation_depths; intros; reflexivity
        | apply (keeps_find_bound same_depths); solve_frame ].

Ltac keeps_depths := keeps_with depth_leaf.

Lemma call_before_depth b act c h c1 :
  call_before b act c = Ok h c1 ->
  exists n, scope_depth act c = Some n /\ scope_depth act c1 = Some (S n).
Proof.
  intros H.
  destruct b; simpl in H; apply bind_Ok in H as (u & c' & Hp & Hr);
    inversion Hr; subst; by eapply push_scope_depth.
Qed.

(** An after hook that returns has taken [pops h] scopes from the
    stack of its activation. *)
Lemma call_after_depth h act args c v c' :
  call_after h act args c = Ok v c' ->
  exists n, scope_depth act c = Some (n + pops h)%nat /\ scope_depth act c' = Some n.
Proof.
  intros H.
  assert (Hone : forall (rest : DependencyAware -> M pyobj),
            (forall d, keeps same_depths (rest d)) ->
            bind (pop_scope act) rest c = Ok v c' ->
            exists n, scope_depth act c = Some (n + 1)%nat /\
                      scope_depth act c' = Some n).
  { intros rest Hrest Hb. apply bind_Ok in Hb as (d & c1 & Hpop & Hr).
    apply pop_scope_depth in Hpop as (n & Hn & Hn1).
    exists n. split; [by rewrite Nat.add_1_r|].
    by rewrite (Hrest d _ _ _ Hr act). }
  assert (Hzero : forall value,
            bind (update_top_scope act (depa_set_key value))
                 (fun _ => ret value) c = Ok v c' ->
            exists n, scope_depth act c = Some (n + 0)%nat /\
                      scope_depth act c' = Some n).
  { intros value Hb. apply bind_Ok in Hb as (u & c1 & Hu & Hr).
    inversion Hr; subst.
    destruct (update_top_scope_depth _ _ _ _ _ Hu) as [n Hn].
    exists n. rewrite Nat.add_0_r. split; [done|].
    by rewrite (keeps_update_top_scope_depths _ _ _ _ _ Hu act). }
  destruct h; simpl pops; simpl in H;
    try (eapply Hone; cycle 1; [exact H|]; intros d; cbv beta; keeps_depths);
    try (by apply Hzero in H).
  unfold _dict_value in H. apply bind_Ok in H as (d & c1 & Hpop & H).
  apply pop_scope_depth in Hpop as (n & Hn & Hn1).
  assert (Hin : exists m, scope_depth act c1 = Some (m + 1)%nat /\
                          scope_depth act c' = Some m).
  { clear Hone. apply bind_Ok in H as (d' & c2 & Hpop & Hr).
    apply pop_scope_depth in Hpop as (m & Hm & Hm1).
    exists m. split; [by rewrite Nat.add_1_r|].
    assert (Hk : keeps same_depths
              (let compartment_dependency_aware :=
                 depa_set_dependencies
                   (depa_dependencies d' ++ depa_dependencies d) d' in
               let! value_id := find_value_id (arg_value args) (Some d) true in
               let! activation := get_activation act in
               let! now := time in
               let! evaluation :=
                 evaluations_add_object (arg_code_id args) (a_id activation)
                   (Some now) value_id in
               create_dependencies evaluation (Some compartment_dependency_aware) ;;;
               add_new_to_top act
                 (ret (new_Dependency (a_id activation) (e_id evaluation)
                         (arg_value args) value_id "item")) ;;;
               top_scope act ;;;
               let! key := read_key compartment_dependency_aware in
               append_item_to_top act (key, value_id, e_moment evaluation) ;;;
               ret (arg_value args))) by (cbv zeta; keeps_depths).
    by rewrite (Hk _ _ _ Hr act). }
  destruct Hin as (m & Hm & Hm').
  rewrite Hn1 in Hm. inversion Hm; subst n.
  exists m. split; [|done]. rewrite Hn. f_equal. lia.
Qed.

(** C3, counterexample: after [container] and [_container], and after
    [dict_key] and [_dict_key], the stack of the script activation holds
    one scope more than before the before hook. *)
Lemma key_hooks_leave_a_scope :
  ~ scope_stack_conserved before_container /\
  ~ scope_stack_conserved before_dict_key.
Proof.
  split; intros H.
  - specialize (H 1 (Examples.plain_args 7 Examples.xs) Examples.script_started
                  after_container
                  (result_state (container 1 Examples.script_started))
                  Examples.xs
                  (result_state
                     (_container 1 7 Examples.xs
                        (result_state (container 1 Examples.script_started))))
                  eq_refl eq_refl).
    vm_compute in H. discriminate H.
  - specialize (H 1 (Examples.plain_args 7 Examples.one) Examples.script_started
                  after_dict_key
                  (result_state (dict_key 1 Examples.script_started))
                  Examples.one
                  (result_state
                     (_dict_key 1 7 Examples.one
                        (result_state (dict_key 1 Examples.script_started))))
                  eq_refl eq_refl).
    vm_compute in H. discriminate H.
Qed.

(** * Further properties of the collector *)

(** ** The value interner *)

Lemma add_value_not_root value :
  value <> OType TypeRoot ->
  add_value value =
    add_value_with (add_value_type (py_type value)) (py_type value) value.
Proof. destruct value as [[|a n meta]| |]; done. Qed.

(** [add_value] only appends to the Value store, and the id it returns
    is the id of the last Value, which carries the [repr] of the
    object. *)
Theorem add_value_stores (value : pyobj) (c : Collector) :
  values c `prefix_of` values (add_value value c).2 /\
  (add_value value c).1 = Z.of_nat (length (values (add_value value c).2)) /\
  exists tid,
    values_get (values (add_value value c).2) (add_value value c).1
      = Some (mkValue (add_value value c).1 (py_repr value) tid).
Proof.
  destruct (add_value_appends value c) as (vs & tid & Hv & Hi).
  split; [rewrite Hv; by apply prefix_app_r|].
  assert (Hlen : (add_value value c).1
                 = Z.of_nat (length (values (add_value value c).2))).
  { rewrite Hv, Hi, !length_app. simpl. lia. }
  split; [done|]. exists tid.
  rewrite Hi at 1. rewrite values_get_pos, Hv, app_assoc.
  by rewrite lookup_app_r, Nat.sub_diag by lia.
Qed.

Lemma add_value_untouched (value : pyobj) (c : Collector) :
  let c' := (add_value value c).2 in
  evaluations c' = evaluations c /\ evaluations_id c' = evaluations_id c /\
  activations c' = activations c /\ dependencies c' = dependencies c /\
  compartments c' = compartments c /\ exceptions c' = exceptions c /\
  code_components c' = code_components c /\ dep_heap c' = dep_heap c /\
  last_activation c' = last_activation c /\ clock c' = clock c /\
  global_evaluations c' = global_evaluations c.
Proof.
  cbv zeta. repeat split.
  all: match goal with
       | |- ?f _ = ?f _ => apply (keeps_add_value (unchanged f)); solve_frame
       end.
Qed.

(** The interner touches the Value store and the cache of types, and
    nothing else of the collector. *)
Theorem add_value_frame (value : pyobj) (c : Collector) :
  let c' := (add_value value c).2 in
  evaluations c' = evaluations c /\ evaluations_id c' = evaluations_id c /\
  activations c' = activations c /\ dependencies c' = dependencies c /\
  compartments c' = compartments c /\ exceptions c' = exceptions c /\
  code_components c' = code_components c /\ dep_heap c' = dep_heap c /\
  last_activation c' = last_activation c /\ clock c' = clock c /\
  global_evaluations c' = global_evaluations c.
Proof. exact (add_value_untouched value c). Qed.

(** What [add_value_with] leaves behind: the type has a shared id, which
    is the type id of the Value it appended. *)
Lemma add_value_with_cached add_type value_type value c :
  exists tid pre,
    shared_types (add_value_with add_type value_type value c).2 !! value_type
      = Some tid /\
    values (add_value_with add_type value_type value c).2
      = pre ++ [mkValue (add_value_with add_type value_type value c).1
                  (py_repr value) tid] /\
    (add_value_with add_type value_type value c).1 = Z.of_nat (length pre) + 1.
Proof.
  unfold add_value_with.
  destruct (shared_types c !! value_type) as [tid|] eqn:E.
  - rewrite E. simpl. eauto.
  - destruct (add_type c) as [i c']. simpl. rewrite lookup_insert_eq. simpl. eauto.
Qed.

(** All the objects of one type share the Value of their type: two
    objects with the same type, interned one after the other, get
    Values with the same type id, and the second call stores no Value
    for the type. *)
Theorem add_value_shares_type (a b : pyobj) (c : Collector) :
  a <> OType TypeRoot -> b <> OType TypeRoot -> py_type a = py_type b ->
  let r1 := add_value a c in
  let r2 := add_value b r1.2 in
  exists tid,
    values_get (values r2.2) r1.1 = Some (mkValue r1.1 (py_repr a) tid) /\
    values_get (values r2.2) r2.1 = Some (mkValue r2.1 (py_repr b) tid) /\
    r2.1 = r1.1 + 1.
Proof.
  intros Ha Hb Ht r1 r2. subst r1 r2.
  rewrite (add_value_not_root a Ha), (add_value_not_root b Hb), <- Ht.
  destruct (add_value_with_cached (add_value_type (py_type a)) (py_type a) a c)
    as (tid & pre & Hs & Hv & Hi).
  rewrite (add_value_with_shared _ _ b _ _ Hs).
  destruct (add_value_with (add_value_type (py_type a)) (py_type a) a c)
    as [i1 c1]. simpl in Hs, Hv, Hi. subst i1.
  exists tid. unfold values_add. simpl. rewrite Hv.
  rewrite length_app. simpl.
  replace (Z.of_nat (length pre + 1) + 1)
    with (Z.of_nat (S (length pre)) + 1) by lia.
  rewrite !values_get_pos.
  split; [|split; [|lia]].
  - rewrite <- app_assoc. simpl.
    by rewrite lookup_app_r, Nat.sub_diag by lia.
  - rewrite lookup_app_r by (rewrite length_app; simpl; lia).
    rewrite length_app. simpl.
    by replace (S (length pre) - (length pre + 1))%nat with 0%nat by lia.
Qed.

Lemma add_value_shares_type_witness :
  Examples.one <> OType TypeRoot /\ Examples.two <> OType TypeRoot /\
  py_type Examples.one = py_type Examples.two /\
  exists tid,
    values_get (values (add_value Examples.two
                          (add_value Examples.one (new_collector ∅)).2).2)
      (add_value Examples.one (new_collector ∅)).1
      = Some (mkValue (add_value Examples.one (new_collector ∅)).1 "1" tid) /\
    values_get (values (add_value Examples.two
                          (add_value Examples.one (new_collector ∅)).2).2)
      (add_value Examples.two (add_value Examples.one (new_collector ∅)).2).1
      = Some (mkValue
                (add_value Examples.two
                   (add_value Examples.one (new_collector ∅)).2).1 "2" tid) /\
    (add_value Examples.two (add_value Examples.one (new_collector ∅)).2).1
      = (add_value Examples.one (new_collector ∅)).1 + 1.
Proof.
  split; [discriminate|]. split; [discriminate|]. split; [reflexivity|].
  apply (add_value_shares_type Examples.one Examples.two (new_collector ∅));
    [discriminate | discriminate | reflexivity].
Defined.

(** Closes a goal [m c = Ok v (result_state (m c))] on a concrete state
    by running [m]. *)
Ltac run_hook := apply Ok_result_state; vm_compute; reflexivity.

(** ** The hooks return the value they are given *)

Lemma returns_ret {A} (v : A) : returns v (ret v).
Proof. intros c a c' H. by inversion H. Qed.

Lemma returns_raise {A} (v : A) e : returns v (raise e).
Proof. intros c a c' H. discriminate. Qed.

Lemma returns_bind {A B} (v : B) (m : M A) (k : A -> M B) :
  (forall a, returns v (k a)) -> returns v (bind m k).
Proof.
  intros Hk c b c' H. apply bind_Ok in H as (a & c1 & _ & H). by eapply Hk.
Qed.

Ltac returns_auto :=
  repeat first
    [ apply returns_ret
    | apply returns_raise
    | apply returns_bind; intros ?
    | match goal with
      | |- returns _ (match ?x with _ => _ end) => destruct x
      end ].

(** The after hooks are transparent: an after hook that returns gives
    back the value it was called with. *)
Theorem after_hooks_transparent (h : after_hook) (act : Z) (args : after_args)
    (c : Collector) (v : pyobj) (c' : Collector) :
  call_after h act args c = Ok v c' -> v = arg_value args.
Proof.
  revert c v c'. change (returns (arg_value args) (call_after h act args)).
  destruct h; simpl;
    unfold _operation, _container, _dict, _dict_key, _dict_value, _list,
      _item, _assign_value, _argument, _return;
    returns_auto.
Qed.

Lemma after_hooks_transparent_witness :
  call_after after_list 1 (Examples.plain_args 7 Examples.xs)
      (result_state (call_before before_list 1 Examples.script_started))
    = Ok Examples.xs
        (result_state
           (call_after after_list 1 (Examples.plain_args 7 Examples.xs)
              (result_state (call_before before_list 1 Examples.script_started)))) /\
  Examples.xs = arg_value (Examples.plain_args 7 Examples.xs).
Proof.
  assert (Ha : call_after after_list 1 (Examples.plain_args 7 Examples.xs)
                 (result_state
                    (call_before before_list 1 Examples.script_started))
               = Ok Examples.xs
                   (result_state
                      (call_after after_list 1 (Examples.plain_args 7 Examples.xs)
                         (result_state
                            (call_before before_list 1 Examples.script_started))))).
  { apply Ok_result_state. vm_compute. reflexivity. }
  split; [exact Ha|].
  exact (after_hooks_transparent _ _ _ _ _ _ Ha).
Defined.

(** ** More on the bind rule *)

Lemma add_value_id_positive value c : 1 <= (add_value value c).1.
Proof.
  destruct (add_value_appends value c) as (vs & tid & _ & Hi). rewrite Hi. lia.
Qed.

Lemma lift_add_value_Ok value c i c' :
  lift (add_value value) c = Ok i c' ->
  i = (add_value value c).1 /\ c' = (add_value value c).2.
Proof.
  unfold lift. destruct (add_value value c) as [i' c'']. intros H.
  by inversion H.
Qed.

(** What the loop of the bind rule does to the state: nothing, or the
    rewriting of the mode of one Dependency that references the value. *)
Lemma find_bound_effect value deps c v c' :
  find_bound value deps c = Ok v c' ->
  (v = None /\ c' = c) \/
  exists r d, r ∈ deps /\ dep_heap c !! r = Some d /\
    py_is (dep_value d) value = true /\
    v = dep_value_id d /\ c' = bind_dependency r d c.
Proof.
  induction deps as [|r deps IH]; simpl; intros H.
  - left. by inversion H.
  - apply bind_Ok in H as (d & c1 & Hd & H).
    unfold get_dep in Hd. destruct (dep_heap c !! r) as [d'|] eqn:Hr; [|done].
    inversion Hd; subst d' c1.
    destruct (py_is (dep_value d) value) eqn:His.
    + right. exists r, d. split; [by left|]. split; [done|]. split; [done|].
      apply bind_Ok in H as (u & c2 & Hu & Hret). inversion Hret; subst.
      split; [done|]. unfold bind_dependency, rewrite_mode.
      destruct (startswith "dependency" (dep_mode d)).
      * rewrite (update_dep_Some _ _ _ _ Hr) in Hu. by inversion Hu.
      * destruct (endswith "-bind" (dep_mode d)); simpl in Hu.
        -- inversion Hu; subst. rewrite set_dep_mode_id.
           by rewrite (set_dep_heap_insert_id _ _ _ Hr).
        -- rewrite (update_dep_Some _ _ _ _ Hr) in Hu. by inversion Hu.
    + destruct (IH H) as [Hn | (r' & d' & Hin & Hr' & Hrest)]; [by left|].
      right. exists r', d'. split; [by right | done].
Qed.

Lemma find_value_id_inv (value : pyobj) (depa : option DependencyAware)
    (create : bool) (c : Collector) (v : option Z) (c' : Collector) :
  find_value_id value depa create c = Ok v c' ->
  (dep_heap c' = dep_heap c \/
   exists r d, dep_heap c !! r = Some d /\ py_is (dep_value d) value = true /\
     dep_heap c' = <[r := set_dep_mode (rewrite_mode (dep_mode d)) d]> (dep_heap c)) /\
  activations c' = activations c /\ evaluations c' = evaluations c /\
  dependencies c' = dependencies c /\
  (create = true -> truthy_id v = true).
Proof.
  unfold find_value_id. intros H.
  apply bind_Ok in H as (found & c1 & Hfind & H).
  assert (Hc1 : (found = None /\ c1 = c) \/
                exists r d, dep_heap c !! r = Some d /\
                  py_is (dep_value d) value = true /\
                  found = dep_value_id d /\ c1 = bind_dependency r d c).
  { destruct depa as [d|]; [|left; by inversion Hfind].
    destruct (negb (is_immutable value) || (length (depa_dependencies d) =? 1)%nat).
    - apply find_bound_effect in Hfind as [Hn | (r & d' & _ & Hrest)];
        [by left | right; eauto].
    - left. by inversion Hfind. }
  assert (Hrest : dep_heap c' = dep_heap c1 /\ activations c' = activations c1 /\
                  evaluations c' = evaluations c1 /\
                  dependencies c' = dependencies c1 /\
                  (create = true -> truthy_id v = true)).
  { destruct create; simpl in H.
    - destruct (truthy_id found) eqn:Ht; simpl in H.
      + inversion H; subst. done.
      + apply bind_Ok in H as (i & c2 & Hi & Hret). inversion Hret; subst.
        apply lift_add_value_Ok in Hi as [-> ->].
        pose proof (add_value_untouched value c1) as Hf. cbv zeta in Hf.
        destruct Hf as (He & _ & Ha & Hd & _ & _ & _ & Hh & _).
        repeat split; try done. intros _. simpl.
        pose proof (add_value_id_positive value c1).
        apply negb_true_iff, Z.eqb_neq. lia.
    - inversion H; subst. repeat split; try done. }
  destruct Hrest as (Hh & Ha & He & Hd & Ht).
  destruct Hc1 as [[_ ->] | (r & d & Hr & His & _ & ->)].
  - repeat split; try done. by left.
  - repeat split; try done. right. exists r, d. by rewrite Hh.
Qed.

(** [find_value_id] binds at most one Dependency: the heap of
    Dependency objects is as before, or one Dependency that references
    the value had its mode rewritten; the scope stacks, the evaluations
    and the committed edges are untouched.  With creation enabled the
    result is never [None] nor 0. *)
Theorem find_value_id_effect (value : pyobj) (depa : option DependencyAware)
    (create : bool) (c : Collector) (v : option Z) (c' : Collector) :
  find_value_id value depa create c = Ok v c' ->
  (dep_heap c' = dep_heap c \/
   exists r d, dep_heap c !! r = Some d /\ py_is (dep_value d) value = true /\
     dep_heap c' = <[r := set_dep_mode (rewrite_mode (dep_mode d)) d]> (dep_heap c)) /\
  activations c' = activations c /\ evaluations c' = evaluations c /\
  dependencies c' = dependencies c /\
  (create = true -> truthy_id v = true).
Proof. exact (find_value_id_inv value depa create c v c'). Qed.

Lemma find_value_id_effect_witness :
  find_value_id Examples.xs (Some Examples.scope_two_deps) true Examples.two_deps
    = Ok (Some 4)
        (result_state
           (find_value_id Examples.xs (Some Examples.scope_two_deps) true
              Examples.two_deps)) /\
  truthy_id (Some 4) = true.
Proof.
  assert (H : find_value_id Examples.xs (Some Examples.scope_two_deps) true
                Examples.two_deps
              = Ok (Some 4)
                  (result_state
                     (find_value_id Examples.xs (Some Examples.scope_two_deps)
                        true Examples.two_deps))) by run_hook.
  split; [exact H|].
  exact (proj2 (proj2 (proj2 (proj2
           (find_value_id_effect _ _ _ _ _ _ H)))) eq_refl).
Defined.

(** ** The committed edges *)

Lemma set_dependencies_id c : set_dependencies (fun l => l) c = c.
Proof. by destruct c. Qed.

Lemma for_each_ext {A} (l : list A) (f g : A -> M unit) c :
  (forall x c, f x c = g x c) -> for_each l f c = for_each l g c.
Proof.
  intros H. revert c. induction l as [|x l IH]; intros c; simpl; [done|].
  unfold bind. rewrite H. destruct (g x c); [apply IH | done].
Qed.

Lemma bind_run {A B} (m : M A) (k : A -> M B) c a c1 :
  m c = Ok a c1 -> bind m k c = k a c1.
Proof. unfold bind. by intros ->. Qed.

Lemma deps_of_heap c c' refs ds :
  dep_heap c' = dep_heap c -> deps_of c refs ds -> deps_of c' refs ds.
Proof. unfold deps_of. intros ->. done. Qed.

Lemma edges_loop_Ok evaluation keep mode refs ds c :
  deps_of c refs ds ->
  edges_loop evaluation keep mode refs c =
    Ok tt (set_dependencies
             (fun l => add_edges l (edge_of evaluation mode <$> List.filter keep ds))
             c).
Proof.
  unfold edges_loop. revert ds c.
  induction refs as [|r refs IH]; intros ds c H.
  - apply Forall2_nil_inv_l in H as ->. simpl.
    by rewrite set_dependencies_id.
  - apply Forall2_cons_inv_l in H as (d & ds' & Hr & H & ->). simpl for_each.
    destruct (keep d) eqn:Hk.
    + erewrite bind_run; cycle 1.
      { unfold bind, get_dep. rewrite Hr, Hk. reflexivity. }
      rewrite (IH ds'); [|by eapply deps_of_heap].
      simpl. by rewrite Hk.
    + erewrite bind_run; cycle 1.
      { unfold bind, get_dep. rewrite Hr, Hk. reflexivity. }
      rewrite (IH ds' c H). simpl. by rewrite Hk.
Qed.

Lemma edges_loop_inv evaluation keep mode refs c u c' :
  edges_loop evaluation keep mode refs c = Ok u c' ->
  exists ds, deps_of c refs ds /\
    c' = set_dependencies
           (fun l => add_edges l (edge_of evaluation mode <$> List.filter keep ds))
           c.
Proof.
  unfold edges_loop. revert c.
  induction refs as [|r refs IH]; intros c H; simpl in H.
  - exists []. split; [constructor|]. inversion H. simpl.
    by rewrite set_dependencies_id.
  - apply bind_Ok in H as (u1 & c1 & H1 & H).
    apply bind_Ok in H1 as (d & c0 & Hd & H1).
    unfold get_dep in Hd. destruct (dep_heap c !! r) as [d'|] eqn:Hr; [|done].
    inversion Hd; subst d' c0.
    apply IH in H as (ds & Hds & ->).
    assert (Hh : dep_heap c1 = dep_heap c).
    { destruct (keep d); inversion H1; done. }
    exists (d :: ds). split.
    + constructor; [done|]. by eapply deps_of_heap.
    + simpl. destruct (keep d); inversion H1; done.
Qed.

Lemma add_edges_length store edges :
  length (add_edges store edges) = (length store + length edges)%nat.
Proof.
  revert store. induction edges as [|e edges IH]; intros store; simpl; [lia|].
  rewrite IH, length_app. simpl. lia.
Qed.

Lemma add_edges_prefix store edges : store `prefix_of` add_edges store edges.
Proof.
  revert store. induction edges as [|e edges IH]; intros store; simpl; [done|].
  etrans; [|apply IH]. by apply prefix_app_r.
Qed.

Lemma filter_true {A} (l : list A) : List.filter (fun _ => true) l = l.
Proof. induction l as [|x l IH]; simpl; [done | by rewrite IH]. Qed.

Lemma create_dependencies_loop evaluation d c :
  create_dependencies evaluation (Some d) c =
    edges_loop evaluation (fun _ => true) dep_mode (depa_dependencies d) c.
Proof. reflexivity. Qed.

Lemma create_argument_dependencies_loop evaluation d c :
  create_argument_dependencies evaluation d c =
    edges_loop evaluation is_argument (fun _ => "dependency")
      (depa_dependencies d) c.
Proof. reflexivity. Qed.

(** [create_dependencies] commits one edge per Dependency of the scope,
    in the order of the scope, from the evaluation to the evaluation of
    the Dependency, with the mode the Dependency has at that moment and
    under consecutive ids; it changes nothing else.  Without a scope it
    does nothing. *)
Theorem create_dependencies_edges (evaluation : Evaluation)
    (depa : DependencyAware) (ds : list Dependency) (c : Collector) :
  deps_of c (depa_dependencies depa) ds ->
  create_dependencies evaluation (Some depa) c =
    Ok tt (set_dependencies
             (fun l => add_edges l (edge_of evaluation dep_mode <$> ds)) c) /\
  create_dependencies evaluation None c = Ok tt c.
Proof.
  intros H. split; [|done].
  rewrite create_dependencies_loop, (edges_loop_Ok _ _ _ _ _ _ H).
  by rewrite filter_true.
Qed.

Lemma create_dependencies_edges_witness :
  deps_of Examples.two_deps (depa_dependencies Examples.scope_two_deps)
    [Examples.dep_one; Examples.dep_xs] /\
  dependencies
    (result_state
       (create_dependencies (mkEvaluation 9 7 1 None None)
          (Some Examples.scope_two_deps) Examples.two_deps))
  = [mkDependencyRecord 1 1 9 1 2 "dependency";
     mkDependencyRecord 2 1 9 1 3 "item"].
Proof.
  assert (H : deps_of Examples.two_deps
                (depa_dependencies Examples.scope_two_deps)
                [Examples.dep_one; Examples.dep_xs]).
  { repeat constructor. }
  split; [exact H|].
  rewrite (proj1 (create_dependencies_edges (mkEvaluation 9 7 1 None None)
                    Examples.scope_two_deps _ Examples.two_deps H)).
  reflexivity.
Defined.

(** [create_argument_dependencies] commits one [dependency] edge for
    each Dependency of the scope whose mode starts with [argument], in
    the order of the scope, and none for the others. *)
Theorem create_argument_dependencies_edges (evaluation : Evaluation)
    (depa : DependencyAware) (ds : list Dependency) (c : Collector) :
  deps_of c (depa_dependencies depa) ds ->
  create_argument_dependencies evaluation depa c =
    Ok tt (set_dependencies
             (fun l => add_edges l
                (edge_of evaluation (fun _ => "dependency")
                   <$> List.filter is_argument ds)) c).
Proof. intros H. by rewrite create_argument_dependencies_loop, (edges_loop_Ok _ _ _ _ _ _ H). Qed.

Lemma create_argument_dependencies_edges_witness :
  deps_of Examples.call_deps (depa_dependencies Examples.scope_two_deps)
    [Examples.dep_len; Examples.dep_argument] /\
  dependencies
    (result_state
       (create_argument_dependencies (mkEvaluation 9 7 1 None None)
          Examples.scope_two_deps Examples.call_deps))
  = [mkDependencyRecord 1 1 9 1 4 "dependency"].
Proof.
  assert (H : deps_of Examples.call_deps
                (depa_dependencies Examples.scope_two_deps)
                [Examples.dep_len; Examples.dep_argument]).
  { repeat constructor. }
  split; [exact H|].
  rewrite (create_argument_dependencies_edges (mkEvaluation 9 7 1 None None)
             Examples.scope_two_deps _ Examples.call_deps H).
  reflexivity.
Defined.

(** ** Closing an activation *)

Lemma get_activation_Ok act c a c' :
  get_activation act c = Ok a c' -> c' = c /\ activations c !! act = Some a.
Proof.
  unfold get_activation. destruct (activations c !! act); [|done].
  intros H. by inversion H.
Qed.

Lemma get_evaluation_Ok i c e c' :
  get_evaluation i c = Ok e c' -> c' = c /\ evaluations c !! i = Some e.
Proof.
  unfold get_evaluation. destruct (evaluations c !! i); [|done].
  intros H. by inversion H.
Qed.

Lemma close_activation_Ok act value_id c u c' :
  close_activation act value_id c = Ok u c' ->
  exists a ev,
    activations c !! act = Some a /\
    evaluations c !! a_evaluation a = Some ev /\
    c' = set_last_activation (restored_activation (e_activation_id ev) c)
           (set_evaluations
              (fun m => <[e_id ev := closed_evaluation ev (clock c) value_id]> m)
              (fun i => i) (set_clock S c)).
Proof.
  unfold close_activation. intros H.
  apply bind_Ok in H as (a & c0 & Ha & H).
  apply get_activation_Ok in Ha as [-> Ha].
  apply bind_Ok in H as (ev & c0 & He & H).
  apply get_evaluation_Ok in He as [-> He].
  exists a, ev. split; [done|]. split; [done|]. by inversion H.
Qed.

(** [close_activation] fills the moment and the value id of the
    evaluation of the activation, leaves every other evaluation as it
    was, and makes current the activation that owns that evaluation,
    or the root activation when the store has no such activation. *)
Theorem close_activation_effect (act : Z) (value_id : option Z)
    (c : Collector) (u : unit) (c' : Collector) :
  close_activation act value_id c = Ok u c' ->
  exists a ev,
    activations c !! act = Some a /\
    evaluations c !! a_evaluation a = Some ev /\
    evaluations c' !! e_id ev = Some (closed_evaluation ev (clock c) value_id) /\
    (forall i, i <> e_id ev -> evaluations c' !! i = evaluations c !! i) /\
    last_activation c' = restored_activation (e_activation_id ev) c /\
    activations c' = activations c /\ dependencies c' = dependencies c /\
    values c' = values c /\ dep_heap c' = dep_heap c.
Proof.
  intros H. apply close_activation_Ok in H as (a & ev & Ha & He & ->).
  exists a, ev. repeat split; try done.
  - simpl. by rewrite lookup_insert_eq.
  - intros i Hi. simpl. by rewrite lookup_insert_ne.
Qed.

Lemma close_activation_effect_witness :
  holds_at (close_activation 1 (Some 5)) Examples.script_started tt
    (fun c' => last_activation c' = -1 /\
               e_value_id <$> evaluations c' !! 1 = Some (Some 5)).
Proof.
  assert (H : close_activation 1 (Some 5) Examples.script_started
              = Ok tt (result_state
                         (close_activation 1 (Some 5) Examples.script_started)))
    by run_hook.
  split; [exact H|].
  destruct (close_activation_effect _ _ _ _ _ H)
    as (a & ev & Ha & He & Hc & _ & Hl & _).
  assert (Hev : ev = mkEvaluation 1 1 (-1) None None).
  { vm_compute in Ha. inversion Ha; subst a. vm_compute in He. by inversion He. }
  subst ev. split.
  - rewrite Hl. reflexivity.
  - change 1 with (e_id (mkEvaluation 1 1 (-1) None None)) at 1.
    by rewrite Hc.
Defined.

(** ** Starting and closing an activation *)

(** An activation started from [act] and then closed gives the control
    back to [act]: [start_activation] makes the new activation current,
    with one scope on its stack and an evaluation without moment nor
    value; [close_activation] fills them in and makes [act] current
    again. *)
Theorem start_close_activation (name : string) (code definition act : Z)
    (value_id : option Z) (parent : Activation) (c : Collector) :
  activations c !! act = Some parent -> a_id parent = act ->
  exists new c1 c2,
    start_activation name code definition act c = Ok new c1 /\
    new = evaluations_id c + 1 /\ last_activation c1 = new /\
    scope_depth new c1 = Some 1%nat /\
    evaluations c1 !! new = Some (mkEvaluation new code act None None) /\
    close_activation new value_id c1 = Ok tt c2 /\
    last_activation c2 = act /\
    evaluations c2 !! new
      = Some (mkEvaluation new code act (Some (S (clock c))) value_id).
Proof.
  intros Ha Hid.
  assert (Hs : start_activation name code definition act c =
               Ok (evaluations_id c + 1)
                  (result_state (start_activation name code definition act c))).
  { unfold start_activation, bind, get_activation. rewrite Ha, Hid. reflexivity. }
  set (new := evaluations_id c + 1) in *.
  set (c1 := result_state (start_activation name code definition act c)) in *.
  assert (Hacts : activations c1 =
            <[new := new_Activation (mkEvaluation new code act None None) name
                       (Some (clock c)) (Some definition) (Some act)]>
              (activations c)).
  { subst c1. unfold start_activation, bind, get_activation.
    rewrite Ha, Hid. reflexivity. }
  assert (Hevs : evaluations c1 =
            <[new := mkEvaluation new code act None None]> (evaluations c)).
  { subst c1. unfold start_activation, bind, get_activation.
    rewrite Ha, Hid. reflexivity. }
  assert (Hclock : clock c1 = S (clock c)).
  { subst c1. unfold start_activation, bind, get_activation.
    rewrite Ha, Hid. reflexivity. }
  assert (Hlast : last_activation c1 = new).
  { subst c1. unfold start_activation, bind, get_activation.
    rewrite Ha, Hid. reflexivity. }
  assert (Hc : close_activation new value_id c1 =
               Ok tt (result_state (close_activation new value_id c1))).
  { unfold close_activation, bind, get_activation, get_evaluation.
    rewrite Hacts, lookup_insert_eq. simpl.
    rewrite Hevs, lookup_insert_eq. reflexivity. }
  exists new, c1, (result_state (close_activation new value_id c1)).
  split; [done|]. split; [done|]. split; [done|].
  split; [unfold scope_depth; by rewrite Hacts, lookup_insert_eq|].
  split; [by rewrite Hevs, lookup_insert_eq|].
  split; [done|].
  destruct (close_activation_Ok _ _ _ _ _ Hc) as (a & ev & Ha' & He' & Hc2).
  rewrite Hacts, lookup_insert_eq in Ha'. inversion Ha'; subst a. simpl in He'.
  rewrite Hevs, lookup_insert_eq in He'. inversion He'; subst ev.
  rewrite Hc2. simpl. split.
  - unfold restored_activation. simpl. rewrite Hacts.
    destruct (decide (new = act)) as [->|Hne].
    + by rewrite lookup_insert_eq.
    + by rewrite lookup_insert_ne, Ha.
  - rewrite lookup_insert_eq. unfold closed_evaluation. simpl. by rewrite Hclock.
Qed.

Lemma start_close_activation_witness :
  activations (new_collector ∅) !! (-1) = Some dry_activation /\
  a_id dry_activation = -1 /\
  exists new c1 c2,
    start_activation "script" 1 1 (-1) (new_collector ∅) = Ok new c1 /\
    new = evaluations_id (new_collector ∅) + 1 /\ last_activation c1 = new /\
    scope_depth new c1 = Some 1%nat /\
    evaluations c1 !! new = Some (mkEvaluation new 1 (-1) None None) /\
    close_activation new (Some 7) c1 = Ok tt c2 /\
    last_activation c2 = -1 /\
    evaluations c2 !! new
      = Some (mkEvaluation new 1 (-1) (Some (S (clock (new_collector ∅)))) (Some 7)).
Proof.
  split; [reflexivity|]. split; [reflexivity|].
  exact (start_close_activation "script" 1 1 (-1) (Some 7) dry_activation
           (new_collector ∅) eq_refl eq_refl).
Defined.

(** ** The cleanup of a call *)

#[global] Instance only_heap_preorder : PreOrder only_heap.
Proof.
  split.
  - intros c. exists (dep_heap c). split; [by destruct c | done].
  - intros c1 c2 c3 (h & -> & Hl) (h' & -> & Hl'). exists h'. split; [done|].
    simpl in Hl'. congruence.
Qed.

Lemma find_value_id_only_heap value depa :
  keeps only_heap (find_value_id value depa false).
Proof.
  intros c v c' H. unfold find_value_id in H.
  apply bind_Ok in H as (found & c1 & Hf & H). simpl in H. inversion H; subst.
  destruct depa as [d|]; [|inversion Hf; reflexivity].
  destruct (negb (is_immutable value) || (length (depa_dependencies d) =? 1)%nat);
    [|inversion Hf; reflexivity].
  apply find_bound_effect in Hf as [[_ ->] | (r & d' & _ & Hr & _ & _ & ->)];
    [reflexivity|].
  eexists. split; [reflexivity|]. by rewrite length_insert.
Qed.

Lemma find_in_scopes_only_heap result scopes :
  keeps only_heap (find_in_scopes result scopes).
Proof.
  induction scopes as [|d scopes IH]; simpl.
  - apply (keeps_ret only_heap).
  - apply (keeps_bind only_heap); [apply find_value_id_only_heap|].
    intros v. destruct (truthy_id v); [apply (keeps_ret only_heap) | apply IH].
Qed.

(** A value id found in the scopes is truthy. *)
Lemma find_in_scopes_truthy result scopes c v c' :
  find_in_scopes result scopes c = Ok v c' -> v = None \/ truthy_id v = true.
Proof.
  revert c. induction scopes as [|d scopes IH]; intros c H; simpl in H.
  - left. by inversion H.
  - apply bind_Ok in H as (w & c1 & _ & H).
    destruct (truthy_id w) eqn:E; [|by eapply IH].
    inversion H; subst. by right.
Qed.

Lemma deps_of_functional c refs ds ds' :
  deps_of c refs ds -> deps_of c refs ds' -> ds = ds'.
Proof.
  intros H. revert ds'. induction H as [|r d refs ds Hr _ IH]; intros ds' H'.
  - by apply Forall2_nil_inv_l in H'.
  - apply Forall2_cons_inv_l in H' as (d' & ds'' & Hr' & H' & ->).
    f_equal; [congruence | by apply IH].
Qed.

Lemma deps_of_prefix c c' refs ds :
  dep_heap c `prefix_of` dep_heap c' -> deps_of c refs ds -> deps_of c' refs ds.
Proof.
  intros Hp H. eapply Forall2_impl; [exact H|].
  intros r d Hr. simpl in *. exact (prefix_lookup_Some _ _ _ _ Hr Hp).
Qed.

(** What the [finally] block of [_call] does when it completes. *)
Lemma call_finally_Ok act evaluation result c u c' :
  call_finally act evaluation result c = Ok u c' ->
  exists activation depa ds ev value_id,
    activations c !! act = Some activation /\
    head (a_dependencies activation) = Some depa /\
    deps_of c' (depa_dependencies depa) ds /\
    dependencies c' = add_edges (dependencies c) (call_edges evaluation activation ds) /\
    activations c' = activations c /\
    evaluations c !! a_evaluation activation = Some ev /\
    evaluations c'
      = <[e_id ev := closed_evaluation ev (clock c) value_id]> (evaluations c) /\
    truthy_id value_id = true /\
    last_activation c' = restored_activation (e_activation_id ev) c /\
    exceptions c' = exceptions c /\
    length (dep_heap c') = length (dep_heap c).
Proof.
  unfold call_finally. intros H.
  apply bind_Ok in H as (a & c0 & Ha & H).
  apply get_activation_Ok in Ha as [-> Ha].
  apply bind_Ok in H as (found & c1 & Hfind & H).
  pose proof (find_in_scopes_truthy _ _ _ _ _ Hfind) as Hfound.
  apply find_in_scopes_only_heap in Hfind as (h & -> & Hh).
  apply bind_Ok in H as (value_id & c2 & Hv & H).
  set (c1 := set_dep_heap (fun _ => h) c) in *.
  assert (Hc2 : truthy_id value_id = true /\
                activations c2 = activations c /\
                evaluations c2 = evaluations c /\
                dependencies c2 = dependencies c /\
                exceptions c2 = exceptions c /\
                clock c2 = clock c /\ first_activation c2 = first_activation c /\
                dep_heap c2 = h).
  { destruct (truthy_id found) eqn:Ht.
    - inversion Hv; subst. done.
    - apply bind_Ok in Hv as (i & c3 & Hi & Hret). inversion Hret; subst.
      apply lift_add_value_Ok in Hi as [-> ->].
      pose proof (add_value_untouched result c1) as Hf. cbv zeta in Hf.
      destruct Hf as (He & _ & Hact & Hd & _ & Hx & _ & Hheap & _ & Hcl & _).
      split.
      { simpl. pose proof (add_value_id_positive result c1).
        apply negb_true_iff, Z.eqb_neq. lia. }
      repeat split; try done.
      change (first_activation c) with (first_activation c1).
      apply (keeps_add_value (unchanged first_activation)); solve_frame. }
  destruct Hc2 as (Htruthy & Hact2 & Hev2 & Hdep2 & Hexc2 & Hclock2 & Hfirst2 & Hheap2).
  apply bind_Ok in H as (u1 & c3 & Hclose & H).
  apply close_activation_Ok in Hclose as (a' & ev & Ha' & Hev & ->).
  rewrite Hact2, Ha in Ha'. inversion Ha'; subst a'.
  rewrite Hev2 in Hev.
  apply bind_Ok in H as (a' & c3 & Ha3 & H).
  apply get_activation_Ok in Ha3 as [-> Ha3]. simpl in Ha3.
  rewrite Hact2, Ha in Ha3. inversion Ha3; subst a'.
  apply bind_Ok in H as (depa & c3 & Hhead & H).
  destruct (head (a_dependencies a)) as [depa'|] eqn:Hd; [|done].
  inversion Hhead; subst depa' c3.
  apply bind_Ok in H as (u2 & c4 & Hcreate & H).
  rewrite create_dependencies_loop in Hcreate.
  apply edges_loop_inv in Hcreate as (ds & Hds & ->).
  rewrite filter_true in H.
  assert (Hfinal : c' = set_dependencies
            (fun l => add_edges l
               (if bool_decide (a_code_block_id a = Some (-1))
                then edge_of evaluation (fun _ => "dependency")
                       <$> List.filter is_argument ds
                else [])) 
            (set_dependencies
               (fun l => add_edges l (edge_of evaluation dep_mode <$> ds))
               (set_last_activation
                  (restored_activation (e_activation_id ev) c2)
                  (set_evaluations
                     (fun m => <[e_id ev := closed_evaluation ev (clock c2) value_id]> m)
                     (fun i => i) (set_clock S c2))))).
  { destruct (bool_decide (a_code_block_id a = Some (-1))).
    - rewrite create_argument_dependencies_loop in H.
      apply edges_loop_inv in H as (ds' & Hds' & ->).
      by rewrite (deps_of_functional _ _ _ _ Hds' Hds).
    - inversion H; subst. simpl. by rewrite set_dependencies_id. }
  exists a, depa, ds, ev, value_id. subst c'. simpl.
  split; [done|]. split; [done|]. split; [exact Hds|].
  split.
  { rewrite Hdep2. unfold call_edges.
    generalize (edge_of evaluation dep_mode <$> ds) as es1.
    generalize (if bool_decide (a_code_block_id a = Some (-1))
                then edge_of evaluation (fun _ => "dependency")
                       <$> List.filter is_argument ds else []) as es2.
    generalize (dependencies c) as l.
    intros l es2 es1. revert l. induction es1 as [|e es1 IH]; intros l; simpl; [done|].
    apply IH. }
  split; [done|]. split; [done|].
  split; [by rewrite Hev2, Hclock2|].
  split; [done|].
  split; [unfold restored_activation; by rewrite Hact2, Hfirst2|].
  split; [done|]. by rewrite Hheap2.
Qed.

(** ** Calls *)

Lemma try_except_finally_Ok {A} (body : M A) handler final c a c' :
  try_except_finally body handler final c = Ok a c' ->
  exists c1, body c = Ok a c1 /\ final (Some a) c1 = Ok tt c'.
Proof.
  unfold try_except_finally. intros H.
  destruct (body c) as [a1 c1|e c1].
  - destruct (final (Some a1) c1) as [[] c2|] eqn:Hf; [|done].
    inversion H; subst. eauto.
  - destruct (handler e c1) as [? c2|? c2];
      destruct (final None c2); discriminate.
Qed.

Lemma try_except_finally_Raise {A} (body : M A) handler final c e c1 c2 c3 :
  body c = Raise e c1 -> handler e c1 = Ok tt c2 -> final None c2 = Ok tt c3 ->
  try_except_finally body handler final c = Raise e c3.
Proof. unfold try_except_finally. by intros -> -> ->. Qed.

Ltac frame_leaf :=
  idtac;
  lazymatch goal with
  | |- keeps ?R (find_bound _ _) => apply (keeps_find_bound R); solve_frame
  | |- keeps _ _ =>
      progress unfold update_top_scope, pop_scope, push_scope, close_activation
  end.

Ltac frame := keeps_with frame_leaf.

Lemma add_new_to_top_frame act mk :
  keeps (unchanged dependencies) mk -> keeps heap_extends mk ->
  keeps (unchanged dependencies) (add_new_to_top act mk) /\
  keeps heap_extends (add_new_to_top act mk).
Proof.
  intros H1 H2. split; unfold add_new_to_top.
  - keeps_with ltac:(first [exact H1 | frame_leaf]).
  - keeps_with ltac:(first [exact H2 | frame_leaf]).
Qed.

(** A [_call] that returns has run the callee to its result, and its
    cleanup has committed, after the edges the callee committed, one
    edge per Dependency of the first scope of the activation with the
    mode of the Dependency, followed, only when the activation has no
    known definition ([code_block_id = -1]), by one [dependency] edge
    per Dependency of that scope whose mode starts with [argument]. *)
Theorem call_commits_edges (invoke : pyobj -> call_args -> M pyobj)
    (args : call_args) (c : Collector) (result : pyobj) (c' : Collector) :
  _call invoke args c = Ok result c' ->
  exists activation0 evaluation func c1 activation depa ds,
    activations c !! last_activation c = Some activation0 /\
    a_func activation0 = Some func /\
    evaluations c !! a_evaluation activation0 = Some evaluation /\
    invoke func args c = Ok result c1 /\
    activations c1 !! last_activation c = Some activation /\
    head (a_dependencies activation) = Some depa /\
    deps_of c' (depa_dependencies depa) ds /\
    dependencies c'
      = add_edges (dependencies c1) (call_edges evaluation activation ds).
Proof.
  unfold _call. intros H.
  apply bind_Ok in H as (act & c0 & Hact & H). inversion Hact; subst act c0.
  apply bind_Ok in H as (a0 & c0 & Ha0 & H).
  apply get_activation_Ok in Ha0 as [-> Ha0].
  apply bind_Ok in H as (evaluation & c0 & Hev & H).
  apply get_evaluation_Ok in Hev as [-> Hev].
  apply bind_Ok in H as (r & c2 & Htry & H).
  apply try_except_finally_Ok in Htry as (c1 & Hbody & Hfin).
  destruct (a_func a0) as [func|] eqn:Hfunc; [|done].
  simpl in Hfin.
  apply call_finally_Ok in Hfin
    as (a & depa & ds & ev & v & Ha & Hhead & Hds & Hdeps & _).
  apply bind_Ok in H as (last & c3 & Hlast & H). inversion Hlast; subst last c3.
  apply bind_Ok in H as (u & c3 & Hadd & H). inversion H; subst r c3.
  set (mk := let! value_id := lift (add_value result) in
             let! activation := get_activation (last_activation c) in
             ret (new_Dependency (e_activation_id evaluation)
                    (e_id evaluation) result (Some value_id)
                    (a_depedency_type activation))) in Hadd.
  destruct (add_new_to_top_frame (last_activation c2) mk) as [Hf1 Hf2].
  { subst mk. frame. }
  { subst mk. frame. }
  exists a0, evaluation, func, c1, a, depa, ds.
  repeat split; try done.
  - eapply deps_of_prefix; [|exact Hds]. by eapply Hf2.
  - rewrite <- Hdeps. by eapply Hf1.
Qed.

Lemma call_commits_edges_witness :
  holds_at (_call Examples.host ([Examples.xs], [])) Examples.in_call
    Examples.three
    (fun c' => dependencies c'
               = [mkDependencyRecord 1 1 2 1 3 "func";
                  mkDependencyRecord 2 1 2 1 4 "argument";
                  mkDependencyRecord 3 1 2 1 4 "dependency"]).
Proof.
  assert (H : _call Examples.host ([Examples.xs], []) Examples.in_call
              = Ok Examples.three
                  (result_state
                     (_call Examples.host ([Examples.xs], []) Examples.in_call)))
    by run_hook.
  split; [exact H|].
  destruct (call_commits_edges _ _ _ _ _ H)
    as (a0 & ev & f & c1 & a & depa & ds & Ha0 & Hf & Hev & Hinv & Ha
        & Hhead & Hds & ->).
  vm_compute in Ha0. inversion Ha0; subst a0.
  vm_compute in Hf. inversion Hf; subst f.
  vm_compute in Hev. inversion Hev; subst ev.
  vm_compute in Hinv. inversion Hinv; subst c1.
  vm_compute in Ha. inversion Ha; subst a.
  vm_compute in Hhead. inversion Hhead; subst depa.
  assert (Hds' : deps_of
            (result_state
               (_call Examples.host ([Examples.xs], []) Examples.in_call))
            [0%nat; 1%nat] [Examples.dep_len; Examples.dep_argument]).
  { repeat constructor. }
  rewrite (deps_of_functional _ _ _ _ Hds Hds').
  reflexivity.
Defined.

(** When the callee raises, [_call] raises as well: it never returns a
    value.  Moreover, when the cleanup completes, [_call] raises the
    very exception of the callee, after having recorded it against the
    activation, closed the activation (its evaluation has a moment and
    a truthy value id, and the activation that owns that evaluation is
    current again) and committed the edges from the first scope of the
    activation; the scope stacks are those the callee left: no
    Dependency for a result is added to the enclosing scope. *)
Theorem call_reraises (invoke : pyobj -> call_args -> M pyobj)
    (args : call_args) (c : Collector) (activation0 : Activation)
    (evaluation : Evaluation) (func : pyobj) (e : pyexc) (c1 : Collector) :
  activations c !! last_activation c = Some activation0 ->
  a_func activation0 = Some func ->
  evaluations c !! a_evaluation activation0 = Some evaluation ->
  invoke func args c = Raise e c1 ->
  (exists e' c', _call invoke args c = Raise e' c') /\
  forall (activation : Activation) (c2 : Collector),
    activations c1 !! last_activation c = Some activation ->
    call_finally (last_activation c) evaluation py_None
      (exception_recorded e activation c1) = Ok tt c2 ->
    _call invoke args c = Raise e c2 /\
    exceptions c2
      = exceptions c1 ++
        [mkExceptionRecord (Z.of_nat (length (exceptions c1)) + 1) e
           (a_id activation)] /\
    activations c2 = activations c1 /\
    exists depa ds ev value_id,
      head (a_dependencies activation) = Some depa /\
      deps_of c2 (depa_dependencies depa) ds /\
      dependencies c2
        = add_edges (dependencies c1) (call_edges evaluation activation ds) /\
      evaluations c1 !! a_evaluation activation = Some ev /\
      evaluations c2 !! e_id ev
        = Some (closed_evaluation ev (clock c1) value_id) /\
      truthy_id value_id = true /\
      last_activation c2 = restored_activation (e_activation_id ev) c1.
Proof.
  intros Ha0 Hf Hev Hbody.
  assert (Hcall : forall r,
            try_except_finally (invoke func args)
              (fun exc => collect_exception exc (last_activation c))
              (fun result => call_finally (last_activation c) evaluation
                               (default py_None result)) c = r ->
            _call invoke args c =
              match r with
              | Ok result c2 =>
                  (let! last := gets last_activation in
                   add_new_to_top last
                     (let! value_id := lift (add_value result) in
                      let! activation := get_activation (last_activation c) in
                      ret (new_Dependency (e_activation_id evaluation)
                             (e_id evaluation) result (Some value_id)
                             (a_depedency_type activation))) ;;;
                   ret result) c2
              | Raise e' c2 => Raise e' c2
              end).
  { intros r <-. unfold _call.
    rewrite (bind_run (gets last_activation) _ c (last_activation c) c eq_refl).
    rewrite (bind_run (get_activation (last_activation c)) _ c activation0 c)
      by (unfold get_activation; by rewrite Ha0).
    rewrite (bind_run (get_evaluation (a_evaluation activation0)) _ c evaluation c)
      by (unfold get_evaluation; by rewrite Hev).
    rewrite Hf. unfold bind at 1.
    by destruct (try_except_finally _ _ _ c). }
  split.
  - erewrite Hcall; [|reflexivity].
    unfold try_except_finally. rewrite Hbody.
    destruct (collect_exception e (last_activation c) c1) as [? cx|? cx];
      destruct (call_finally _ _ _ cx); eauto.
  - intros activation c2 Ha Hfin.
    assert (Hh : collect_exception e (last_activation c) c1
                 = Ok tt (exception_recorded e activation c1)).
    { unfold collect_exception, bind, get_activation. by rewrite Ha. }
    split.
    { erewrite Hcall; [|reflexivity].
      by rewrite (try_except_finally_Raise _ _ _ _ _ _ _ _ Hbody Hh Hfin). }
    apply call_finally_Ok in Hfin
      as (a & depa & ds & ev & v & Ha' & Hhead & Hds & Hdeps & Hacts & Hev'
          & Hevs & Htruthy & Hlast & Hexc & _).
    simpl in Ha'. rewrite Ha in Ha'. inversion Ha'; subst a.
    split; [by rewrite Hexc|]. split; [done|].
    exists depa, ds, ev, v. repeat split; try done.
    rewrite Hevs. by rewrite lookup_insert_eq.
Qed.

Lemma call_reraises_witness :
  exists activation0 evaluation c1 activation c2,
    activations Examples.in_failing_call
      !! last_activation Examples.in_failing_call = Some activation0 /\
    a_func activation0 = Some Examples.failing_function /\
    evaluations Examples.in_failing_call !! a_evaluation activation0
      = Some evaluation /\
    Examples.host Examples.failing_function ([Examples.xs], [])
      Examples.in_failing_call
      = Raise (UserException (OInst 40 (Class 4 "ValueError" TypeRoot)
                                "ValueError()" false false None)) c1 /\
    activations c1 !! last_activation Examples.in_failing_call = Some activation /\
    call_finally (last_activation Examples.in_failing_call) evaluation py_None
      (exception_recorded
         (UserException (OInst 40 (Class 4 "ValueError" TypeRoot)
                           "ValueError()" false false None)) activation c1)
      = Ok tt c2 /\
    _call Examples.host ([Examples.xs], []) Examples.in_failing_call
      = Raise (UserException (OInst 40 (Class 4 "ValueError" TypeRoot)
                                "ValueError()" false false None)) c2 /\
    length (exceptions c2) = 1%nat /\ length (dependencies c2) = 3%nat.
Proof.
  eexists _, _, _, _, _.
  split; [vm_compute; reflexivity|].
  split; [reflexivity|].
  split; [vm_compute; reflexivity|].
  split; [vm_compute; reflexivity|].
  split; [vm_compute; reflexivity|].
  match goal with
  | |- call_finally ?a ?ev ?r ?c = Ok tt _ /\ _ =>
      assert (Hfin : call_finally a ev r c
                     = Ok tt (result_state (call_finally a ev r c)))
        by run_hook
  end.
  split; [exact Hfin|].
  split.
  - refine (proj1 (proj2 (call_reraises Examples.host ([Examples.xs], [])
                            Examples.in_failing_call _ _ _ _ _ _ _ _ _) _ _ _ Hfin));
      try (vm_compute; reflexivity); reflexivity.
  - split; vm_compute; reflexivity.
Defined.

(** ** The assignment engine *)

Lemma never_returns_bind_l {A B} (m : M A) (k : A -> M B) :
  never_returns m -> never_returns (bind m k).
Proof. intros Hm c. destruct (Hm c) as (e & c' & H). unfold bind. rewrite H. eauto. Qed.

Lemma never_returns_bind_r {A B} (m : M A) (k : A -> M B) :
  (forall a, never_returns (k a)) -> never_returns (bind m k).
Proof.
  intros Hk c. unfold bind. destruct (m c) as [a c1|e c1]; [apply Hk | eauto].
Qed.

Section AssignProperties.
Variable get_compartment : Collector -> option Z -> string -> option Z.
Variable last_evaluation_by_value_id : Collector -> option Z -> option (Z * Z).

Local Abbreviation assign' := (assign get_compartment last_evaluation_by_value_id).

(** Only a single target gives a width. *)
Lemma assign_width_None act moment assign_value depa t :
  match t with Single _ _ _ => False | _ => True end ->
  returns None (assign' act moment assign_value depa t).
Proof.
  destruct t as [code name value|subs value|star value|value]; intros Ht;
    [done| | |].
  - simpl. returns_auto.
  - simpl. apply returns_ret.
  - simpl. apply returns_ret.
Qed.

(** The loop from the left never gets past a sub-target that is itself
    a multiple target (or a target of another kind): the width it gets
    for it is [None]. *)
Lemma assign_Multiple_never act moment assign_value depa pre inner rest value :
  forallb (fun t => negb (is_starred t)) pre = true ->
  is_nested inner = true ->
  never_returns
    (assign' act moment assign_value depa (Multiple (pre ++ inner :: rest) value)).
Proof.
  intros Hpre Hinner. simpl.
  apply never_returns_bind_r; intros source.
  apply never_returns_bind_r; intros clone_depa.
  apply never_returns_bind_l.
  match goal with
  | |- never_returns (?f (pre ++ inner :: rest) _ _) =>
      enough (forall index delta,
                never_returns (f (pre ++ inner :: rest) index delta)) by done
  end.
  induction pre as [|t pre IH]; intros index delta.
  - assert (Hw : forall adepa c w c1,
              assign' act moment (py_items (target_value inner))
                (one_depa adepa) inner c = Ok w c1 -> w = None).
    { intros adepa c w c1 E.
      eapply assign_width_None; [|exact E]. by destruct inner. }
    destruct inner as [| subs v | |v]; try discriminate Hinner;
      simpl app; cbv beta iota fix; fold (assign get_compartment last_evaluation_by_value_id);
      (apply never_returns_bind_r; intros adepa; intros c; unfold bind at 1;
       match goal with
       | |- context [assign' ?a ?m ?v ?d ?t c] =>
           destruct (assign' a m v d t c) as [w c1|e c1] eqn:E; [|eauto];
           rewrite (Hw adepa c w c1 E); simpl; unfold raise; eauto
       end).
  - simpl in Hpre. apply andb_true_iff in Hpre as [Ht Hpre].
    specialize (IH Hpre).
    destruct t as [code name v|subs v|star v|v]; try discriminate Ht;
      simpl app; cbv beta iota fix; fold (assign get_compartment last_evaluation_by_value_id);
      (apply never_returns_bind_r; intros adepa;
       apply never_returns_bind_r; intros width;
       apply never_returns_bind_r; intros delta';
       apply IH).
Qed.

(** Nor does the loop from the right get past such a sub-target. *)
Lemma assign_Multiple_never_right act moment assign_value depa pre star v
    post inner rest value :
  forallb (fun t => negb (is_starred t)) pre = true ->
  is_nested inner = true ->
  never_returns
    (assign' act moment assign_value depa
       (Multiple (pre ++ Starred star v :: post ++ inner :: rest) value)).
Proof.
  intros Hpre Hinner. simpl.
  apply never_returns_bind_r; intros source.
  apply never_returns_bind_r; intros clone_depa.
  apply never_returns_bind_l.
  match goal with
  | |- never_returns (?f (pre ++ _) _ _) =>
      enough (forall index delta,
                never_returns
                  (f (pre ++ Starred star v :: post ++ inner :: rest) index delta))
        by done
  end.
  induction pre as [|t pre IH]; intros index delta.
  - simpl app; cbv beta iota fix;
      fold (assign get_compartment last_evaluation_by_value_id).
    apply never_returns_bind_l.
    induction post as [|t post IHp].
    + assert (Hw : forall adepa c w c1,
                assign' act moment (py_items (target_value inner))
                  (one_depa adepa) inner c = Ok w c1 -> w = None).
      { intros adepa c w c1 E.
        eapply assign_width_None; [|exact E]. by destruct inner. }
      simpl app; cbv beta iota fix;
        fold (assign get_compartment last_evaluation_by_value_id).
      apply never_returns_bind_r; intros rdelta.
      apply never_returns_bind_r; intros n.
      apply never_returns_bind_r; intros adepa.
      intros c. unfold bind at 1.
      match goal with
      | |- context [assign' ?a ?m ?x ?d ?t c] =>
          destruct (assign' a m x d t c) as [w c1|e c1] eqn:E; [|eauto];
          rewrite (Hw adepa c w c1 E); simpl; unfold raise; eauto
      end.
    + simpl app; cbv beta iota fix;
        fold (assign get_compartment last_evaluation_by_value_id).
      apply never_returns_bind_l. exact IHp.
  - simpl in Hpre. apply andb_true_iff in Hpre as [Ht Hpre].
    specialize (IH Hpre).
    destruct t as [code name v'|subs v'|star' v'|v']; try discriminate Ht;
      simpl app; cbv beta iota fix; fold (assign get_compartment last_evaluation_by_value_id);
      (apply never_returns_bind_r; intros adepa;
       apply never_returns_bind_r; intros width;
       apply never_returns_bind_r; intros delta';
       apply IH).
Qed.

End AssignProperties.

(** Nested unpacking does not complete: [assign] raises on every
    multiple target that has, before its starred sub-target or after
    it, a sub-target that is itself a multiple target (or a target of
    a kind other than single and starred).  The recursive call returns
    no width for such a sub-target, and adding it to the consumed width
    fails. *)
Theorem assign_nested_target_raises
    (get_compartment : Collector -> option Z -> string -> option Z)
    (last_evaluation_by_value_id : Collector -> option Z -> option (Z * Z))
    (act : Z) (moment : moment) (assign_value : seqview) (depa : assign_depa)
    (subcomps pre : list target) (inner : target) (value : pyobj) (c : Collector) :
  forallb (fun t => negb (is_starred t)) pre = true ->
  is_nested inner = true ->
  (exists rest, subcomps = pre ++ inner :: rest) \/
  (exists star v post rest,
     subcomps = pre ++ Starred star v :: post ++ inner :: rest) ->
  exists e c',
    assign get_compartment last_evaluation_by_value_id act moment assign_value
      depa (Multiple subcomps value) c = Raise e c'.
Proof.
  intros Hpre Hinner [[rest ->] | (star & v & post & rest & ->)].
  - by apply assign_Multiple_never.
  - by apply assign_Multiple_never_right.
Qed.

Lemma assign_nested_target_raises_witness :
  forallb (fun t => negb (is_starred t)) [] = true /\
  is_nested Examples.pair_ab = true /\
  (exists e c',
     assign Examples.no_compartment Examples.no_evaluation 1 0%nat
       (Some [Examples.py_list 21 "[1, 2]" [Examples.one; Examples.two];
              Examples.three])
       (one_depa new_DependencyAware) Examples.nested_target
       Examples.script_started = Raise e c') /\
  match assign Examples.no_compartment Examples.no_evaluation 1 0%nat
          (Some [Examples.py_list 21 "[1, 2]" [Examples.one; Examples.two];
                 Examples.three])
          (one_depa new_DependencyAware) Examples.nested_target
          Examples.script_started with
  | Raise TypeError _ => True
  | _ => False
  end.
Proof.
  split; [reflexivity|]. split; [reflexivity|]. split.
  - apply (assign_nested_target_raises Examples.no_compartment
             Examples.no_evaluation 1 0%nat _ _ _ [] Examples.pair_ab);
      [reflexivity | reflexivity | left; eexists; reflexivity].
  - vm_compute. exact I.
Defined.

(** ** Evaluations *)

Lemma find_value_id_keeps_evaluations_id value depa create :
  keeps (unchanged evaluations_id) (find_value_id value depa create).
Proof. frame. Qed.

Lemma evaluate_Ok act code value moment depa c ev c' :
  evaluate act code value moment depa c = Ok ev c' ->
  exists a ds,
    activations c !! act = Some a /\
    ev = mkEvaluation (evaluations_id c + 1) code (a_id a)
           (Some (default (clock c) moment)) (e_value_id ev) /\
    truthy_id (e_value_id ev) = true /\
    evaluations c' = <[e_id ev := ev]> (evaluations c) /\
    evaluations_id c' = e_id ev /\
    activations c' = activations c /\
    deps_of c' (match depa with Some d => depa_dependencies d | None => [] end) ds /\
    dependencies c' = add_edges (dependencies c) (edge_of ev dep_mode <$> ds).
Proof.
  unfold evaluate. intros H.
  apply bind_Ok in H as (m & c0 & Hm & H).
  assert (Hc0 : m = default (clock c) moment /\ activations c0 = activations c /\
                evaluations c0 = evaluations c /\
                evaluations_id c0 = evaluations_id c /\
                dependencies c0 = dependencies c).
  { destruct moment; inversion Hm; subst; done. }
  destruct Hc0 as (-> & Ha0 & He0 & Hi0 & Hd0).
  apply bind_Ok in H as (v & c1 & Hfind & H).
  pose proof (find_value_id_keeps_evaluations_id _ _ _ _ _ _ Hfind) as Hi1.
  apply find_value_id_inv in Hfind as (_ & Ha1 & He1 & Hd1 & Htruthy).
  apply bind_Ok in H as (a & c2 & Ha & H).
  apply get_activation_Ok in Ha as [-> Ha].
  apply bind_Ok in H as (ev' & c2 & Hadd & H).
  inversion Hadd; subst ev' c2. clear Hadd.
  apply bind_Ok in H as (u & c3 & Hcreate & H). inversion H; subst ev c3.
  assert (Hedges : exists ds,
            deps_of c' (match depa with
                        | Some d => depa_dependencies d
                        | None => []
                        end) ds /\
            dependencies c' = add_edges (dependencies c1)
              (edge_of (mkEvaluation (evaluations_id c1 + 1) code (a_id a)
                          (Some (default (clock c) moment)) v) dep_mode <$> ds) /\
            evaluations c' = <[evaluations_id c1 + 1 :=
                                 mkEvaluation (evaluations_id c1 + 1) code (a_id a)
                                   (Some (default (clock c) moment)) v]>
                               (evaluations c1) /\
            evaluations_id c' = evaluations_id c1 + 1 /\
            activations c' = activations c1).
  { destruct depa as [d|].
    - rewrite create_dependencies_loop in Hcreate.
      apply edges_loop_inv in Hcreate as (ds & Hds & ->).
      rewrite filter_true. exists ds. done.
    - inversion Hcreate; subst. exists []. split; [constructor | done]. }
  destruct Hedges as (ds & Hds & Hdeps & Hevs & Hid & Hacts).
  unfold unchanged in Hi1.
  exists a, ds. simpl.
  split; [by rewrite <- Ha0, <- Ha1|].
  split; [by rewrite Hi1, Hi0|].
  split; [by apply Htruthy|].
  split; [by rewrite Hevs, He1, He0|].
  split; [done|].
  split; [by rewrite Hacts, Ha1, Ha0|].
  split; [done|].
  by rewrite Hdeps, Hd1, Hd0.
Qed.

(** [evaluate] creates exactly one Evaluation, under the next id, for
    the given code component and the activation, with the given moment
    (the time of the call when none is given) and a truthy value id;
    every other evaluation and every scope stack is as before; and it
    commits, after the edges already stored, one edge per Dependency of
    the scope, from the new evaluation. *)
Theorem evaluate_records (act code : Z) (value : pyobj) (moment : option moment)
    (depa : option DependencyAware) (c : Collector) (ev : Evaluation)
    (c' : Collector) :
  evaluate act code value moment depa c = Ok ev c' ->
  exists a ds,
    activations c !! act = Some a /\
    ev = mkEvaluation (evaluations_id c + 1) code (a_id a)
           (Some (default (clock c) moment)) (e_value_id ev) /\
    truthy_id (e_value_id ev) = true /\
    evaluations c' = <[e_id ev := ev]> (evaluations c) /\
    evaluations_id c' = e_id ev /\
    activations c' = activations c /\
    deps_of c' (match depa with Some d => depa_dependencies d | None => [] end) ds /\
    dependencies c' = add_edges (dependencies c) (edge_of ev dep_mode <$> ds).
Proof. exact (evaluate_Ok act code value moment depa c ev c'). Qed.

Lemma evaluate_records_witness :
  holds_at (evaluate 1 9 Examples.xs None (Some Examples.scope_two_deps))
    Examples.script_two_deps (mkEvaluation 2 9 1 (Some 1%nat) (Some 4))
    (fun c' => evaluations_id c' = 2 /\ length (dependencies c') = 2%nat).
Proof.
  assert (H : evaluate 1 9 Examples.xs None (Some Examples.scope_two_deps)
                Examples.script_two_deps
              = Ok (mkEvaluation 2 9 1 (Some 1%nat) (Some 4))
                  (result_state
                     (evaluate 1 9 Examples.xs None (Some Examples.scope_two_deps)
                        Examples.script_two_deps))) by run_hook.
  split; [exact H|].
  destruct (evaluate_records _ _ _ _ _ _ _ _ H)
    as (a & ds & _ & _ & _ & _ & Hid & _ & Hds & Hdeps).
  split; [exact Hid|].
  rewrite Hdeps, add_edges_length, length_fmap.
  apply Forall2_length in Hds. rewrite <- Hds. reflexivity.
Defined.

(** ** Name lookup *)

Lemma lookup_context_here fuel act name a e c :
  activations c !! act = Some a -> a_context a !! name = Some e ->
  lookup_context (S fuel) (Some act) name c = Ok (Some e) c.
Proof.
  intros Ha He. simpl. unfold bind, get_activation. by rewrite Ha, He.
Qed.

Lemma lookup_context_closure fuel act name a c :
  activations c !! act = Some a -> a_context a !! name = None ->
  lookup_context (S fuel) (Some act) name c
    = lookup_context fuel (a_closure a) name c.
Proof.
  intros Ha He. simpl. unfold bind, get_activation. by rewrite Ha, He.
Qed.

Lemma lookup_local act name a e c :
  activations c !! act = Some a -> a_context a !! name = Some e ->
  lookup_ act name c = Ok (Some e) c.
Proof.
  intros Ha He. unfold lookup_.
  rewrite (bind_run (gets (fun c => S (size (activations c)))) _ c
             (S (size (activations c))) c eq_refl).
  by rewrite (bind_run _ _ _ _ _ (lookup_context_here _ _ _ _ _ _ Ha He)).
Qed.

(** [lookup] finds a name in the context of the activation first, then
    in the context of its closure, and changes nothing in either case:
    a local binding hides the bindings of the enclosing activations and
    the globals. *)
Theorem lookup_local_first (act : Z) (name : string) (a : Activation)
    (c : Collector) :
  activations c !! act = Some a ->
  (forall e, a_context a !! name = Some e ->
             lookup_ act name c = Ok (Some e) c) /\
  (forall p pa e,
     a_context a !! name = None -> a_closure a = Some p ->
     activations c !! p = Some pa -> a_context pa !! name = Some e ->
     lookup_ act name c = Ok (Some e) c).
Proof.
  intros Ha. split.
  - intros e He. by eapply lookup_local.
  - intros p pa e Hn Hp Hpa He. unfold lookup_.
    rewrite (bind_run (gets (fun c => S (size (activations c)))) _ c
               (S (size (activations c))) c eq_refl).
    assert (Hsize : exists n, size (activations c) = S n).
    { destruct (size (activations c)) eqn:E; [|eauto].
      apply map_size_empty_iff in E. rewrite E in Ha. by rewrite lookup_empty in Ha. }
    destruct Hsize as [n ->].
    assert (Hfound : lookup_context (S (S n)) (Some act) name c = Ok (Some e) c).
    { rewrite (lookup_context_closure _ _ _ _ _ Ha Hn), Hp.
      by eapply lookup_context_here. }
    by rewrite (bind_run _ _ _ _ _ Hfound).
Qed.

Lemma lookup_local_first_witness :
  exists a,
    activations (result_state
      (update_activation 1 (set_a_context (fun m => <["x" := 7]> m))
         Examples.script_started)) !! 1 = Some a /\
    a_context a !! "x" = Some 7 /\
    lookup_ 1 "x"
      (result_state
         (update_activation 1 (set_a_context (fun m => <["x" := 7]> m))
            Examples.script_started))
    = Ok (Some 7)
        (result_state
           (update_activation 1 (set_a_context (fun m => <["x" := 7]> m))
              Examples.script_started)).
Proof.
  eexists. split; [vm_compute; reflexivity|]. split; [reflexivity|].
  refine (proj1 (lookup_local_first 1 "x" _ _ _) 7 _);
    [vm_compute; reflexivity | reflexivity].
Defined.

(** ** Single targets *)

(** The assignment to a single target creates one Evaluation at the
    code component of the target, with the moment of the assignment,
    and returns width 1.  When the target has a name the name is bound
    to that evaluation in the context of the activation, so that a
    lookup of the name right after finds it; without a name the
    activations are as before. *)
Theorem assign_single_binds
    (get_compartment : Collector -> option Z -> string -> option Z)
    (last_evaluation_by_value_id : Collector -> option Z -> option (Z * Z))
    (act : Z) (moment : moment) (assign_value : seqview) (depa : DependencyAware)
    (code : Z) (name : string) (value : pyobj) (c : Collector)
    (w : option Z) (c' : Collector) :
  assign get_compartment last_evaluation_by_value_id act moment assign_value
    (one_depa depa) (Single code name value) c = Ok w c' ->
  w = Some 1 /\
  exists a ev,
    activations c !! act = Some a /\
    ev = mkEvaluation (evaluations_id c + 1) code (a_id a) (Some moment)
           (e_value_id ev) /\
    truthy_id (e_value_id ev) = true /\
    evaluations c' !! e_id ev = Some ev /\
    (name = "" -> activations c' = activations c) /\
    (name <> "" ->
     activations c'
       = <[act := set_a_context (fun m => <[name := e_id ev]> m) a]>
           (activations c) /\
     lookup_ act name c' = Ok (Some (e_id ev)) c').
Proof.
  simpl. intros H.
  apply bind_Ok in H as (ev & c1 & Hev & H).
  apply evaluate_Ok in Hev as (a & ds & Ha & Hev & Htruthy & Hevs & _ & Hacts & _).
  apply bind_Ok in H as (u & c2 & Hbind & H). inversion H; subst w c2.
  split; [done|]. exists a, ev. split; [done|]. split; [done|]. split; [done|].
  destruct (bool_decide (name = "")) eqn:Hname.
  - apply bool_decide_eq_true in Hname. inversion Hbind; subst c'.
    split; [by rewrite Hevs, lookup_insert_eq|].
    split; [by intros _ | done].
  - apply bool_decide_eq_false in Hname.
    apply update_activation_Ok in Hbind as (a' & Ha' & ->).
    rewrite Hacts, Ha in Ha'. inversion Ha'; subst a'.
    split; [simpl; by rewrite Hevs, lookup_insert_eq|].
    split; [done|]. intros _. simpl. rewrite Hacts. split; [done|].
    eapply lookup_local.
    + simpl. by rewrite lookup_insert_eq.
    + simpl. by rewrite lookup_insert_eq.
Qed.

Lemma assign_single_binds_witness :
  holds_at
    (assign Examples.no_compartment Examples.no_evaluation 1 5%nat None
       (one_depa Examples.scope_two_deps) (Single 9 "x" Examples.xs))
    Examples.script_two_deps (Some 1)
    (fun c' => lookup_ 1 "x" c' = Ok (Some 2) c').
Proof.
  assert (H : assign Examples.no_compartment Examples.no_evaluation 1 5%nat None
                (one_depa Examples.scope_two_deps) (Single 9 "x" Examples.xs)
                Examples.script_two_deps
              = Ok (Some 1)
                  (result_state
                     (assign Examples.no_compartment Examples.no_evaluation 1
                        5%nat None (one_depa Examples.scope_two_deps)
                        (Single 9 "x" Examples.xs) Examples.script_two_deps)))
    by run_hook.
  split; [exact H|].
  destruct (assign_single_binds _ _ _ _ _ _ _ _ _ _ _ _ H)
    as (_ & a & ev & _ & Hev & _ & _ & _ & Hname).
  destruct (Hname ltac:(discriminate)) as [_ Hl].
  rewrite Hev in Hl. exact Hl.
Defined.

(** ** Hooks on an empty scope stack *)

(** An after hook called on an activation whose scope stack is empty
    raises IndexError and leaves the collector as it was. *)
Theorem after_hook_empty_stack (h : after_hook) (act : Z) (args : after_args)
    (a : Activation) (c : Collector) :
  activations c !! act = Some a -> a_dependencies a = [] ->
  call_after h act args c = Raise IndexError c.
Proof.
  intros Ha Hd.
  destruct h; simpl;
    unfold _operation, _container, _dict, _dict_key, _dict_value, _list,
      _item, _assign_value, _argument, _return, pop_scope, update_top_scope,
      bind, get_activation;
    by rewrite Ha, Hd.
Qed.

Lemma after_hook_empty_stack_witness :
  exists a,
    activations
      (result_state (update_activation 1 (set_a_dependencies (fun _ => []))
                       Examples.script_started)) !! 1 = Some a /\
    a_dependencies a = [] /\
    call_after after_operation 1 (Examples.plain_args 7 Examples.one)
      (result_state (update_activation 1 (set_a_dependencies (fun _ => []))
                       Examples.script_started))
    = Raise IndexError
        (result_state (update_activation 1 (set_a_dependencies (fun _ => []))
                         Examples.script_started)).
Proof.
  assert (Ha : exists a,
            activations
              (result_state (update_activation 1 (set_a_dependencies (fun _ => []))
                               Examples.script_started)) !! 1 = Some a /\
            a_dependencies a = []).
  { eexists. split; [vm_compute; reflexivity | reflexivity]. }
  destruct Ha as (a & Ha & Hd). exists a.
  split; [exact Ha|]. split; [exact Hd|].
  exact (after_hook_empty_stack after_operation 1 _ a _ Ha Hd).
Defined.

(** ** Pending assignments *)

(** [_assign_value] followed by [pop_assign] hands over what was
    recorded: [_assign_value] pops the top scope and queues it with the
    value and the time; [pop_assign] then returns exactly that record
    and leaves the queue of pending assignments as it was before. *)
Theorem assign_value_pop_assign (act : Z) (value : pyobj) (a : Activation)
    (rest : list DependencyAware) (top : DependencyAware) (c : Collector) :
  activations c !! act = Some a -> a_dependencies a = rest ++ [top] ->
  exists c1 c2,
    _assign_value act value c = Ok value c1 /\
    pop_assign act c1 = Ok (mkAssign (clock c) value top) c2 /\
    activations c2
      = <[act := set_a_dependencies (fun _ => rest) a]> (activations c).
Proof.
  intros Ha Hd.
  set (a1 := set_a_dependencies (fun _ => rest) a).
  set (a2 := set_a_assignments
               (fun l => l ++ [mkAssign (clock c) value top]) a1).
  set (c1 := set_activations (fun m => <[act := a2]> (<[act := a1]> m))
               (set_clock S c)).
  assert (H1 : _assign_value act value c = Ok value c1).
  { unfold _assign_value, pop_scope, update_activation, bind, get_activation.
    rewrite Ha, Hd, pop_last_snoc. simpl. rewrite Ha. simpl.
    rewrite lookup_insert_eq. reflexivity. }
  exists c1. eexists. split; [exact H1|].
  unfold pop_assign, update_activation, bind, get_activation.
  subst c1. simpl. rewrite lookup_insert_eq. subst a2. simpl.
  rewrite pop_last_snoc. simpl. rewrite lookup_insert_eq. simpl.
  split; [reflexivity|]. cbn [activations set_activations set_clock].
  rewrite !insert_insert_eq. reflexivity.
Qed.

Lemma assign_value_pop_assign_witness :
  exists a c1 c2,
    activations (result_state (assign_value 1 Examples.script_started)) !! 1
      = Some a /\
    a_dependencies a = [new_DependencyAware] ++ [new_DependencyAware] /\
    _assign_value 1 Examples.xs
      (result_state (assign_value 1 Examples.script_started))
      = Ok Examples.xs c1 /\
    pop_assign 1 c1 = Ok (mkAssign 1%nat Examples.xs new_DependencyAware) c2.
Proof.
  assert (Ha : exists a,
            activations (result_state (assign_value 1 Examples.script_started))
              !! 1 = Some a /\
            a_dependencies a = [new_DependencyAware] ++ [new_DependencyAware]).
  { eexists. split; [vm_compute; reflexivity | reflexivity]. }
  destruct Ha as (a & Ha & Hd).
  destruct (assign_value_pop_assign 1 Examples.xs a _ _ _ Ha Hd)
    as (c1 & c2 & H1 & H2 & _).
  exists a, c1, c2. split; [exact Ha|]. split; [exact Hd|].
  split; [exact H1 | exact H2].
Defined.

(** ** A dictionary entry *)

(** The four hooks of a dictionary entry are balanced as a whole: after
    [dict_key], [_dict_key], [dict_value] and [_dict_value] the stack of
    the activation has the size it had before [dict_key] ([_dict_key]
    leaves its scope, [_dict_value] takes it with its own).  The hooks
    fired for the key and for the value are assumed balanced. *)
Theorem dict_entry_balanced (act : Z) (key_args value_args : after_args)
    (c c1 c2 c3 c4 c5 c6 : Collector) (h1 h2 : after_hook) (v1 v2 : pyobj) :
  call_before before_dict_key act c = Ok h1 c1 ->
  scope_depth act c2 = scope_depth act c1 ->
  call_after h1 act key_args c2 = Ok v1 c3 ->
  call_before before_dict_value act c3 = Ok h2 c4 ->
  scope_depth act c5 = scope_depth act c4 ->
  call_after h2 act value_args c5 = Ok v2 c6 ->
  scope_depth act c6 = scope_depth act c.
Proof.
  intros Hb1 Hm1 Ha1 Hb2 Hm2 Ha2.
  assert (h1 = after_dict_key) as ->.
  { simpl in Hb1. apply bind_Ok in Hb1 as (? & ? & _ & Hr). by inversion Hr. }
  assert (h2 = after_dict_value) as ->.
  { simpl in Hb2. apply bind_Ok in Hb2 as (? & ? & _ & Hr). by inversion Hr. }
  apply call_before_depth in Hb1 as (n & Hn & Hn1).
  apply call_after_depth in Ha1 as (m & Hm & Hm').
  apply call_before_depth in Hb2 as (k & Hk & Hk1).
  apply call_after_depth in Ha2 as (j & Hj & Hj').
  simpl in Hm, Hj.
  rewrite Hm1, Hn1 in Hm. rewrite Hm' in Hk. rewrite Hm2, Hk1 in Hj.
  rewrite Hj', Hn. f_equal.
  inversion Hm. inversion Hk. inversion Hj. lia.
Qed.

Lemma dict_entry_balanced_witness :
  exists c c1 c3 c4 c5 c6,
    c = result_state (dict_ 1 Examples.script_started) /\
    call_before before_dict_key 1 c = Ok after_dict_key c1 /\
    call_after after_dict_key 1 (Examples.plain_args 7 Examples.one) c1
      = Ok Examples.one c3 /\
    call_before before_dict_value 1 c3 = Ok after_dict_value c4 /\
    literal 1 8 Examples.two "dependency" c4 = Ok Examples.two c5 /\
    scope_depth 1 c5 = scope_depth 1 c4 /\
    call_after after_dict_value 1 (Examples.plain_args 9 Examples.two) c5
      = Ok Examples.two c6 /\
    scope_depth 1 c6 = scope_depth 1 c.
Proof.
  eexists _, _, _, _, _, _.
  split; [reflexivity|].
  match goal with
  | |- ?m = Ok ?v _ /\ _ =>
      assert (H1 : m = Ok v (result_state m)) by run_hook
  end.
  split; [exact H1|].
  match goal with
  | |- ?m = Ok ?v _ /\ _ =>
      assert (H2 : m = Ok v (result_state m)) by run_hook
  end.
  split; [exact H2|].
  match goal with
  | |- ?m = Ok ?v _ /\ _ =>
      assert (H3 : m = Ok v (result_state m)) by run_hook
  end.
  split; [exact H3|].
  match goal with
  | |- ?m = Ok ?v _ /\ _ =>
      assert (H4 : m = Ok v (result_state m)) by run_hook
  end.
  split; [exact H4|].
  match goal with
  | |- ?l = ?r /\ _ => assert (H5 : l = r) by (vm_compute; reflexivity)
  end.
  split; [exact H5|].
  match goal with
  | |- ?m = Ok ?v _ /\ _ =>
      assert (H6 : m = Ok v (result_state m)) by run_hook
  end.
  split; [exact H6|].
  exact (dict_entry_balanced 1 _ _ _ _ _ _ _ _ _ _ _ _ _ H1 eq_refl H2 H3 H5 H6).
Defined.

(** ** Builtins *)

Lemma lookup_context_reads_activations fuel activation name r c c' :
  activations c' = activations c ->
  lookup_context fuel activation name c = Ok r c ->
  lookup_context fuel activation name c' = Ok r c'.
Proof.
  intros Hacts. revert activation.
  induction fuel as [|fuel IH]; intros [act|]; simpl; try discriminate.
  - intros H. by inversion H.
  - unfold bind, get_activation. rewrite Hacts.
    destruct (activations c !! act) as [a|]; [|discriminate].
    destruct (a_context a !! name); [intros H; by inversion H|apply IH].
  - intros H. by inversion H.
Qed.

(** The evaluation of a builtin is created once: the first [lookup] of
    a name that no activation of the closure chain binds and that is a
    builtin stores a code component of type [global], a Value and an
    Evaluation for it and caches the evaluation in [global_evaluations];
    a second [lookup] returns the same evaluation and changes nothing. *)
Theorem lookup_builtin_cached (act : Z) (name : string) (obj : pyobj)
    (c : Collector) :
  lookup_context (S (size (activations c))) (Some act) name c = Ok None c ->
  global_evaluations c !! name = None -> globals c !! name = Some obj ->
  lookup_ act name c
    = Ok (Some (evaluations_id c + 1)) (builtin_looked_up name obj c) /\
  lookup_ act name (builtin_looked_up name obj c)
    = Ok (Some (evaluations_id c + 1)) (builtin_looked_up name obj c).
Proof.
  intros Hchain Hge Hg.
  assert (Hacts : activations (builtin_looked_up name obj c) = activations c).
  { unfold builtin_looked_up. simpl.
    match goal with
    | |- context [add_value obj ?c2] =>
        destruct (add_value_untouched obj c2) as (_ & _ & Hact & _);
        cbv zeta in Hact; by rewrite Hact
    end. }
  split.
  - unfold lookup_.
    rewrite (bind_run (gets (fun c => S (size (activations c)))) _ c
               (S (size (activations c))) c eq_refl).
    rewrite (bind_run _ _ _ _ _ Hchain).
    unfold bind, gets. rewrite Hge, Hg. simpl.
    unfold lift, builtin_looked_up.
    match goal with
    | |- context [add_value obj ?c2] =>
        destruct (add_value_untouched obj c2) as (_ & Hid & _);
        cbv zeta in Hid; destruct (add_value obj c2) as [i c3]
    end.
    simpl in Hid |- *. unfold ret. by rewrite Hid.
  - unfold lookup_.
    rewrite (bind_run (gets (fun c => S (size (activations c)))) _ _
               (S (size (activations (builtin_looked_up name obj c)))) _ eq_refl).
    rewrite Hacts.
    rewrite (bind_run _ _ _ _ _
               (lookup_context_reads_activations _ _ _ _ _ _ Hacts Hchain)).
    unfold bind, gets.
    assert (Hcached : global_evaluations (builtin_looked_up name obj c) !! name
                      = Some (evaluations_id c + 1)).
    { unfold builtin_looked_up. simpl. by rewrite lookup_insert_eq. }
    by rewrite Hcached.
Qed.

Lemma lookup_builtin_cached_witness :
  lookup_ 1 "len"
    (result_state (start_activation "script" 1 1 (-1)
                     (new_collector {["len" := Examples.len_function]})))
    = Ok (Some 2)
        (builtin_looked_up "len" Examples.len_function
           (result_state (start_activation "script" 1 1 (-1)
                            (new_collector {["len" := Examples.len_function]}))))
  /\
  lookup_ 1 "len"
    (builtin_looked_up "len" Examples.len_function
       (result_state (start_activation "script" 1 1 (-1)
                        (new_collector {["len" := Examples.len_function]}))))
    = Ok (Some 2)
        (builtin_looked_up "len" Examples.len_function
           (result_state (start_activation "script" 1 1 (-1)
                            (new_collector {["len" := Examples.len_function]})))).
Proof.
  apply (lookup_builtin_cached 1 "len" Examples.len_function
           (result_state (start_activation "script" 1 1 (-1)
                            (new_collector {["len" := Examples.len_function]}))));
    vm_compute; reflexivity.
Defined.

(** ** Items of a collection *)

Lemma pop_last_snoc2 {A} (l : list A) (x y : A) :
  pop_last (l ++ [x; y]) = Some (l ++ [x], y).
Proof.
  replace (l ++ [x; y]) with ((l ++ [x]) ++ [y]) by by rewrite <- app_assoc.
  apply pop_last_snoc.
Qed.

(** An item whose scope collected exactly one dependency passes that
    dependency on: [_item] creates no evaluation, no Value and no edge
    and allocates no Dependency; it adds the very same Dependency object
    to the enclosing scope and records the item there with the value id
    of that dependency and the current time; the key recorded is the
    key given, or the value itself when the key given is Python's
    [None].  The enclosing scope must be one that has [items]. *)
Theorem item_single_dependency (act code_id : Z) (value : pyobj)
    (key : pyobj) (a : Activation) (rest : list DependencyAware)
    (below top : DependencyAware) (r : nat) (d : Dependency)
    (items : list (pyobj * option Z * option moment)) (c : Collector) :
  activations c !! act = Some a ->
  a_dependencies a = rest ++ [below; top] ->
  depa_dependencies top = [r] ->
  dep_heap c !! r = Some d ->
  depa_items below = Some items ->
  exists c',
    _item act code_id value key c = Ok value c' /\
    activations c' !! act
      = Some (set_a_dependencies
                (fun _ => rest ++
                   [depa_set_items
                      (items ++ [(if py_is key py_None then value else key, dep_value_id d,
                                  Some (clock c))])
                      (depa_add r below)]) a) /\
    evaluations c' = evaluations c /\ evaluations_id c' = evaluations_id c /\
    values c' = values c /\ dependencies c' = dependencies c /\
    dep_heap c' = dep_heap c.
Proof.
  intros Ha Hd Htop Hr Hitems.
  eexists. split.
  - unfold _item, pop_scope, update_activation, bind, get_activation.
    rewrite Ha, Hd, pop_last_snoc2. simpl. rewrite Ha. simpl.
    rewrite Htop. unfold ret, get_dep. simpl. rewrite Hr.
    unfold time, add_to_top, update_top_scope, update_activation, bind,
      get_activation. simpl. rewrite lookup_insert_eq. simpl.
    rewrite pop_last_snoc. simpl. rewrite lookup_insert_eq. simpl.
    unfold append_item_to_top, top_scope, update_top_scope, update_activation,
      bind, get_activation. simpl. rewrite lookup_insert_eq. simpl.
    rewrite pop_last_snoc. simpl. rewrite Hitems. simpl.
    rewrite lookup_insert_eq. simpl. rewrite pop_last_snoc. simpl.
    rewrite lookup_insert_eq. simpl. reflexivity.
  - simpl. rewrite lookup_insert_eq. repeat split; reflexivity.
Qed.

Lemma item_single_dependency_witness :
  exists a d c',
    activations
      (result_state
         (literal 1 7 Examples.one "dependency"
            (result_state
               (item 1 (result_state (list_ 1 Examples.script_started))))))
      !! 1 = Some a /\
    a_dependencies a
      = [new_DependencyAware] ++
        [new_CollectionDependencyAware; depa_add 0%nat new_DependencyAware] /\
    dep_heap
      (result_state
         (literal 1 7 Examples.one "dependency"
            (result_state
               (item 1 (result_state (list_ 1 Examples.script_started))))))
      !! 0%nat = Some d /\
    _item 1 8 Examples.one py_None
      (result_state
         (literal 1 7 Examples.one "dependency"
            (result_state
               (item 1 (result_state (list_ 1 Examples.script_started))))))
      = Ok Examples.one c' /\
    dep_heap c'
      = dep_heap
          (result_state
             (literal 1 7 Examples.one "dependency"
                (result_state
                   (item 1 (result_state (list_ 1 Examples.script_started)))))).
Proof.
  assert (Ha : exists a,
            activations
              (result_state
                 (literal 1 7 Examples.one "dependency"
                    (result_state
                       (item 1 (result_state (list_ 1 Examples.script_started))))))
              !! 1 = Some a /\
            a_dependencies a
              = [new_DependencyAware] ++
                [new_CollectionDependencyAware;
                 depa_add 0%nat new_DependencyAware]).
  { eexists. split; [vm_compute; reflexivity | reflexivity]. }
  destruct Ha as (a & Ha & Hd).
  assert (Hr : exists d,
            dep_heap
              (result_state
                 (literal 1 7 Examples.one "dependency"
                    (result_state
                       (item 1 (result_state (list_ 1 Examples.script_started))))))
              !! 0%nat = Some d).
  { eexists. vm_compute. reflexivity. }
  destruct Hr as (d & Hr).
  destruct (item_single_dependency 1 8 Examples.one py_None a _ _ _ 0%nat d []
              _ Ha Hd eq_refl Hr eq_refl)
    as (c' & H1 & _ & _ & _ & _ & _ & H2).
  exists a, d, c'. repeat split; assumption.
Defined.

(** ** A bound name *)

(** Reading a name that the activation binds stores no Value: the new
    evaluation takes the value id of the evaluation the name is bound
    to, whatever the value read is, the top scope gets a Dependency on
    the new evaluation, and one edge of mode [assignment] links the new
    evaluation to the old one. *)
Theorem name_bound_reuses_value (act code_id : Z) (nm mode : string)
    (value : pyobj) (a : Activation) (e : Z) (ev : Evaluation)
    (rest : list DependencyAware) (top : DependencyAware) (c : Collector) :
  activations c !! act = Some a -> a_context a !! nm = Some e ->
  evaluations c !! e = Some ev -> e <> evaluations_id c + 1 ->
  a_dependencies a = rest ++ [top] ->
  exists c',
    name act (Some (code_id, nm)) value mode c = Ok value c' /\
    values c' = values c /\
    evaluations c'
      = <[evaluations_id c + 1 :=
            mkEvaluation (evaluations_id c + 1) code_id (a_id a)
              (Some (clock c)) (e_value_id ev)]> (evaluations c) /\
    dependencies c'
      = dependencies c ++
        [mkDependencyRecord (Z.of_nat (length (dependencies c)) + 1)
           (a_id a) (evaluations_id c + 1) (e_activation_id ev) (e_id ev)
           "assignment"] /\
    dep_heap c'
      = dep_heap c ++
        [new_Dependency (a_id a) (evaluations_id c + 1) value
           (e_value_id ev) mode] /\
    activations c' !! act
      = Some (set_a_dependencies
                (fun _ => rest ++ [depa_add (length (dep_heap c)) top]) a).
Proof.
  intros Ha Hctx Hev Hne Hd.
  eexists. split.
  - unfold name.
    rewrite (bind_run _ _ _ _ _ (lookup_local act nm a e c Ha Hctx)).
    unfold bind at 1. unfold bind at 1. unfold get_evaluation at 1.
    rewrite Hev. unfold ret at 1.
    unfold bind, get_activation. rewrite Ha. unfold time.
    unfold evaluations_add, evaluations_add_object, bind, ret. simpl.
    unfold add_new_to_top, top_scope, bind, get_activation. simpl.
    rewrite Ha, Hd, pop_last_snoc. simpl.
    unfold add_to_top, update_top_scope, update_activation, bind,
      get_activation. simpl.
    rewrite Ha, Hd, pop_last_snoc. simpl. rewrite Ha. simpl.
    unfold get_evaluation. simpl.
    rewrite lookup_insert_ne by done. rewrite Hev. simpl. reflexivity.
  - simpl. rewrite lookup_insert_eq. repeat split; reflexivity.
Qed.

Lemma name_bound_reuses_value_witness :
  exists a ev c',
    activations
      (result_state
         (update_activation 1 (set_a_context (fun m => <["x" := 1]> m))
            Examples.script_started)) !! 1 = Some a /\
    a_context a !! "x" = Some 1 /\
    evaluations
      (result_state
         (update_activation 1 (set_a_context (fun m => <["x" := 1]> m))
            Examples.script_started)) !! 1 = Some ev /\
    name 1 (Some (7, "x")) Examples.one "dependency"
      (result_state
         (update_activation 1 (set_a_context (fun m => <["x" := 1]> m))
            Examples.script_started))
      = Ok Examples.one c' /\
    values c'
      = values
          (result_state
             (update_activation 1 (set_a_context (fun m => <["x" := 1]> m))
                Examples.script_started)).
Proof.
  assert (Ha : exists a,
            activations
              (result_state
                 (update_activation 1 (set_a_context (fun m => <["x" := 1]> m))
                    Examples.script_started)) !! 1 = Some a /\
            a_context a !! "x" = Some 1 /\
            a_dependencies a = [] ++ [new_DependencyAware]).
  { eexists. split; [vm_compute; reflexivity|]. split; reflexivity. }
  destruct Ha as (a & Ha & Hx & Hd).
  assert (Hev : exists ev,
            evaluations
              (result_state
                 (update_activation 1 (set_a_context (fun m => <["x" := 1]> m))
                    Examples.script_started)) !! 1 = Some ev).
  { eexists. vm_compute. reflexivity. }
  destruct Hev as (ev & Hev).
  assert (Hne : 1 <> evaluations_id
                       (result_state
                          (update_activation 1
                             (set_a_context (fun m => <["x" := 1]> m))
                             Examples.script_started)) + 1).
  { vm_compute. discriminate. }
  destruct (name_bound_reuses_value 1 7 "x" "dependency" Examples.one a 1 ev
              [] new_DependencyAware _ Ha Hx Hev Hne Hd)
    as (c' & H1 & H2 & _).
  exists a, ev, c'. repeat split; assumption.
Defined.

(** ** Collections *)

Lemma pop_scope_Ok act c top c1 :
  pop_scope act c = Ok top c1 ->
  exists a rest,
    activations c !! act = Some a /\ a_dependencies a = rest ++ [top] /\
    compartments c1 = compartments c /\ evaluations_id c1 = evaluations_id c.
Proof.
  unfold pop_scope. intros H.
  apply bind_Ok in H as (a & c0 & Ha & H).
  apply get_activation_Ok in Ha as [-> Ha].
  destruct (pop_last (a_dependencies a)) as [[rest top']|] eqn:E; [|discriminate].
  apply bind_Ok in H as (u & c2 & Hu & H). inversion H; subst top' c2.
  apply update_activation_Ok in Hu as (a' & _ & ->).
  exists a, rest. split; [done|]. split; [by apply pop_last_Some|]. done.
Qed.

Lemma add_compartments_Ok depa evaluation c u c' :
  add_compartments depa evaluation c = Ok u c' ->
  exists items,
    depa_items depa = Some items /\
    compartments c' = add_parts (compartments c) (e_value_id evaluation) items.
Proof.
  unfold add_compartments.
  destruct (depa_items depa) as [items|]; [|discriminate].
  intros H. exists items. split; [done|].
  revert c H. induction items as [|[[key value_id] moment] items IH];
    intros c H; simpl in H.
  - by inversion H.
  - apply bind_Ok in H as (u' & c1 & H1 & H).
    inversion H1; subst u' c1. apply IH in H. exact H.
Qed.

Lemma keeps_compartments_evaluate act code value moment depa :
  keeps (unchanged compartments) (evaluate act code value moment depa).
Proof. frame. Qed.

(** A list, tuple, set or dictionary display records its parts: [_list]
    and [_dict] take the scope on top of the stack, create one
    evaluation for the collection and add one compartment per item of
    that scope, in the order of the items, each with the value id of the
    new evaluation as its whole. *)
Theorem collection_records_parts (act code_id : Z) (value : pyobj)
    (mode : string) (c : Collector) (v : pyobj) (c' : Collector) :
  _list act code_id value mode c = Ok v c' \/
  _dict act code_id value mode c = Ok v c' ->
  exists a rest top items ev,
    activations c !! act = Some a /\ a_dependencies a = rest ++ [top] /\
    depa_items top = Some items /\
    evaluations c' !! (evaluations_id c + 1) = Some ev /\
    e_code_component_id ev = code_id /\
    compartments c' = add_parts (compartments c) (e_value_id ev) items.
Proof.
  intros H.
  assert (Hrun : exists top c1 ev c2 c3,
            pop_scope act c = Ok top c1 /\
            evaluate act code_id value None (Some top) c1 = Ok ev c2 /\
            add_compartments top ev c2 = Ok tt c3 /\
            compartments c' = compartments c3 /\
            evaluations c' = evaluations c3).
  { destruct H as [H|H]; [unfold _list in H | unfold _dict in H].
    all: apply bind_Ok in H as (top & c1 & Hpop & H).
    all: apply bind_Ok in H as (ev & c2 & Hev & H).
    all: apply bind_Ok in H as ([] & c3 & Hadd & H).
    all: exists top, c1, ev, c2, c3.
    all: split; [exact Hpop|]; split; [exact Hev|]; split; [exact Hadd|].
    all: match type of H with
         | ?m _ = Ok _ _ =>
             assert (Hk1 : keeps (unchanged compartments) m)
               by (unfold add_to_top, update_dep; frame);
             assert (Hk2 : keeps (unchanged evaluations) m)
               by (unfold add_to_top, update_dep; frame)
         end.
    all: split; [exact (Hk1 _ _ _ H) | exact (Hk2 _ _ _ H)]. }
  destruct Hrun as (top & c1 & ev & c2 & c3 & Hpop & Hev & Hadd & Hc & He).
  apply pop_scope_Ok in Hpop as (a & rest & Ha & Hd & Hc1 & Hi1).
  pose proof (keeps_compartments_evaluate _ _ _ _ _ _ _ _ Hev) as Hc2.
  apply evaluate_Ok in Hev as (a' & ds & _ & Hevq & _ & He2 & _).
  assert (Hk3 : evaluations c3 = evaluations c2).
  { assert (Hk : keeps (unchanged evaluations) (add_compartments top ev))
      by (unfold add_compartments, compartments_add_object; frame).
    exact (Hk _ _ _ Hadd). }
  apply add_compartments_Ok in Hadd as (items & Hitems & Hparts).
  exists a, rest, top, items, ev.
  split; [exact Ha|]. split; [exact Hd|]. split; [exact Hitems|].
  split; [|split].
  - rewrite He, Hk3, He2. rewrite Hevq at 1. simpl.
    rewrite Hi1. by rewrite lookup_insert_eq.
  - by rewrite Hevq.
  - unfold unchanged in Hc2. by rewrite Hc, Hparts, Hc2, Hc1.
Qed.

Lemma collection_records_parts_witness :
  exists c' items ev,
    _list 1 9 Examples.xs "collection"
      (result_state
         (_item 1 8 Examples.one py_None
            (result_state
               (literal 1 7 Examples.one "dependency"
                  (result_state
                     (item 1 (result_state (list_ 1 Examples.script_started))))))))
      = Ok Examples.xs c' /\
    evaluations c' !!
      (evaluations_id
         (result_state
            (_item 1 8 Examples.one py_None
               (result_state
                  (literal 1 7 Examples.one "dependency"
                     (result_state
                        (item 1
                           (result_state (list_ 1 Examples.script_started))))))))
       + 1) = Some ev /\
    compartments c'
      = add_parts
          (compartments
             (result_state
                (_item 1 8 Examples.one py_None
                   (result_state
                      (literal 1 7 Examples.one "dependency"
                         (result_state
                            (item 1
                               (result_state
                                  (list_ 1 Examples.script_started)))))))))
          (e_value_id ev) items.
Proof.
  match goal with
  | |- exists c' _ _, ?m = Ok ?v c' /\ _ =>
      assert (H : m = Ok v (result_state m)) by run_hook
  end.
  destruct (collection_records_parts 1 9 Examples.xs "collection" _ _ _
              (or_introl H))
    as (a & rest & top & items & ev & _ & _ & _ & Hev & _ & Hparts).
  exists (result_state
            (_list 1 9 Examples.xs "collection"
               (result_state
                  (_item 1 8 Examples.one py_None
                     (result_state
                        (literal 1 7 Examples.one "dependency"
                           (result_state
                              (item 1
                                 (result_state
                                    (list_ 1 Examples.script_started)))))))))),
    items, ev.
  split; [exact H|]. split; [exact Hev | exact Hparts].
Defined.

(** ** Starting a call *)

(** [call] starts the activation of the callee: it needs the name of
    the function, creates an evaluation with neither moment nor value in
    the calling activation, and makes current a new activation that has
    the id of that evaluation, no known definition ([code_block_id] is
    -1), the function and the mode, and one more scope than a fresh
    activation.  The hook returned is [_call]. *)
Theorem call_starts_activation (act code_id : Z) (func : pyobj) (mode : string)
    (c : Collector) (h : call_hook) (c' : Collector) :
  call act code_id func mode c = Ok h c' ->
  exists parent nm,
    h = after_call /\ py_name func = Some nm /\
    activations c !! act = Some parent /\
    evaluations c'
      = <[evaluations_id c + 1 :=
            mkEvaluation (evaluations_id c + 1) code_id (a_id parent)
              None None]> (evaluations c) /\
    last_activation c' = evaluations_id c + 1 /\
    activations c' !! (evaluations_id c + 1)
      = Some (mkActivation (evaluations_id c + 1) nm (Some (clock c))
                (Some (-1)) (evaluations_id c + 1) (Some (a_id parent)) ∅
                [new_DependencyAware; new_DependencyAware] [] (Some func) mode).
Proof.
  unfold call. intros H.
  apply bind_Ok in H as (nm & c0 & Hnm & H).
  destruct (py_name func) as [nm'|] eqn:Hname; [|discriminate].
  inversion Hnm; subst nm' c0. clear Hnm.
  unfold start_activation in H.
  apply bind_Ok in H as (new & c1 & Hstart & H).
  apply bind_Ok in Hstart as (parent & c0 & Hp & Hstart).
  apply get_activation_Ok in Hp as [-> Hp].
  unfold evaluations_add_object, time, modify, bind, ret in Hstart.
  simpl in Hstart. inversion Hstart; subst new c1. clear Hstart.
  unfold push_scope, update_activation, bind, get_activation, modify, ret in H.
  simpl in H. rewrite lookup_insert_eq in H. simpl in H.
  rewrite lookup_insert_eq in H. simpl in H.
  inversion H; subst h c'. clear H.
  exists parent, nm. simpl. rewrite lookup_insert_eq.
  repeat split; try reflexivity. exact Hp.
Qed.

Lemma call_starts_activation_witness :
  exists parent nm,
    call 1 3 Examples.len_function "dependency" Examples.script_started
      = Ok after_call
          (result_state
             (call 1 3 Examples.len_function "dependency"
                Examples.script_started)) /\
    py_name Examples.len_function = Some nm /\
    activations Examples.script_started !! 1 = Some parent /\
    last_activation
      (result_state
         (call 1 3 Examples.len_function "dependency" Examples.script_started))
      = evaluations_id Examples.script_started + 1.
Proof.
  assert (H : call 1 3 Examples.len_function "dependency"
                Examples.script_started
              = Ok after_call
                  (result_state
                     (call 1 3 Examples.len_function "dependency"
                        Examples.script_started))) by run_hook.
  destruct (call_starts_activation 1 3 Examples.len_function "dependency"
              _ _ _ H) as (parent & nm & _ & Hnm & Hp & _ & Hlast & _).
  exists parent, nm.
  split; [exact H|]. split; [exact Hnm|]. split; [exact Hp | exact Hlast].
Defined.

(** ** Arguments *)

(** An argument whose scope collected exactly one dependency keeps that
    dependency: [_argument] creates no evaluation, leaves the mode of
    the Dependency as it is (the default mode [argument] is only given
    to a Dependency it creates), sets its [arg] and its [kind] (kind
    [argument] by default) on the object itself, and adds it to the top
    scope of the current activation, not to the stack it was taken
    from. *)
Theorem argument_single_dependency (act code_id : Z) (value : pyobj)
    (mode arg kind : string) (a la : Activation)
    (rest lrest : list DependencyAware) (top ltop : DependencyAware)
    (r : nat) (d : Dependency) (c : Collector) :
  activations c !! act = Some a -> a_dependencies a = rest ++ [top] ->
  depa_dependencies top = [r] -> dep_heap c !! r = Some d ->
  last_activation c <> act ->
  activations c !! last_activation c = Some la ->
  a_dependencies la = lrest ++ [ltop] ->
  exists c',
    _argument act code_id value mode arg kind c = Ok value c' /\
    dep_heap c'
      = <[r := set_dep_arg_kind arg
                 (if bool_decide (kind = "") then "argument" else kind) d]>
          (dep_heap c) /\
    activations c' !! act = Some (set_a_dependencies (fun _ => rest) a) /\
    activations c' !! last_activation c
      = Some (set_a_dependencies (fun _ => lrest ++ [depa_add r ltop]) la) /\
    evaluations c' = evaluations c /\ dependencies c' = dependencies c /\
    values c' = values c.
Proof.
  intros Ha Hd Htop Hr Hne Hla Hld.
  eexists. split.
  - unfold _argument, pop_scope, update_activation, bind, get_activation.
    rewrite Ha, Hd, pop_last_snoc. simpl. rewrite Ha. simpl.
    rewrite Htop. unfold ret, update_dep, get_dep, bind. simpl. rewrite Hr.
    simpl. unfold add_to_top, update_top_scope, update_activation, bind,
      get_activation, gets. simpl.
    rewrite lookup_insert_ne by done. rewrite Hla, Hld, pop_last_snoc. simpl.
    rewrite lookup_insert_ne by done. rewrite Hla. simpl. reflexivity.
  - simpl. rewrite lookup_insert_eq.
    rewrite lookup_insert_ne by done. rewrite lookup_insert_eq.
    repeat split; reflexivity.
Qed.

Lemma argument_single_dependency_witness :
  exists a la d c',
    activations
      (result_state
         (literal 1 7 Examples.one "dependency"
            (result_state
               (argument 1
                  (result_state
                     (call 1 3 Examples.len_function "dependency"
                        Examples.script_started)))))) !! 1 = Some a /\
    activations
      (result_state
         (literal 1 7 Examples.one "dependency"
            (result_state
               (argument 1
                  (result_state
                     (call 1 3 Examples.len_function "dependency"
                        Examples.script_started)))))) !! 2 = Some la /\
    dep_heap
      (result_state
         (literal 1 7 Examples.one "dependency"
            (result_state
               (argument 1
                  (result_state
                     (call 1 3 Examples.len_function "dependency"
                        Examples.script_started)))))) !! 0%nat = Some d /\
    _argument 1 8 Examples.one "" "" ""
      (result_state
         (literal 1 7 Examples.one "dependency"
            (result_state
               (argument 1
                  (result_state
                     (call 1 3 Examples.len_function "dependency"
                        Examples.script_started))))))
      = Ok Examples.one c' /\
    dep_heap c' = [set_dep_arg_kind "" "argument" d].
Proof.
  assert (Ha : exists a,
            activations
              (result_state
                 (literal 1 7 Examples.one "dependency"
                    (result_state
                       (argument 1
                          (result_state
                             (call 1 3 Examples.len_function "dependency"
                                Examples.script_started)))))) !! 1 = Some a /\
            a_dependencies a
              = [new_DependencyAware] ++ [depa_add 0%nat new_DependencyAware]).
  { eexists. split; [vm_compute; reflexivity | reflexivity]. }
  destruct Ha as (a & Ha & Hd).
  assert (Hla : exists la,
            activations
              (result_state
                 (literal 1 7 Examples.one "dependency"
                    (result_state
                       (argument 1
                          (result_state
                             (call 1 3 Examples.len_function "dependency"
                                Examples.script_started)))))) !! 2 = Some la /\
            a_dependencies la = [new_DependencyAware] ++ [new_DependencyAware]).
  { eexists. split; [vm_compute; reflexivity | reflexivity]. }
  destruct Hla as (la & Hla & Hld).
  assert (Hr : exists d,
            dep_heap
              (result_state
                 (literal 1 7 Examples.one "dependency"
                    (result_state
                       (argument 1
                          (result_state
                             (call 1 3 Examples.len_function "dependency"
                                Examples.script_started)))))) !! 0%nat = Some d /\
            dep_heap
              (result_state
                 (literal 1 7 Examples.one "dependency"
                    (result_state
                       (argument 1
                          (result_state
                             (call 1 3 Examples.len_function "dependency"
                                Examples.script_started)))))) = [d]).
  { eexists. split; vm_compute; reflexivity. }
  destruct Hr as (d & Hr & Hheap).
  assert (Hne : last_activation
                  (result_state
                     (literal 1 7 Examples.one "dependency"
                        (result_state
                           (argument 1
                              (result_state
                                 (call 1 3 Examples.len_function "dependency"
                                    Examples.script_started)))))) <> 1).
  { vm_compute. discriminate. }
  destruct (argument_single_dependency 1 8 Examples.one "" "" "" a la
              _ _ _ _ 0%nat d _ Ha Hd eq_refl Hr Hne Hla Hld)
    as (c' & H1 & H2 & _).
  exists a, la, d, c'.
  split; [exact Ha|]. split; [exact Hla|]. split; [exact Hr|].
  split; [exact H1|]. rewrite H2, Hheap. reflexivity.
Defined.

(** ** The scope stack: calls and function definitions *)

Lemma call_Ok_depths act code_id func mode c h c1 :
  call act code_id func mode c = Ok h c1 ->
  h = after_call /\
  last_activation c1 = evaluations_id c + 1 /\
  scope_depth (evaluations_id c + 1) c1 = Some 2%nat /\
  forall k, k <> evaluations_id c + 1 -> scope_depth k c1 = scope_depth k c.
Proof.
  unfold call. intros H.
  apply bind_Ok in H as (nm & c0 & Hnm & H).
  destruct (py_name func) as [nm'|]; [|discriminate].
  inversion Hnm; subst nm' c0. clear Hnm.
  unfold start_activation in H.
  apply bind_Ok in H as (new & c2 & Hstart & H).
  apply bind_Ok in Hstart as (parent & c0 & Hp & Hstart).
  apply get_activation_Ok in Hp as [-> Hp].
  unfold evaluations_add_object, time, modify, bind, ret in Hstart.
  simpl in Hstart. inversion Hstart; subst new c2. clear Hstart.
  unfold push_scope, update_activation, bind, get_activation, modify, ret in H.
  simpl in H. rewrite lookup_insert_eq in H. simpl in H.
  rewrite lookup_insert_eq in H. simpl in H.
  inversion H; subst h c1. clear H.
  split; [reflexivity|]. split; [reflexivity|]. split.
  - unfold scope_depth. simpl. by rewrite lookup_insert_eq.
  - intros k Hk. unfold scope_depth. simpl.
    by rewrite !lookup_insert_ne.
Qed.

Lemma func_Ok_depths act code_id func_id func mode c h c' :
  ids_issued c ->
  _func act code_id func_id func mode c = Ok h c' ->
  h = after_call /\
  exists n, scope_depth act c = Some (S n) /\ scope_depth act c' = Some n.
Proof.
  intros Hids H. unfold _func in H.
  apply bind_Ok in H as (depa & c1 & Hpop & H).
  assert (Hact : act <= evaluations_id c1).
  { assert (Hk : keeps (unchanged evaluations_id) (pop_scope act)) by frame.
    rewrite (Hk _ _ _ Hpop). apply Hids.
    unfold pop_scope in Hpop. apply bind_Ok in Hpop as (a & c0 & Ha & _).
    apply get_activation_Ok in Ha as [_ Ha]. by eexists. }
  apply pop_scope_depth in Hpop as (n & Hn & Hn1).
  apply bind_Ok in H as (r & c2 & Hdep & H).
  assert (Hc2 : scope_depth act c2 = Some n /\ act <= evaluations_id c2).
  { destruct (depa_dependencies depa) as [|r0 [|]].
    2: { inversion Hdep; subst. done. }
    all: apply bind_Ok in Hdep as (now & c3 & Hnow & Hdep);
      inversion Hnow; subst now c3; clear Hnow;
      apply bind_Ok in Hdep as (ev & c3 & Hev & Hdep);
      assert (Hk : keeps same_depths
                (evaluate act func_id func (Some (clock c1)) (Some depa)))
        by (unfold evaluate; keeps_depths);
      pose proof (Hk _ _ _ Hev act) as Hd3;
      apply evaluate_Ok in Hev as (a' & ds & _ & Hevq & _ & _ & Hid3 & _);
      apply bind_Ok in Hdep as (a & c4 & Ha & Hdep);
      apply get_activation_Ok in Ha as [-> _];
      inversion Hdep; subst r c2; clear Hdep;
      unfold scope_depth in *; simpl in *;
      (split; [by rewrite Hd3|]);
      rewrite Hid3, Hevq; simpl; lia. }
  destruct Hc2 as [Hd2 Hact2].
  apply bind_Ok in H as (h' & c3 & Hcall & H).
  apply call_Ok_depths in Hcall as (-> & _ & _ & Hother).
  apply bind_Ok in H as (last & c4 & Hlast & H). inversion Hlast; subst last c4.
  apply bind_Ok in H as (u & c4 & Hadd & H). inversion H; subst h c4.
  split; [reflexivity|]. exists n. split; [exact Hn|].
  unfold add_to_top in Hadd.
  rewrite (keeps_update_top_scope_depths _ _ _ _ _ Hadd act).
  rewrite Hother by lia. exact Hd2.
Qed.

Lemma call_finally_depths act evaluation result :
  keeps same_depths (call_finally act evaluation result).
Proof.
  intros c u c' H. apply call_finally_Ok in H
    as (a & depa & ds & ev & v & _ & _ & _ & _ & Hact & _).
  intros k. unfold scope_depth. by rewrite Hact.
Qed.

Lemma _call_Ok_depths invoke args c result c' :
  _call invoke args c = Ok result c' ->
  exists activation func c1,
    activations c !! last_activation c = Some activation /\
    a_func activation = Some func /\
    invoke func args c = Ok result c1 /\ same_depths c1 c'.
Proof.
  unfold _call. intros H.
  apply bind_Ok in H as (act & c0 & Hact & H). inversion Hact; subst act c0.
  apply bind_Ok in H as (a0 & c0 & Ha0 & H).
  apply get_activation_Ok in Ha0 as [-> Ha0].
  apply bind_Ok in H as (evaluation & c0 & Hev & H).
  apply get_evaluation_Ok in Hev as [-> Hev].
  apply bind_Ok in H as (r & c2 & Htry & H).
  apply try_except_finally_Ok in Htry as (c1 & Hbody & Hfin).
  destruct (a_func a0) as [func|] eqn:Hfunc; [|done].
  simpl in Hfin. apply call_finally_depths in Hfin.
  apply bind_Ok in H as (last & c3 & Hlast & H). inversion Hlast; subst last c3.
  apply bind_Ok in H as (u & c3 & Hadd & H). inversion H; subst r c3.
  exists a0, func, c1. repeat split; try done.
  assert (Hk : keeps same_depths
            (add_new_to_top (last_activation c2)
               (let! value_id := lift (add_value result) in
                let! activation := get_activation (last_activation c) in
                ret (new_Dependency (e_activation_id evaluation)
                       (e_id evaluation) result (Some value_id)
                       (a_depedency_type activation)))))
    by (unfold add_new_to_top, add_to_top, top_scope; keeps_depths).
  intros k. rewrite (Hk _ _ _ Hadd k). apply Hfin.
Qed.

(** C3, amended: the account of the scope stacks, hook by hook.

    Before hooks.  Every before hook of an expression, [func] and
    [function_def] push exactly one scope on the stack of the
    activation they are given.  [call] pushes none there: it starts a
    new activation and pushes one scope on the stack of that one, on
    top of its initial scope, and leaves every other stack as it is.

    After hooks.  An after hook of an expression that returns has taken
    [pops h] scopes from the stack of its activation: one for
    [_operation], [_dict], [_list], [_item], [_assign_value],
    [_argument] and [_return], whose pair therefore conserves the size
    of the stack; none for [_container] and [_dict_key], which store the
    key in the scope they leave on top; two for [_dict_value], which
    also takes the scope that [dict_key] left.  [_func] and
    [_function_def] take exactly one scope from the stack of the
    activation they are given; [_call] takes none: after it every stack
    has the size the callee left it with.

    The hooks fired between a before hook and its after hook are
    assumed balanced.  For [call] and [_func], which start an
    activation, the ids of the activations are assumed to be ids the
    evaluation store has issued. *)
Theorem scope_stack_accounting (act : Z) (c : Collector) :
  (forall (b : before_hook) (args : after_args) (c1 c2 c3 : Collector)
          (h : after_hook) (v : pyobj),
     call_before b act c = Ok h c1 ->
     scope_depth act c2 = scope_depth act c1 ->
     call_after h act args c2 = Ok v c3 ->
     exists n m : nat,
       scope_depth act c = Some n /\ scope_depth act c1 = Some (S n) /\
       scope_depth act c3 = Some m /\ (m + pops h = n + 1)%nat /\
       (pops h = 1%nat -> scope_depth act c3 = scope_depth act c)) /\
  (forall (h : call_hook) (c1 : Collector),
     func act c = Ok h c1 ->
     h = after_func /\
     exists n : nat,
       scope_depth act c = Some n /\ scope_depth act c1 = Some (S n)) /\
  (forall (h : def_hook) (c1 : Collector),
     function_def act c = Ok h c1 ->
     exists n : nat,
       scope_depth act c = Some n /\ scope_depth act c1 = Some (S n)) /\
  (forall (code_id : Z) (f : pyobj) (mode : string) (h : call_hook)
          (c1 : Collector),
     ids_issued c ->
     call act code_id f mode c = Ok h c1 ->
     h = after_call /\
     scope_depth (last_activation c1) c = None /\
     scope_depth (last_activation c1) c1 = Some 2%nat /\
     forall k : Z,
       k <> last_activation c1 -> scope_depth k c1 = scope_depth k c) /\
  (forall (code_id func_id : Z) (f : pyobj) (mode : string) (h : call_hook)
          (c' : Collector),
     ids_issued c ->
     _func act code_id func_id f mode c = Ok h c' ->
     h = after_call /\
     exists n : nat,
       scope_depth act c = Some (S n) /\ scope_depth act c' = Some n) /\
  (forall (block_id : Z) (arguments : pyobj) (dec : decorator)
          (c' : Collector),
     _function_def act block_id arguments c = Ok dec c' ->
     exists n : nat,
       scope_depth act c = Some (S n) /\ scope_depth act c' = Some n) /\
  (forall (invoke : pyobj -> call_args -> M pyobj) (args : call_args)
          (result : pyobj) (c' : Collector),
     _call invoke args c = Ok result c' ->
     exists (activation : Activation) (f : pyobj) (c1 : Collector),
       activations c !! last_activation c = Some activation /\
       a_func activation = Some f /\
       invoke f args c = Ok result c1 /\
       forall k : Z, scope_depth k c' = scope_depth k c1).
Proof.
  repeat apply conj.
  - intros b args c1 c2 c3 h v Hb Hmid Ha.
    apply call_before_depth in Hb as (n & Hn & Hn1).
    apply call_after_depth in Ha as (m & Hm & Hm').
    rewrite Hmid, Hn1 in Hm. inversion Hm as [Heq].
    exists n, m. repeat split; try done; [lia|].
    intros Hp. rewrite Hm', Hn. f_equal. lia.
  - intros h c1 H. unfold func in H.
    apply bind_Ok in H as (u & c0 & Hp & Hr). inversion Hr; subst.
    split; [reflexivity|]. by eapply push_scope_depth.
  - intros h c1 H. unfold function_def in H.
    apply bind_Ok in H as (u & c0 & Hp & Hr). inversion Hr; subst.
    by eapply push_scope_depth.
  - intros code_id f mode h c1 Hids H.
    apply call_Ok_depths in H as (-> & Hlast & Hnew & Hother).
    rewrite Hlast. split; [reflexivity|]. split; [|split; assumption].
    unfold scope_depth.
    destruct (activations c !! (evaluations_id c + 1)) as [a|] eqn:Ha; [|done].
    assert (evaluations_id c + 1 <= evaluations_id c)
      by (apply Hids; by eexists).
    lia.
  - intros code_id func_id f mode h c' Hids H.
    by eapply func_Ok_depths.
  - intros block_id arguments dec c' H. unfold _function_def in H.
    apply bind_Ok in H as (d & c0 & Hp & Hr). inversion Hr; subst.
    by eapply pop_scope_depth.
  - intros invoke args result c' H.
    apply _call_Ok_depths in H as (a & f & c1 & Ha & Hf & Hinv & Hd).
    exists a, f, c1. repeat split; try done.
Qed.

Lemma ids_issued_script_started : ids_issued Examples.script_started.
Proof.
  assert (H : map_Forall (fun k _ => k <= 1)
                (activations Examples.script_started)).
  { refine (bool_decide_unpack _ _). vm_compute. exact I. }
  intros k [a Hk]. exact (H k a Hk).
Qed.

Lemma scope_stack_accounting_witness :
  (call_before before_list 1 Examples.script_started
     = Ok after_list
         (result_state (call_before before_list 1 Examples.script_started)) /\
   call_after after_list 1 (Examples.plain_args 7 Examples.xs)
       (result_state (call_before before_list 1 Examples.script_started))
     = Ok Examples.xs
         (result_state
            (call_after after_list 1 (Examples.plain_args 7 Examples.xs)
               (result_state
                  (call_before before_list 1 Examples.script_started)))) /\
   scope_depth 1 Examples.script_started = Some 1%nat /\
   scope_depth 1
     (result_state
        (call_after after_list 1 (Examples.plain_args 7 Examples.xs)
           (result_state (call_before before_list 1 Examples.script_started))))
     = Some 1%nat) /\
  (ids_issued Examples.script_started /\
   call 1 3 Examples.len_function "dependency" Examples.script_started
     = Ok after_call
         (result_state
            (call 1 3 Examples.len_function "dependency"
               Examples.script_started)) /\
   scope_depth 2
     (result_state
        (call 1 3 Examples.len_function "dependency" Examples.script_started))
     = Some 2%nat /\
   scope_depth 1
     (result_state
        (call 1 3 Examples.len_function "dependency" Examples.script_started))
     = Some 1%nat).
Proof.
  destruct (scope_stack_accounting 1 Examples.script_started)
    as (Hexpr & _ & _ & Hcall & _).
  split.
  - assert (Hb : call_before before_list 1 Examples.script_started
                 = Ok after_list
                     (result_state
                        (call_before before_list 1 Examples.script_started)))
      by run_hook.
    assert (Ha : call_after after_list 1 (Examples.plain_args 7 Examples.xs)
                   (result_state
                      (call_before before_list 1 Examples.script_started))
                 = Ok Examples.xs
                     (result_state
                        (call_after after_list 1
                           (Examples.plain_args 7 Examples.xs)
                           (result_state
                              (call_before before_list 1
                                 Examples.script_started)))))
      by run_hook.
    split; [exact Hb|]. split; [exact Ha|].
    destruct (Hexpr before_list (Examples.plain_args 7 Examples.xs) _ _ _
                after_list Examples.xs Hb eq_refl Ha)
      as (n & m & Hn & _ & Hm & _ & Hsame).
    assert (H1 : scope_depth 1 Examples.script_started = Some 1%nat)
      by (vm_compute; reflexivity).
    split; [exact H1|]. rewrite (Hsame eq_refl). exact H1.
  - assert (Hc : call 1 3 Examples.len_function "dependency"
                   Examples.script_started
                 = Ok after_call
                     (result_state
                        (call 1 3 Examples.len_function "dependency"
                           Examples.script_started)))
      by run_hook.
    split; [exact ids_issued_script_started|]. split; [exact Hc|].
    destruct (Hcall 3 Examples.len_function "dependency" _ _
                ids_issued_script_started Hc) as (_ & _ & Hnew & Hother).
    assert (Hlast : last_activation
                      (result_state
                         (call 1 3 Examples.len_function "dependency"
                            Examples.script_started)) = 2)
      by (vm_compute; reflexivity).
    rewrite Hlast in Hnew, Hother.
    split; [exact Hnew|].
    rewrite (Hother 1) by discriminate. vm_compute. reflexivity.
Defined.
